(** * Rufux: device safety, partition layout, formatting and image writing

    A shallow embedding of the C sources of Rufux (src/device/device.c,
    src/disk/partition.c, src/format/format.c, src/iso/iso_writer.c and
    src/ui/window.c, with the parts of src/common/utils.c,
    src/common/hash.c, src/iso/iso_analyzer.c and src/iso/iso_extract.c
    they rely on) together with the properties of its specification, C1
    to C10, and further properties of the code, X1 to X30.

    Conventions of the embedding:
    - a C string is a [string]; the string functions of libc are written out
      ([strcmp], [strncmp], [strrchr]) and stop at a zero byte as libc does;
    - [uint64_t] and [unsigned long] values are [Z] with the wrap-around
      modulo 2^64 written at every operation that can wrap;
    - a nullable pointer is an [option];
    - everything the program reads from outside (the mount table, sysfs,
      the result of [waitpid], the exit status of a tool) is an explicit
      input of the function that reads it;
    - calls with an effect on the outside append an event to a trace;
    - [malloc], [strdup] and [calloc] are taken to succeed. *)

From Stdlib Require Import ZArith List String Ascii Bool Lia.
From Stdlib Require Import DecimalString DecimalZ.
From Stdlib Require Import Floats.
From Stdlib Require Import Sorted.
Import ListNotations.

Set Warnings "-inexact-float".

Local Open Scope string_scope.
Local Open Scope Z_scope.

(* ================================================================== *)
(** ** libc string functions *)

Module Libc.

Definition code (c : ascii) : Z := Z.of_nat (nat_of_ascii c).

(** [strcmp]: zero when the two strings agree up to their terminator. *)
Fixpoint strcmp (s1 s2 : string) : Z :=
  match s1, s2 with
  | EmptyString, EmptyString => 0
  | EmptyString, String c2 _ => 0 - code c2
  | String c1 _, EmptyString => code c1
  | String c1 t1, String c2 t2 =>
      if code c1 =? code c2
      then (if code c1 =? 0 then 0 else strcmp t1 t2)
      else code c1 - code c2
  end.

(** [strncmp]: as [strcmp], over at most [n] characters. *)
Fixpoint strncmp (s1 s2 : string) (n : nat) {struct n} : Z :=
  match n with
  | O => 0
  | S n' =>
      match s1, s2 with
      | EmptyString, EmptyString => 0
      | EmptyString, String c2 _ => 0 - code c2
      | String c1 _, EmptyString => code c1
      | String c1 t1, String c2 t2 =>
          if code c1 =? code c2
          then (if code c1 =? 0 then 0 else strncmp t1 t2 n')
          else code c1 - code c2
      end
  end.

(** [strrchr s c]: the suffix of [s] that starts at the last [c]. *)
Fixpoint strrchr (s : string) (c : ascii) : option string :=
  match s with
  | EmptyString => None
  | String a t =>
      match strrchr t c with
      | Some r => Some r
      | None => if Ascii.eqb a c then Some s else None
      end
  end.

(** [p + 1] for a pointer [p] into a string. *)
Definition next (s : string) : string :=
  match s with
  | EmptyString => EmptyString
  | String _ t => t
  end.

Definition strlen (s : string) : nat := String.length s.

(** [isdigit] in the C locale. *)
Definition isdigit (c : ascii) : bool :=
  (48 <=? code c) && (code c <=? 57).

(** Last character of a string, [base[len - 1]] for [len > 0]. *)
Fixpoint last_char (s : string) : option ascii :=
  match s with
  | EmptyString => None
  | String a EmptyString => Some a
  | String _ t => last_char t
  end.

(** The text [printf] writes for [%d]. *)
Definition fmt_d (z : Z) : string := NilZero.string_of_int (Z.to_int z).

(** [snprintf(buf, size, ...)] keeps at most [size - 1] characters. *)
Definition snprintf (size : nat) (s : string) : string :=
  String.substring 0 (size - 1) s.

(** The double-quote character, for command lines. *)
Definition dq : string := String (ascii_of_nat 34) EmptyString.

(** [WIFEXITED] and [WEXITSTATUS] of <sys/wait.h>. *)
Definition WIFEXITED (status : Z) : bool := Z.land status 0x7f =? 0.
Definition WEXITSTATUS (status : Z) : Z := Z.land (Z.shiftr status 8) 0xff.

End Libc.

(* ================================================================== *)
(** ** src/device/device.c *)

Module Device.
Import Libc.

(** Forbidden mountpoints - never allow writing to devices with these. *)
Definition forbidden_mounts : list string :=
  ["/"; "/boot"; "/boot/efi"; "/home"].

Record device_info_t := {
  name : string;
  path : string;
  vendor : option string;
  model : option string;
  serial : option string;
  size : Z;
  removable : bool;
  is_usb : bool;
  bus_type : option string;
  mountpoints : option (list string);
  mountpoint_count : Z
}.

(** [safe_strdup_trim]: the first loop moves the pointer past leading
    spaces, the second lowers the length past trailing ones. *)
Fixpoint skip_spaces (s : string) : string :=
  match s with
  | EmptyString => s
  | String c t => if Ascii.eqb c " "%char then skip_spaces t else s
  end.

Fixpoint trim_end (s : string) (len : nat) : nat :=
  match len with
  | O => O
  | S k =>
      match String.get k s with
      | Some c => if Ascii.eqb c " "%char then trim_end s k else len
      | None => len
      end
  end.

Definition safe_strdup_trim (s : option string) : option string :=
  match s with
  | None => None
  | Some EmptyString => None
  | Some s0 =>
      let s1 := skip_spaces s0 in
      let len := trim_end s1 (strlen s1) in
      if (len =? 0)%nat then None
      else Some (String.substring 0 len s1)
  end.

(** One line of /proc/mounts as [getmntent] returns it. *)
Record mntent := { mnt_fsname : string; mnt_dir : string }.

(** The base name of a device path: the text after the last slash. *)
Definition base_of (p : string) : string :=
  match strrchr p "/"%char with
  | Some r => next r
  | None => p
  end.

(** The loop of [get_mountpoints] over the entries of the mount table:
    [mounts] stays NULL until the first match. *)
Fixpoint get_mountpoints_loop (base : string) (ents : list mntent)
         (mounts : option (list string)) : option (list string) :=
  match ents with
  | [] => mounts
  | ent :: rest =>
      let mnt_base := base_of (mnt_fsname ent) in
      if strncmp mnt_base base (strlen base) =? 0
      then get_mountpoints_loop base rest
             (Some (match mounts with
                    | None => [mnt_dir ent]
                    | Some l => (l ++ [mnt_dir ent])%list
                    end))
      else get_mountpoints_loop base rest mounts
  end.

(** [get_mountpoints]: [proc_mounts] is [None] when [setmntent] fails.
    The result is the array and the count. *)
Definition get_mountpoints (device_path : string)
           (proc_mounts : option (list mntent)) : option (list string) * Z :=
  match proc_mounts with
  | None => (None, 0)
  | Some ents =>
      let mounts := get_mountpoints_loop (base_of device_path) ents None in
      (mounts, match mounts with
               | None => 0
               | Some l => Z.of_nat (List.length l)
               end)
  end.

(** The inner loop of [has_forbidden_mount], over [forbidden_mounts[j]]. *)
Fixpoint forbidden_scan (m : string) (fm : list string) : bool :=
  match fm with
  | [] => false
  | f :: fm' =>
      if strcmp m f =? 0 then true
      else if strncmp m "/home/" 6 =? 0 then true
      else forbidden_scan m fm'
  end.

(** The outer loop of [has_forbidden_mount], over [mounts[i]]. *)
Fixpoint has_forbidden_mount_loop (mounts : list string) : bool :=
  match mounts with
  | [] => false
  | m :: ms =>
      if forbidden_scan m forbidden_mounts then true
      else has_forbidden_mount_loop ms
  end.

Definition has_forbidden_mount (mounts : option (list string)) : bool :=
  match mounts with
  | None => false
  | Some ms => has_forbidden_mount_loop ms
  end.

Definition device_is_mounted (dev : option device_info_t) : bool :=
  match dev with
  | None => false
  | Some d => 0 <? mountpoint_count d
  end.

Definition device_is_system_drive (dev : option device_info_t) : bool :=
  match dev with
  | None => false
  | Some d => has_forbidden_mount (mountpoints d)
  end.

(** The specification's [isEligible]: a device may be erased when it is
    not a system drive. *)
Definition isEligible (d : device_info_t) : bool :=
  negb (device_is_system_drive (Some d)).

(** What udev reports for one block device of type disk. *)
Record udev_device := {
  devnode : string;
  sysname : option string;
  ID_BUS : option string;
  ID_VENDOR : option string;
  ID_MODEL : option string;
  ID_SERIAL_SHORT : option string;
  sys_removable : bool;
  sys_size : Z
}.

Definition MAX_DEVICES : nat := 64.

(** Loop devices, ram disks and nameless devices are skipped. *)
Definition skipped_name (devname : option string) : bool :=
  match devname with
  | None => true
  | Some n =>
      (strncmp n "loop" 4 =? 0) || (strncmp n "ram" 3 =? 0)
      || (strncmp n "zram" 4 =? 0)
  end.

Definition is_usb_bus (id_bus : option string) : bool :=
  match id_bus with
  | None => false
  | Some b => strcmp b "usb" =? 0
  end.

(** The body of [udev_list_entry_foreach] in [device_enumerate]; [acc] is
    the list built so far. *)
Fixpoint device_enumerate_loop (proc_mounts : option (list mntent))
         (devs : list udev_device) (acc : list device_info_t)
  : list device_info_t :=
  match devs with
  | [] => acc
  | dev :: rest =>
      if (MAX_DEVICES <=? List.length acc)%nat then acc
      else if skipped_name (sysname dev)
      then device_enumerate_loop proc_mounts rest acc
      else if negb (is_usb_bus (ID_BUS dev))
      then device_enumerate_loop proc_mounts rest acc
      else
        let '(mounts, mount_count) := get_mountpoints (devnode dev) proc_mounts in
        if has_forbidden_mount mounts
        then device_enumerate_loop proc_mounts rest acc
        else
          let info := {|
            name := match sysname dev with Some n => n | None => "" end;
            path := devnode dev;
            vendor := safe_strdup_trim (ID_VENDOR dev);
            model := safe_strdup_trim (ID_MODEL dev);
            serial := safe_strdup_trim (ID_SERIAL_SHORT dev);
            size := (sys_size dev * 512) mod 2 ^ 64;
            removable := sys_removable dev;
            is_usb := true;
            bus_type := safe_strdup_trim (ID_BUS dev);
            mountpoints := mounts;
            mountpoint_count := mount_count
          |} in
          device_enumerate_loop proc_mounts rest (acc ++ [info])%list
  end.

(** [device_enumerate]: the USB disks that carry no forbidden mount. *)
Definition device_enumerate (proc_mounts : option (list mntent))
           (devs : list udev_device) : list device_info_t :=
  device_enumerate_loop proc_mounts devs [].

End Device.

(* ================================================================== *)
(** ** src/platform/platform.h *)

Module Platform.

Inductive fs_type_t :=
| FS_UNKNOWN | FS_FAT16 | FS_FAT32 | FS_NTFS | FS_UDF | FS_EXFAT
| FS_REFS | FS_EXT2 | FS_EXT3 | FS_EXT4 | FS_MAX.

Inductive partition_style_t := PARTITION_STYLE_MBR | PARTITION_STYLE_GPT.

Inductive target_type_t := TARGET_BIOS | TARGET_UEFI | TARGET_BIOS_UEFI.

Definition fs_type_eqb (a b : fs_type_t) : bool :=
  match a, b with
  | FS_UNKNOWN, FS_UNKNOWN | FS_FAT16, FS_FAT16 | FS_FAT32, FS_FAT32
  | FS_NTFS, FS_NTFS | FS_UDF, FS_UDF | FS_EXFAT, FS_EXFAT
  | FS_REFS, FS_REFS | FS_EXT2, FS_EXT2 | FS_EXT3, FS_EXT3
  | FS_EXT4, FS_EXT4 | FS_MAX, FS_MAX => true
  | _, _ => false
  end.

Definition fs_type_name (fs : fs_type_t) : string :=
  match fs with
  | FS_UNKNOWN => "Unknown" | FS_FAT16 => "FAT16" | FS_FAT32 => "FAT32"
  | FS_NTFS => "NTFS" | FS_UDF => "UDF" | FS_EXFAT => "exFAT"
  | FS_REFS => "ReFS" | FS_EXT2 => "ext2" | FS_EXT3 => "ext3"
  | FS_EXT4 => "ext4" | FS_MAX => "Unknown"
  end.

End Platform.

(* ================================================================== *)
(** ** src/disk/partition.c *)

Module Partition.
Import Libc Platform.

(** MBR partition type codes. *)
Definition MBR_TYPE_FAT16 : Z := 0x06.
Definition MBR_TYPE_FAT32 : Z := 0x0B.
Definition MBR_TYPE_FAT32_LBA : Z := 0x0C.
Definition MBR_TYPE_NTFS : Z := 0x07.
Definition MBR_TYPE_LINUX : Z := 0x83.
Definition MBR_TYPE_EFI : Z := 0xEF.

(** GPT partition type GUIDs. *)
Definition GPT_TYPE_EFI : string := "C12A7328-F81F-11D2-BA4B-00A0C93EC93B".
Definition GPT_TYPE_LINUX : string := "0FC63DAF-8483-4772-8E79-3D69D8477DE4".
Definition GPT_TYPE_MSDATA : string := "EBD0A0A2-B9E5-4433-87C0-68B6B72699C7".

Definition get_mbr_type (fs : fs_type_t) : Z :=
  match fs with
  | FS_FAT16 => MBR_TYPE_FAT16
  | FS_FAT32 => MBR_TYPE_FAT32_LBA
  | FS_NTFS | FS_EXFAT => MBR_TYPE_NTFS
  | FS_EXT2 | FS_EXT3 | FS_EXT4 => MBR_TYPE_LINUX
  | _ => MBR_TYPE_FAT32_LBA
  end.

Definition get_gpt_type (fs : fs_type_t) : string :=
  match fs with
  | FS_EXT2 | FS_EXT3 | FS_EXT4 => GPT_TYPE_LINUX
  | _ => GPT_TYPE_MSDATA
  end.

(** Partition entry for creation. *)
Record partition_entry_t := {
  start : Z;                 (* start offset in bytes, 0 = auto *)
  size : Z;                  (* size in bytes, 0 = use remaining *)
  fs_type : fs_type_t;
  bootable : bool;
  label : option string
}.

(** *** The device as libfdisk sees it *)

Inductive parttype := PT_code (c : Z) | PT_guid (g : string).

(** One partition as handed to [fdisk_add_partition]: [None] for the
    start means [fdisk_partition_start_follow_default], [None] for the
    size means [fdisk_partition_end_follow_default] (the partition runs
    to the end of the free space). Start and size are in sectors. *)
Record fdisk_partition := {
  pa_partno : Z;
  pa_start : option Z;
  pa_size : option Z;
  pa_type : option parttype;
  pa_active : bool
}.

Record disk := {
  dk_sector_size : Z;
  dk_label : option partition_style_t;
  dk_parts : list fdisk_partition
}.

Inductive event :=
| Pe_usleep (us : Z)
| Pe_write_disklabel (device : string)
| Pe_system (cmd : string).

(** The world of the partition engine: the disk behind the device path,
    the identity of the caller, and the outcome of every call that can
    fail. [w_fail n] says that the [n]-th fallible libfdisk call fails. *)
Record world := {
  w_disk : disk;
  w_root : bool;                       (* geteuid() == 0 *)
  w_which : string -> bool;            (* system("which <cmd> ...") == 0 *)
  w_pkexec : option string;            (* get_pkexec_path() *)
  w_system : string -> Z;              (* system(cmd) *)
  w_fail : nat -> bool;
  w_calls : nat;
  w_log : list event
}.

Definition M (A : Type) : Type := world -> A * world.

Definition ret {A} (a : A) : M A := fun w => (a, w).

Definition bind {A B} (m : M A) (k : A -> M B) : M B :=
  fun w => let '(a, w') := m w in k a w'.

Notation "x <- m ;; k" := (bind m (fun x => k))
  (at level 61, m at next level, right associativity).
Notation "m ;;; k" := (bind m (fun _ => k))
  (at level 61, right associativity).

Definition emit (e : event) : M unit :=
  fun w => (tt, {| w_disk := w_disk w; w_root := w_root w;
                   w_which := w_which w; w_pkexec := w_pkexec w;
                   w_system := w_system w; w_fail := w_fail w;
                   w_calls := w_calls w; w_log := (w_log w ++ [e])%list |}).

(** A libfdisk call that can fail: [true] when it succeeds. *)
Definition fdisk_ok : M bool :=
  fun w => (negb (w_fail w (w_calls w)),
            {| w_disk := w_disk w; w_root := w_root w;
               w_which := w_which w; w_pkexec := w_pkexec w;
               w_system := w_system w; w_fail := w_fail w;
               w_calls := S (w_calls w); w_log := w_log w |}).

Definition get_disk : M disk := fun w => (w_disk w, w).

Definition put_disk (d : disk) : M unit :=
  fun w => (tt, {| w_disk := d; w_root := w_root w;
                   w_which := w_which w; w_pkexec := w_pkexec w;
                   w_system := w_system w; w_fail := w_fail w;
                   w_calls := w_calls w; w_log := w_log w |}).

Definition is_root : M bool := fun w => (w_root w, w).

(** [command_exists] of src/common/utils.c: it hands a [which] command
    line to [system]; [w_which] says whether that comes back with 0. *)
Definition command_exists (cmd : string) : M bool :=
  let check := snprintf 256 ("which " ++ cmd ++ " >/dev/null 2>&1") in
  emit (Pe_system check) ;;;
  (fun w => (w_which w cmd, w)).

Definition usleep (us : Z) : M unit := emit (Pe_usleep us).

(** [run_privileged] of src/common/utils.c. *)
Definition run_privileged (cmd : string) : M Z :=
  fun w =>
    if w_root w then (emit (Pe_system cmd) ;;; ret (w_system w cmd)) w
    else match w_pkexec w with
         | None => (-1, w)
         | Some pkexec =>
             let full_cmd := snprintf 4096 (pkexec ++ " " ++ cmd) in
             (emit (Pe_system full_cmd) ;;; ret (w_system w full_cmd)) w
         end.

(** [printf] of [%02X] for a type code below 256. *)
Definition hex_digit (d : Z) : string :=
  String.substring (Z.to_nat d) 1 "0123456789ABCDEF".

Definition fmt_02X (c : Z) : string :=
  hex_digit (c / 16) ++ hex_digit (c mod 16).

Definition sfdisk_tail (device : string) : string :=
  "sfdisk --wipe always --wipe-partitions always --lock " ++ device ++ "'".

Definition partition_create_single_privileged (device : string)
           (style : partition_style_t) (fs : fs_type_t) : M bool :=
  have <- command_exists "sfdisk" ;;
  if negb have then ret false
  else
    let lbl := match style with PARTITION_STYLE_GPT => "gpt" | _ => "dos" end in
    let boot_flag := match style with PARTITION_STYLE_MBR => ", *" | _ => "" end in
    let type := match style with
                | PARTITION_STYLE_GPT => snprintf 64 (get_gpt_type fs)
                | _ => snprintf 64 (fmt_02X (get_mbr_type fs))
                end in
    let cmd := snprintf 1024
      ("sh -c 'printf " ++ dq ++ "label: " ++ lbl ++ "\n, , " ++ type
       ++ boot_flag ++ "\n" ++ dq ++ " | " ++ sfdisk_tail device) in
    rc <- run_privileged cmd ;;
    ret (rc =? 0).

Definition partition_create_single_efi_privileged (device : string)
           (style : partition_style_t) : M bool :=
  have <- command_exists "sfdisk" ;;
  if negb have then ret false
  else
    let lbl := match style with PARTITION_STYLE_GPT => "gpt" | _ => "dos" end in
    let boot_flag := match style with PARTITION_STYLE_MBR => ", *" | _ => "" end in
    let cmd := snprintf 1024
      ("sh -c 'printf " ++ dq ++ "label: " ++ lbl ++ "\n, , U"
       ++ boot_flag ++ "\n" ++ dq ++ " | " ++ sfdisk_tail device) in
    rc <- run_privileged cmd ;;
    ret (rc =? 0).

Definition partition_create_bootable_privileged (device : string)
           (style : partition_style_t) (target : target_type_t)
           (fs : fs_type_t) : M bool :=
  have <- command_exists "sfdisk" ;;
  if negb have then ret false
  else
    match style, target with
    | PARTITION_STYLE_GPT, TARGET_UEFI
    | PARTITION_STYLE_GPT, TARGET_BIOS_UEFI =>
        let data_type := get_gpt_type fs in
        let cmd := snprintf 1024
          ("sh -c 'printf " ++ dq ++ "label: gpt\n, 256M, U\n, , "
           ++ data_type ++ "\n" ++ dq ++ " | " ++ sfdisk_tail device) in
        rc <- run_privileged cmd ;;
        ret (rc =? 0)
    | _, _ => partition_create_single_privileged device style fs
    end.

(** [partition_create_table]: a new, empty table of the given style. *)
Definition partition_create_table (device : string)
           (style : partition_style_t) : M bool :=
  cxt <- fdisk_ok ;;                       (* fdisk_new_context *)
  if negb cxt then ret false else
  asg <- fdisk_ok ;;                       (* fdisk_assign_device *)
  if negb asg then ret false else
  lb <- fdisk_ok ;;                        (* fdisk_get_label *)
  if negb lb then ret false else
  cr <- fdisk_ok ;;                        (* fdisk_create_disklabel *)
  if negb cr then ret false else
  wr <- fdisk_ok ;;                        (* fdisk_write_disklabel *)
  if negb wr then ret false else
  d <- get_disk ;;
  put_disk {| dk_sector_size := dk_sector_size d;
              dk_label := Some style; dk_parts := [] |} ;;;
  emit (Pe_write_disklabel device) ;;;
  ret true.

(** The part shared by [partition_add] and [partition_add_efi]: the two
    functions differ in the partition type only, which is computed from
    the label of the disk by [type_of]. *)
Definition add_with_type (type_of : option partition_style_t -> option parttype)
           (device : string) (part : partition_entry_t) (part_number : Z)
  : M bool :=
  cxt <- fdisk_ok ;;                       (* fdisk_new_context *)
  if negb cxt then ret false else
  asg <- fdisk_ok ;;                       (* fdisk_assign_device *)
  if negb asg then ret false else
  pa <- fdisk_ok ;;                        (* fdisk_new_partition *)
  if negb pa then ret false else
  d <- get_disk ;;
  let sector_size := dk_sector_size d in
  let p := {| pa_partno := (part_number - 1) mod 2 ^ 64;   (* int to size_t *)
              pa_start := if 0 <? start part
                          then Some (start part / sector_size) else None;
              pa_size := if 0 <? size part
                         then Some (size part / sector_size) else None;
              pa_type := type_of (dk_label d);
              pa_active := match dk_label d with
                           | Some PARTITION_STYLE_MBR => bootable part
                           | _ => false
                           end |} in
  add <- fdisk_ok ;;                       (* fdisk_add_partition *)
  if negb add || match dk_label d with None => true | _ => false end
  then ret false else
  wr <- fdisk_ok ;;                        (* fdisk_write_disklabel *)
  if negb wr then ret false else
  put_disk {| dk_sector_size := sector_size; dk_label := dk_label d;
              dk_parts := (dk_parts d ++ [p])%list |} ;;;
  emit (Pe_write_disklabel device) ;;;
  ret true.

Definition partition_add (device : string) (part : partition_entry_t)
           (part_number : Z) : M bool :=
  add_with_type
    (fun lbl => match lbl with
                | Some PARTITION_STYLE_MBR =>
                    Some (PT_code (get_mbr_type (fs_type part)))
                | Some PARTITION_STYLE_GPT =>
                    Some (PT_guid (get_gpt_type (fs_type part)))
                | None => None
                end)
    device part part_number.

Definition partition_add_efi (device : string) (part : partition_entry_t)
           (part_number : Z) : M bool :=
  add_with_type
    (fun lbl => match lbl with
                | Some PARTITION_STYLE_MBR => Some (PT_code MBR_TYPE_EFI)
                | Some PARTITION_STYLE_GPT => Some (PT_guid GPT_TYPE_EFI)
                | None => None
                end)
    device part part_number.

Definition partition_create_single (device : string)
           (style : partition_style_t) (fs : fs_type_t)
           (lbl : option string) : M bool :=
  root <- is_root ;;
  if negb root then partition_create_single_privileged device style fs
  else
    ok <- partition_create_table device style ;;
    if negb ok then ret false else
    usleep 500000 ;;;
    partition_add device
      {| start := 0; size := 0; fs_type := fs; bootable := true;
         label := lbl |} 1.

Definition partition_create_single_efi (device : string)
           (style : partition_style_t) (lbl : option string) : M bool :=
  root <- is_root ;;
  if negb root then partition_create_single_efi_privileged device style
  else
    ok <- partition_create_table device style ;;
    if negb ok then ret false else
    usleep 500000 ;;;
    partition_add_efi device
      {| start := 0; size := 0; fs_type := FS_FAT32; bootable := true;
         label := lbl |} 1.

Definition partition_create_bootable (device : string)
           (style : partition_style_t) (target : target_type_t)
           (fs : fs_type_t) (lbl : option string) : M bool :=
  root <- is_root ;;
  if negb root
  then partition_create_bootable_privileged device style target fs
  else
    match target, style with
    | TARGET_UEFI, PARTITION_STYLE_GPT
    | TARGET_BIOS_UEFI, PARTITION_STYLE_GPT =>
        ok <- partition_create_table device style ;;
        if negb ok then ret false else
        usleep 500000 ;;;
        (* EFI System Partition (256 MB) *)
        let esp := {| start := 0; size := 256 * 1024 * 1024;
                      fs_type := FS_FAT32; bootable := false;
                      label := Some "EFI" |} in
        ok1 <- partition_add device esp 1 ;;
        if negb ok1 then ret false else
        usleep 200000 ;;;
        (* Main partition *)
        let main_part := {| start := 0; size := 0; fs_type := fs;
                            bootable := false; label := lbl |} in
        partition_add device main_part 2
    | _, _ => partition_create_single device style fs lbl
    end.

(** [partition_get_path]: the device node of a partition. *)
Definition partition_get_path (device : string) (part_number : Z) : string :=
  let base := match strrchr device "/"%char with
              | Some r => next r
              | None => device
              end in
  let len := strlen base in
  let needs_p :=
    if (strncmp base "nvme" 4 =? 0) || (strncmp base "mmcblk" 6 =? 0)
       || (strncmp base "loop" 4 =? 0)
    then true
    else if (0 <? len)%nat
            && match String.get (len - 1) base with
               | Some c => isdigit c
               | None => false
               end
    then true
    else false in
  if needs_p
  then device ++ "p" ++ fmt_d part_number
  else device ++ fmt_d part_number.

End Partition.

(* ================================================================== *)
(** ** src/format/format.c *)

Module Format.
Import Libc Platform.

Record format_options_t := {
  fs_type : fs_type_t;
  label : option string;
  cluster_size : Z;
  quick_format : bool
}.

Record mkfs_info_t := {
  type : fs_type_t;
  command : string;
  label_opt : option string;
  cluster_opt : option string
}.

Definition mkfs_commands : list mkfs_info_t :=
  [ {| type := FS_FAT16; command := "mkfs.fat";
       label_opt := Some "-n"; cluster_opt := Some "-s" |};
    {| type := FS_FAT32; command := "mkfs.fat";
       label_opt := Some "-n"; cluster_opt := Some "-s" |};
    {| type := FS_NTFS; command := "mkfs.ntfs";
       label_opt := Some "-L"; cluster_opt := Some "-c" |};
    {| type := FS_EXFAT; command := "mkfs.exfat";
       label_opt := Some "-L"; cluster_opt := Some "-s" |};
    {| type := FS_EXT2; command := "mkfs.ext2";
       label_opt := Some "-L"; cluster_opt := Some "-b" |};
    {| type := FS_EXT3; command := "mkfs.ext3";
       label_opt := Some "-L"; cluster_opt := Some "-b" |};
    {| type := FS_EXT4; command := "mkfs.ext4";
       label_opt := Some "-L"; cluster_opt := Some "-b" |};
    {| type := FS_UDF; command := "mkudffs";
       label_opt := Some "-l"; cluster_opt := None |} ].

Definition get_mkfs_info (t : fs_type_t) : option mkfs_info_t :=
  List.find (fun i => fs_type_eqb (type i) t) mkfs_commands.

Definition format_get_mkfs_command (t : fs_type_t) : option string :=
  match get_mkfs_info t with
  | Some info => Some (command info)
  | None => None
  end.

(** [format_is_supported]: [which] says whether a command is in PATH. *)
Definition format_is_supported (which : string -> bool) (t : fs_type_t) : bool :=
  match format_get_mkfs_command t with
  | None => false
  | Some cmd => which cmd
  end.

Definition build_mkfs_args (partition_path : string) (opts : format_options_t)
  : option (list string) :=
  match get_mkfs_info (fs_type opts) with
  | None => None
  | Some info =>
      let fat :=
        match fs_type opts with
        | FS_FAT16 => ["-F"; "16"]
        | FS_FAT32 => ["-F"; "32"]
        | _ => []
        end in
      let quick :=
        if fs_type_eqb (fs_type opts) FS_NTFS && quick_format opts
        then ["-Q"] else [] in
      let lbl :=
        match label opts, label_opt info with
        | Some l, Some o => if negb (String.eqb l "") then [o; l] else []
        | _, _ => []
        end in
      let cluster :=
        match cluster_opt info with
        | Some o =>
            if 0 <? cluster_size opts
            then [o; match fs_type opts with
                     | FS_FAT16 | FS_FAT32 => fmt_d (cluster_size opts / 512)
                     | _ => fmt_d (cluster_size opts)
                     end]
            else []
        | None => []
        end in
      Some ([command info] ++ fat ++ quick ++ lbl ++ cluster
            ++ [partition_path])%list
  end.

(** The command line [format_partition] builds for its log: the
    arguments joined by single spaces. *)
Fixpoint cmd_str_of (args : list string) : string :=
  match args with
  | [] => EmptyString
  | [a] => a
  | a :: rest => a ++ " " ++ cmd_str_of rest
  end.

(** [char cmd_str[1024]]: the text is joined into it with [strcat], which
    checks no length. *)
Definition CMD_STR_SIZE : nat := 1024.

(** [(double)elapsed] for an [int]. *)
Definition double_of_int (z : Z) : float :=
  if z <? 0 then PrimFloat.opp (PrimFloat.of_uint63 (Uint63.of_Z (- z)))
  else PrimFloat.of_uint63 (Uint63.of_Z z).

(** [Fp_overrun]: [strcat] wrote past the end of [cmd_str]. What the
    program does from there on is undefined, and the embedding follows
    the run no further. *)
Inductive event :=
| Fp_progress (fraction : float) (message : string)
| Fp_exec (argv : list string)
| Fp_usleep (us : Z)
| Fp_overrun.

(** What [format_partition] meets outside: the tools in PATH, the result
    of [fork], the effective user of the child, the number of times
    [waitpid(WNOHANG)] answers 0 before the child is gone, and the status
    word left by the last [waitpid]. *)
Record env := {
  fe_which : string -> bool;
  fe_fork : Z;
  fe_root : bool;
  fe_polls : nat;
  fe_status : Z
}.

(** The simulated fraction of one turn of the wait loop. *)
Definition frac (elapsed : Z) : float :=
  if elapsed <? 50 then PrimFloat.mul (double_of_int elapsed) 0.02%float
  else 0.99%float.

(** The wait loop: [polls] turns, [elapsed] counted up before each
    report. *)
Fixpoint wait_loop (polls : nat) (elapsed : Z) (progress : bool) : list event :=
  match polls with
  | O => []
  | S k =>
      let elapsed := elapsed + 1 in
      (Fp_usleep 100000
       :: (if progress then [Fp_progress (frac elapsed) "Formatting..."] else [])
       ++ wait_loop k elapsed progress)%list
  end.

(** [format_partition]: the result and the events in order. [progress]
    says whether a callback was given. A command line of 1024 characters
    or more overruns [cmd_str] before the first callback and before
    [fork]; the run is then cut at [Fp_overrun] and the answer given for
    it means nothing. *)
Definition format_partition (e : env) (partition_path : option string)
           (options : option format_options_t) (progress : bool)
  : bool * list event :=
  match partition_path, options with
  | Some ppath, Some opts =>
      if negb (format_is_supported (fe_which e) (fs_type opts))
      then (false, [])
      else
        match build_mkfs_args ppath opts with
        | None => (false, [])
        | Some args =>
            (* the text and its terminator must fit [cmd_str] *)
            if (CMD_STR_SIZE <=? String.length (cmd_str_of args))%nat
            then (false, [Fp_overrun])
            else
            let t0 := if progress
                      then [Fp_progress 0.0%float "Starting format..."]
                      else [] in
            if fe_fork e <? 0 then (false, t0)
            else
              let child := Fp_exec (if fe_root e then args
                                    else "pkexec" :: args) in
              let t1 := wait_loop (fe_polls e) 0 progress in
              let t2 := if progress
                        then [Fp_progress 1.0%float "Complete"] else [] in
              ((WIFEXITED (fe_status e) && (WEXITSTATUS (fe_status e) =? 0)),
               (t0 ++ [child] ++ t1 ++ t2)%list)
        end
  | _, _ => (false, [])
  end.

Definition format_sync (e : env) (partition_path : option string)
           (fs : fs_type_t) (lbl : option string) (cluster : Z)
  : bool * list event :=
  format_partition e partition_path
    (Some {| fs_type := fs; label := lbl; cluster_size := cluster;
             quick_format := true |}) false.

End Format.

(* ================================================================== *)
(** ** src/iso/iso_writer.c *)

Module IsoWriter.
Import Libc.

Inductive write_state_t :=
| WRITE_STATE_IDLE
| WRITE_STATE_WRITING
| WRITE_STATE_SYNCING
| WRITE_STATE_COMPLETE
| WRITE_STATE_ERROR
| WRITE_STATE_CANCELLED.

Definition DD_BLOCK_SIZE : string := "4M".
Definition PROGRESS_POLL_MS : Z := 250.

(** [unsigned long] and [uint64_t] are both 64 bits wide here. *)
Definition ULONG_MAX : Z := 2 ^ 64 - 1.
Definition wrap64 (z : Z) : Z := z mod 2 ^ 64.

(** *** [fscanf] with conversions [%lu] *)

Definition isspace (c : ascii) : bool :=
  (code c =? 32) || ((9 <=? code c) && (code c <=? 13)).

Fixpoint skip_ws (s : string) : string :=
  match s with
  | EmptyString => EmptyString
  | String c t => if isspace c then skip_ws t else s
  end.

(** The longest run of digits at the head of [s]: its value on top of
    [acc], the number of digits, and the rest of the input. *)
Fixpoint scan_digits (s : string) (acc : Z) (n : nat) : Z * nat * string :=
  match s with
  | EmptyString => (acc, n, s)
  | String c t =>
      if isdigit c then scan_digits t (acc * 10 + (code c - 48)) (S n)
      else (acc, n, s)
  end.

(** One conversion [%lu]: white space, an optional sign, digits. The
    value is what [strtoul] gives: [ULONG_MAX] when out of range, the
    negation modulo 2^64 after a minus sign. [None] when no digit is
    there. *)
Definition scan_lu (s : string) : option (Z * string) :=
  let s1 := skip_ws s in
  let '(neg, s2) :=
    match s1 with
    | String "-"%char t => (true, t)
    | String "+"%char t => (false, t)
    | _ => (false, s1)
    end in
  let '(v, n, rest) := scan_digits s2 0 0 in
  match n with
  | O => None
  | _ => Some (if ULONG_MAX <? v then ULONG_MAX
               else if neg then wrap64 (- v) else v, rest)
  end.

(** The fields assigned by [k] conversions [%lu] in a row. *)
Fixpoint scan_fields (k : nat) (s : string) : list Z :=
  match k with
  | O => []
  | S k' =>
      match scan_lu s with
      | None => []
      | Some (v, rest) => v :: scan_fields k' rest
      end
  end.

(** The value returned by [fscanf]: the number of fields assigned, or
    [EOF] when the input ends before the first conversion. *)
Definition fscanf_ret (content : string) (fields : list Z) : Z :=
  match fields, skip_ws content with
  | [], EmptyString => -1
  | _, _ => Z.of_nat (List.length fields)
  end.

(** [get_device_sectors_written]: [sysfs path] is the content of the
    file, [None] when it cannot be opened. *)
Definition get_device_sectors_written (sysfs : string -> option string)
           (device_path : string) : Z :=
  match strrchr device_path "/"%char with
  | None => 0
  | Some r =>
      let devname := next r in
      let statpath := snprintf 256 ("/sys/block/" ++ devname ++ "/stat") in
      match sysfs statpath with
      | None => 0
      | Some content =>
          let fields := scan_fields 8 content in
          if 7 <=? fscanf_ret content fields
          then nth 6 fields 0      (* wr_sectors *)
          else 0
      end
  end.

(** *** One sample of the poll loops *)

(** The bytes written reported for a sample [current_sectors], as
    [writer_thread] and [iso_write_sync] compute it. *)
Definition poll_bytes (baseline_sectors current_sectors iso_size : Z) : Z :=
  let delta_sectors := wrap64 (current_sectors - baseline_sectors) in
  let bytes_written := wrap64 (delta_sectors * 512) in
  if iso_size <? bytes_written then iso_size else bytes_written.

(** *** Events *)

Inductive event :=
| Ev_state (s : write_state_t)            (* writer->state = s *)
| Ev_exec (argv : list string)            (* the child process *)
| Ev_kill (pid : Z)                       (* kill(pid, SIGTERM) *)
| Ev_waitpid (pid : Z)                    (* waitpid(pid, NULL, 0) *)
| Ev_sync                                 (* sync() *)
| Ev_progress (bytes_written total_bytes : Z)
    (* progress_cb; its speed argument, a double taken from the clock,
       is left out *)
| Ev_complete (s : write_state_t) (message : string)
| Ev_usleep (us : Z).

(** The answer of [waitpid(pid, &wstatus, WNOHANG)]. *)
Inductive wait_obs :=
| W_running                  (* returns 0 *)
| W_reaped (wstatus : Z)     (* returns pid *)
| W_failed (eintr : bool).   (* returns -1, errno is EINTR or not *)

Definition exited_zero (status : Z) : bool :=
  WIFEXITED status && (WEXITSTATUS status =? 0).

(** *** The writer and its thread *)

Record iso_writer := {
  iso_path : option string;
  device_path : option string;
  iso_size : Z;
  progress_cb : bool;          (* a callback is set *)
  complete_cb : bool;
  state : write_state_t;
  dd_pid : Z;
  cancel_requested : bool;
  thread_running : bool
}.

Definition iso_writer_new : iso_writer :=
  {| iso_path := None; device_path := None; iso_size := 0;
     progress_cb := false; complete_cb := false;
     state := WRITE_STATE_IDLE; dd_pid := -1;
     cancel_requested := false; thread_running := false |}.

Definition set_state (s : write_state_t) (w : iso_writer) : iso_writer :=
  {| iso_path := iso_path w; device_path := device_path w;
     iso_size := iso_size w; progress_cb := progress_cb w;
     complete_cb := complete_cb w; state := s; dd_pid := dd_pid w;
     cancel_requested := cancel_requested w;
     thread_running := thread_running w |}.

Definition set_dd_pid (p : Z) (w : iso_writer) : iso_writer :=
  {| iso_path := iso_path w; device_path := device_path w;
     iso_size := iso_size w; progress_cb := progress_cb w;
     complete_cb := complete_cb w; state := state w; dd_pid := p;
     cancel_requested := cancel_requested w;
     thread_running := thread_running w |}.

Definition set_cancel_requested (b : bool) (w : iso_writer) : iso_writer :=
  {| iso_path := iso_path w; device_path := device_path w;
     iso_size := iso_size w; progress_cb := progress_cb w;
     complete_cb := complete_cb w; state := state w; dd_pid := dd_pid w;
     cancel_requested := b; thread_running := thread_running w |}.

Definition set_thread_running (b : bool) (w : iso_writer) : iso_writer :=
  {| iso_path := iso_path w; device_path := device_path w;
     iso_size := iso_size w; progress_cb := progress_cb w;
     complete_cb := complete_cb w; state := state w; dd_pid := dd_pid w;
     cancel_requested := cancel_requested w; thread_running := b |}.

(** The paths are set by [iso_writer_start] before the thread exists. *)
Definition str_of (o : option string) : string :=
  match o with Some s => s | None => "" end.

(** Where the thread stands in [writer_thread]. Each point is the start
    of a stretch of code that the mutex or the absence of shared reads
    makes indivisible for [iso_writer_cancel]. *)
Inductive pc :=
| PC_start       (* entry: state = WRITING under the mutex *)
| PC_spawn       (* baseline, pipe, fork *)
| PC_publish     (* dd_pid = pid under the mutex *)
| PC_check       (* top of the loop: read cancel_requested *)
| PC_poll        (* drain, waitpid(WNOHANG), sample, callback, usleep *)
| PC_cancelled   (* after the loop *)
| PC_success     (* label success: state = SYNCING *)
| PC_sync        (* sync(); state = COMPLETE *)
| PC_complete    (* the last callbacks *)
| PC_error       (* label error *)
| PC_done.       (* the thread has returned *)

Record machine := {
  m_writer : iso_writer;
  m_pc : pc;
  m_pid : Z;                 (* the local pid *)
  m_baseline : Z;            (* the local baseline_sectors *)
  m_trace : list event
}.

(** What the thread reads from outside during one stretch. *)
Record obs := {
  o_sysfs : string -> option string;
  o_pipe_ok : bool;
  o_fork : Z;
  o_wait : wait_obs
}.

Definition upd (w : iso_writer) (p : pc) (evs : list event) (m : machine)
  : machine :=
  {| m_writer := w; m_pc := p; m_pid := m_pid m;
     m_baseline := m_baseline m; m_trace := (m_trace m ++ evs)%list |}.

Definition dd_cmd (w : iso_writer) : string :=
  snprintf 1024 ("dd bs=" ++ DD_BLOCK_SIZE ++ " if=" ++ dq
                 ++ str_of (iso_path w) ++ dq ++ " of=" ++ dq
                 ++ str_of (device_path w) ++ dq ++ " conv=fsync 2>&1").

Definition complete_call (w : iso_writer) (s : write_state_t) (msg : string)
  : list event :=
  if complete_cb w then [Ev_complete s msg] else [].

(** One stretch of [writer_thread]. On the cancelled path the blocking
    [waitpid], which the thread makes outside the mutex, and the update of
    the state under the mutex are taken as one stretch: a call of
    [iso_writer_cancel] that comes between the two finds the flag set and
    the process id still published, so that all it adds is one more
    signal to that process; here that call is scheduled before the
    stretch. *)
Definition thread_step (o : obs) (m : machine) : machine :=
  let w := m_writer m in
  match m_pc m with
  | PC_start =>
      upd (set_state WRITE_STATE_WRITING w) PC_spawn
          [Ev_state WRITE_STATE_WRITING] m
  | PC_spawn =>
      let baseline := get_device_sectors_written (o_sysfs o)
                        (str_of (device_path w)) in
      if negb (o_pipe_ok o) then upd w PC_error [] m
      else if o_fork o =? -1 then upd w PC_error [] m
      else
        {| m_writer := w; m_pc := PC_publish; m_pid := o_fork o;
           m_baseline := baseline;
           m_trace := (m_trace m
                       ++ [Ev_exec ["pkexec"; "sh"; "-c"; dd_cmd w]])%list |}
  | PC_publish =>
      upd (set_dd_pid (m_pid m) w) PC_check [] m
  | PC_check =>
      if cancel_requested w
      then upd w PC_cancelled [Ev_kill (m_pid m)] m
      else upd w PC_poll [] m
  | PC_poll =>
      let sample :=
        let current_sectors := get_device_sectors_written (o_sysfs o)
                                 (str_of (device_path w)) in
        let bytes_written := poll_bytes (m_baseline m) current_sectors
                               (iso_size w) in
        upd w PC_check
            ((if progress_cb w
              then [Ev_progress bytes_written (iso_size w)] else [])
             ++ [Ev_usleep (PROGRESS_POLL_MS * 1000)])%list m in
      match o_wait o with
      | W_reaped wstatus =>
          if exited_zero wstatus then upd w PC_success [] m
          else upd w PC_error [] m
      | W_failed false => upd w PC_error [] m
      | W_failed true => sample
      | W_running => sample
      end
  | PC_cancelled =>
      upd (set_thread_running false
             (set_dd_pid (-1) (set_state WRITE_STATE_CANCELLED w)))
          PC_done
          ([Ev_waitpid (m_pid m); Ev_state WRITE_STATE_CANCELLED]
           ++ complete_call w WRITE_STATE_CANCELLED "Write cancelled")%list m
  | PC_success =>
      upd (set_dd_pid (-1) (set_state WRITE_STATE_SYNCING w)) PC_sync
          [Ev_state WRITE_STATE_SYNCING] m
  | PC_sync =>
      upd (set_state WRITE_STATE_COMPLETE w) PC_complete
          [Ev_sync; Ev_state WRITE_STATE_COMPLETE] m
  | PC_complete =>
      upd (set_thread_running false w) PC_done
          ((if progress_cb w
            then [Ev_progress (iso_size w) (iso_size w)] else [])
           ++ complete_call w WRITE_STATE_COMPLETE "Write complete")%list m
  | PC_error =>
      upd (set_thread_running false
             (set_dd_pid (-1) (set_state WRITE_STATE_ERROR w)))
          PC_done
          ([Ev_state WRITE_STATE_ERROR]
           ++ complete_call w WRITE_STATE_ERROR "Write failed")%list m
  | PC_done => m
  end.

(** [iso_writer_cancel], called from another thread: under the mutex it
    sets the flag and signals the copy process when there is one. *)
Definition iso_writer_cancel (m : machine) : machine :=
  let w := m_writer m in
  upd (set_cancel_requested true w) (m_pc m)
      (if 0 <? dd_pid w then [Ev_kill (dd_pid w)] else []) m.

(** A schedule interleaves stretches of the writer thread with calls of
    [iso_writer_cancel]. *)
Inductive sched :=
| Thread (o : obs)
| Cancel.

Definition step (m : machine) (s : sched) : machine :=
  match s with
  | Thread o => thread_step o m
  | Cancel => iso_writer_cancel m
  end.

Definition run (sch : list sched) (m : machine) : machine :=
  fold_left step sch m.

(** [iso_writer_start]: [stat_size] is the size [stat] reports for the
    image, [None] when it fails. The result is the writer with its thread
    at its entry, or [None] when the function returns false. *)
Definition iso_writer_start (w : iso_writer) (iso dev : string)
           (stat_size : option Z) (progress complete : bool)
  : option machine :=
  if thread_running w then None
  else match stat_size with
       | None => None
       | Some sz =>
           Some {| m_writer :=
                     {| iso_path := Some iso; device_path := Some dev;
                        iso_size := sz; progress_cb := progress;
                        complete_cb := complete; state := state w;
                        dd_pid := dd_pid w; cancel_requested := false;
                        thread_running := true |};
                   m_pc := PC_start; m_pid := 0; m_baseline := 0;
                   m_trace := [] |}
       end.

Definition iso_writer_get_state (m : machine) : write_state_t :=
  state (m_writer m).

(** *** [iso_write_sync] *)

(** One turn of the loop of [iso_write_sync] reads the answer of
    [waitpid] and, when the child is still there, the counter. *)
Record tick := { t_wait : wait_obs; t_sysfs : string -> option string }.

(** The loop of [iso_write_sync] over the turns the outside allows: the
    result is [None] while the loop has not returned. *)
Fixpoint iso_write_sync_loop (dev : string) (iso_size baseline : Z)
         (progress : bool) (ticks : list tick) : option bool * list event :=
  match ticks with
  | [] => (None, [])
  | t :: rest =>
      match t_wait t with
      | W_reaped wstatus =>
          (Some (exited_zero wstatus),
           (Ev_sync :: (if progress
                        then [Ev_progress iso_size iso_size] else []))%list)
      | _ =>
          let current_sectors := get_device_sectors_written (t_sysfs t) dev in
          let bytes_written := poll_bytes baseline current_sectors iso_size in
          let '(r, evs) := iso_write_sync_loop dev iso_size baseline
                             progress rest in
          (r, ((if progress then [Ev_progress bytes_written iso_size] else [])
               ++ Ev_usleep (PROGRESS_POLL_MS * 1000) :: evs)%list)
      end
  end.

(** [iso_write_sync]: [stat_size] as for [iso_writer_start], [sysfs0] is
    sysfs before the copy starts, [fork] the result of [fork]. *)
Definition iso_write_sync (iso dev : string) (stat_size : option Z)
           (sysfs0 : string -> option string) (fork : Z)
           (progress : bool) (ticks : list tick) : option bool * list event :=
  match stat_size with
  | None => (Some false, [])
  | Some iso_size =>
      let baseline := get_device_sectors_written sysfs0 dev in
      if fork =? -1 then (Some false, [])
      else
        let '(r, evs) := iso_write_sync_loop dev iso_size baseline
                           progress ticks in
        (r, Ev_exec ["pkexec"; "dd"; "bs=" ++ DD_BLOCK_SIZE;
                     snprintf 1024 ("if=" ++ iso);
                     snprintf 1024 ("of=" ++ dev); "conv=fsync"] :: evs)
  end.

End IsoWriter.

(* ================================================================== *)
(** ** src/iso/iso_analyzer.h, src/iso/iso_analyzer.c *)

Module IsoAnalyzer.

Inductive iso_boot_type_t :=
| BOOT_TYPE_UNKNOWN | BOOT_TYPE_BIOS | BOOT_TYPE_UEFI | BOOT_TYPE_HYBRID.

Record iso_info_t := {
  path : option string;
  label : option string;
  size : Z;
  boot_type : iso_boot_type_t;
  is_bootable : bool;
  has_efi : bool;
  has_eltorito : bool;
  is_hybrid : bool;
  is_windows : bool;
  is_linux : bool
}.

(** [shell_quote]: the first loop computes the size of the buffer, the
    second fills it. *)
Fixpoint shell_quote_len (str : string) (len : nat) : nat :=
  match str with
  | EmptyString => len
  | String c p =>
      shell_quote_len p (if Ascii.eqb c "'"%char then len + 4 else len + 1)%nat
  end.

Fixpoint shell_quote_fill (str : string) : string :=
  match str with
  | EmptyString => "'"
  | String c p =>
      if Ascii.eqb c "'"%char
      then String "'" (String "\" (String "'" (String "'" (shell_quote_fill p))))
      else String c (shell_quote_fill p)
  end.

Definition shell_quote (str : option string) : option string :=
  match str with
  | None => None
  | Some s => Some (String "'" (shell_quote_fill s))
  end.

End IsoAnalyzer.

(* ================================================================== *)
(** ** src/ui/window.c *)

Module Window.
Import Libc Platform.

Definition GTK_INVALID_LIST_POSITION : Z := 4294967295.

(** The state of the main window that [on_start_clicked] reads: the
    selected position of every drop-down, the text of the label entry,
    the device list of the last enumeration, the chosen image and its
    analysis, the writer created with the window, and the status line
    (text and style class). *)
Record RufusWindow := {
  device_dropdown : Z;
  boot_dropdown : Z;
  write_mode_dropdown : Z;
  partition_dropdown : Z;
  target_dropdown : Z;
  fs_dropdown : Z;
  cluster_dropdown : Z;
  label_entry : string;
  devices : option (list Device.device_info_t);
  iso_path : option string;
  iso_info : option IsoAnalyzer.iso_info_t;
  iso_writer : IsoWriter.iso_writer;
  operation_running : bool;
  status_label : string * option string
}.

Definition set_status (self : RufusWindow) (text : string)
           (css_class : option string) : RufusWindow :=
  {| device_dropdown := device_dropdown self;
     boot_dropdown := boot_dropdown self;
     write_mode_dropdown := write_mode_dropdown self;
     partition_dropdown := partition_dropdown self;
     target_dropdown := target_dropdown self;
     fs_dropdown := fs_dropdown self;
     cluster_dropdown := cluster_dropdown self;
     label_entry := label_entry self;
     devices := devices self;
     iso_path := iso_path self;
     iso_info := iso_info self;
     iso_writer := iso_writer self;
     operation_running := operation_running self;
     status_label := (text, css_class) |}.

Record write_op_t := {
  op_device_path : string;
  op_iso_path : option string;
  op_part_style : partition_style_t;
  op_target : target_type_t;
  op_fs_type : fs_type_t;
  op_cluster_size : Z;
  op_label : option string;
  op_write_iso : bool;
  op_iso_extract : bool
}.

(** The calls that reach outside the window. *)
Inductive call :=
| C_umount2 (dir : string)
| C_system (cmd : string)
| C_usleep (us : Z)
| C_partition_create_single_efi (device : string)
    (style : partition_style_t) (lbl : option string)
| C_partition_create_bootable (device : string) (style : partition_style_t)
    (target : target_type_t) (fs : fs_type_t) (lbl : option string)
| C_partition_create_single (device : string) (style : partition_style_t)
    (fs : fs_type_t) (lbl : option string)
| C_format_partition (partition_path : string)
    (options : Format.format_options_t)
| C_iso_extract_to_partition (iso partition_path : string)
| C_iso_write_sync (iso device : string).

(** Every call but the sleeps changes the target device. *)
Definition destructive (c : call) : bool :=
  match c with
  | C_usleep _ => false
  | _ => true
  end.

(** What the outside answers: the mount table as it is now, the tools
    in PATH, and the outcome of every call. *)
Record outside := {
  proc_mounts : option (list Device.mntent);
  which : string -> bool;
  umount2_ok : string -> bool;
  system_rc : string -> Z;
  call_ok : call -> bool
}.

(** [iso_extract_is_supported] of src/iso/iso_extract.c. *)
Definition iso_extract_is_supported (e : outside) : bool :=
  which e "xorriso" || which e "bsdtar" || which e "7z".

(** [device_unmount] of src/device/device.c: the calls it makes. *)
Fixpoint device_unmount_loop (e : outside) (mounts : list string) : list call :=
  match mounts with
  | [] => []
  | m :: rest =>
      (if umount2_ok e m then [C_umount2 m]
       else [C_umount2 m;
             C_system (snprintf 512 ("umount '" ++ m ++ "' 2>/dev/null"))])
      ++ device_unmount_loop e rest
  end%list.

Definition device_unmount (e : outside) (dev : Device.device_info_t) : list call :=
  match Device.mountpoints dev with
  | None => []
  | Some ms => device_unmount_loop e ms
  end.

(** [cluster_options]: "Default", "4096", "8192", "16384", "32768". *)
Definition cluster_of (cluster_idx : Z) : Z :=
  match cluster_idx with
  | 1 => 4096 | 2 => 8192 | 3 => 16384 | 4 => 32768
  | _ => 0
  end.

Definition style_of (partition_idx : Z) : partition_style_t :=
  if partition_idx =? 1 then PARTITION_STYLE_GPT else PARTITION_STYLE_MBR.

Definition target_of (target_idx : Z) : target_type_t :=
  match target_idx with
  | 1 => TARGET_UEFI
  | 2 => TARGET_BIOS_UEFI
  | _ => TARGET_BIOS
  end.

Definition fs_of (fs_idx : Z) : fs_type_t :=
  match fs_idx with
  | 0 => FS_FAT32
  | 1 => FS_NTFS
  | 2 => FS_EXFAT
  | 3 => FS_EXT4
  | _ => FS_FAT32
  end.

(** What [on_start_clicked] leaves behind: the window with its status
    line, the calls made, and the operation handed to the confirmation
    dialog when one is shown. *)
Record started := {
  r_window : RufusWindow;
  r_calls : list call;
  r_dialog : option write_op_t
}.

Definition refuse (self : RufusWindow) (text : string) : started :=
  {| r_window := set_status self text (Some "status-error");
     r_calls := []; r_dialog := None |}.

(** The part of [on_start_clicked] after the checks: unmount, build the
    operation, show the dialog. *)
Definition prepare (e : outside) (self : RufusWindow)
           (dev : Device.device_info_t) (write_iso iso_extract : bool)
  : started :=
  let calls :=
    if Device.device_is_mounted (Some dev)
    then (device_unmount e dev ++ [C_usleep 500000])%list else [] in
  let op0 := {| op_device_path := Device.path dev;
                op_iso_path := None;
                op_part_style := PARTITION_STYLE_MBR;
                op_target := TARGET_BIOS;
                op_fs_type := FS_UNKNOWN;
                op_cluster_size := 0;
                op_label := None;
                op_write_iso := write_iso;
                op_iso_extract := write_iso && iso_extract |} in
  let op :=
    if write_iso then
      if op_iso_extract op0 then
        {| op_device_path := Device.path dev;
           op_iso_path := iso_path self;
           op_part_style := style_of (partition_dropdown self);
           op_target := target_of (target_dropdown self);
           op_fs_type := FS_FAT32;
           op_cluster_size := cluster_of (cluster_dropdown self);
           op_label := Some (label_entry self);
           op_write_iso := write_iso;
           op_iso_extract := write_iso && iso_extract |}
      else
        {| op_device_path := Device.path dev;
           op_iso_path := iso_path self;
           op_part_style := PARTITION_STYLE_MBR;
           op_target := TARGET_BIOS;
           op_fs_type := FS_UNKNOWN;
           op_cluster_size := 0;
           op_label := None;
           op_write_iso := write_iso;
           op_iso_extract := write_iso && iso_extract |}
    else
      {| op_device_path := Device.path dev;
         op_iso_path := None;
         op_part_style := style_of (partition_dropdown self);
         op_target := target_of (target_dropdown self);
         op_fs_type := fs_of (fs_dropdown self);
         op_cluster_size := cluster_of (cluster_dropdown self);
         op_label := Some (label_entry self);
         op_write_iso := write_iso;
         op_iso_extract := write_iso && iso_extract |} in
  {| r_window := self; r_calls := calls; r_dialog := Some op |}.

(** The checks of extract mode in [on_start_clicked]. *)
Definition extract_checks (e : outside) (self : RufusWindow)
           (info : IsoAnalyzer.iso_info_t) : option string :=
  if negb (iso_extract_is_supported e)
  then Some "ISO file copy needs xorriso, bsdtar, or 7z"
  else if IsoAnalyzer.is_windows info
  then Some "Windows ISO extraction not supported yet"
  else if negb (IsoAnalyzer.has_efi info)
  then Some "ISO file copy requires UEFI boot files"
  else if target_dropdown self =? 0
  then Some "ISO file copy requires UEFI target"
  else if negb (fs_dropdown self =? 0)
  then Some "ISO file copy requires FAT32"
  else None.

Definition on_start_clicked (e : outside) (self : RufusWindow) : started :=
  let device_idx := device_dropdown self in
  match devices self with
  | None => refuse self "No device selected"
  | Some devs =>
      if (device_idx =? GTK_INVALID_LIST_POSITION)
         || (Z.of_nat (List.length devs) <=? device_idx)
      then refuse self "No device selected"
      else
        match nth_error devs (Z.to_nat device_idx) with
        | None => refuse self "No device selected"
        | Some dev =>
            let boot_mode := boot_dropdown self in
            let write_iso :=
              (boot_mode =? 0)
              && match iso_path self with Some _ => true | None => false end in
            let write_mode := write_mode_dropdown self in
            let iso_extract := write_mode =? 1 in
            if write_iso then
              match iso_info self with
              | None => refuse self "Please select an ISO image"
              | Some info =>
                  let self1 :=
                    if negb (IsoAnalyzer.is_bootable info)
                    then set_status self "Warning: ISO may not be bootable"
                           (Some "status-error")
                    else self in
                  if Device.size dev <? IsoAnalyzer.size info
                  then refuse self1 "ISO is larger than the target device"
                  else if iso_extract then
                    match extract_checks e self1 info with
                    | Some text => refuse self1 text
                    | None => prepare e self1 dev write_iso iso_extract
                    end
                  else prepare e self1 dev write_iso iso_extract
              end
            else prepare e self dev write_iso iso_extract
        end
  end.

(** [write_thread_func]: the calls it makes and [op->success]. *)
Definition write_thread_func (e : outside) (op : write_op_t) : bool * list call :=
  let dev := op_device_path op in
  let iso := match op_iso_path op with Some i => i | None => "" end in
  if op_write_iso op then
    if op_iso_extract op then
      let c1 := C_partition_create_single_efi dev (op_part_style op) (op_label op) in
      if negb (call_ok e c1) then (false, [c1])
      else
        let ppath := Partition.partition_get_path dev 1 in
        let c2 := C_format_partition ppath
                    {| Format.fs_type := FS_FAT32;
                       Format.label := op_label op;
                       Format.cluster_size := op_cluster_size op;
                       Format.quick_format := true |} in
        if negb (call_ok e c2) then (false, [c1; C_usleep 1000000; c2])
        else
          let c3 := C_iso_extract_to_partition iso ppath in
          (call_ok e c3, [c1; C_usleep 1000000; c2; c3])
    else
      let c := C_iso_write_sync iso dev in
      (call_ok e c, [c])
  else
    let needs_esp :=
      match op_target op, op_part_style op with
      | TARGET_BIOS, _ => false
      | _, PARTITION_STYLE_GPT => true
      | _, _ => false
      end in
    let fmt ppath :=
      C_format_partition ppath
        {| Format.fs_type := op_fs_type op;
           Format.label := op_label op;
           Format.cluster_size := op_cluster_size op;
           Format.quick_format := true |} in
    if needs_esp then
      let c1 := C_partition_create_bootable dev (op_part_style op)
                  (op_target op) (op_fs_type op) (op_label op) in
      if negb (call_ok e c1) then (false, [c1])
      else
        let esp_path := Partition.partition_get_path dev 1 in
        let ppath := Partition.partition_get_path dev 2 in
        let c2 := C_format_partition esp_path
                    {| Format.fs_type := FS_FAT32;
                       Format.label := Some "EFI";
                       Format.cluster_size := 0;
                       Format.quick_format := true |} in
        if negb (call_ok e c2) then (false, [c1; C_usleep 1000000; c2])
        else (call_ok e (fmt ppath),
              [c1; C_usleep 1000000; c2; fmt ppath])
    else
      let c1 := C_partition_create_single dev (op_part_style op)
                  (op_fs_type op) (op_label op) in
      if negb (call_ok e c1) then (false, [c1])
      else
        let ppath := Partition.partition_get_path dev 1 in
        (call_ok e (fmt ppath), [c1; C_usleep 1000000; fmt ppath]).

(** [on_confirm_response]: the answer 1 of the dialog starts the
    operation, any other answer drops it. *)
Definition on_confirm_response (e : outside) (response : Z) (op : write_op_t)
  : list call :=
  if response =? 1 then snd (write_thread_func e op) else [].

(** One job from the click on Start to the end of the worker: all the
    calls, in order. *)
Definition job_calls (e : outside) (self : RufusWindow) (response : Z)
  : list call :=
  let r := on_start_clicked e self in
  (r_calls r ++ match r_dialog r with
                | Some op => on_confirm_response e response op
                | None => []
                end)%list.

(** [reset_status_ready]: the status line goes back to READY unless an
    operation is running. *)
Definition reset_status_ready (self : RufusWindow) : RufusWindow :=
  if operation_running self then self
  else set_status self "READY" (Some "status-ready").

(** [update_start_sensitivity]: whether the Start button is enabled. *)
Definition update_start_sensitivity (self : RufusWindow) : bool :=
  let has_device :=
    negb (device_dropdown self =? GTK_INVALID_LIST_POSITION) in
  let boot_mode := boot_dropdown self in
  if boot_mode =? 0
  then has_device
       && match iso_path self with Some _ => true | None => false end
       && negb (operation_running self)
  else has_device && negb (operation_running self).

(** [on_write_mode_changed]: the window afterwards and the state of the
    Start button. Choosing the file copy selects FAT32 and UEFI. *)
Definition on_write_mode_changed (self : RufusWindow) : RufusWindow * bool :=
  let mode := write_mode_dropdown self in
  let self1 :=
    if mode =? 1
    then {| device_dropdown := device_dropdown self;
            boot_dropdown := boot_dropdown self;
            write_mode_dropdown := write_mode_dropdown self;
            partition_dropdown := partition_dropdown self;
            target_dropdown := 1;
            fs_dropdown := 0;
            cluster_dropdown := cluster_dropdown self;
            label_entry := label_entry self;
            devices := devices self;
            iso_path := iso_path self;
            iso_info := iso_info self;
            iso_writer := iso_writer self;
            operation_running := operation_running self;
            status_label := status_label self |}
    else self in
  let self2 := reset_status_ready self1 in
  (self2, update_start_sensitivity self2).

(** The searches for an extraction tool: [iso_extract_is_supported] asks
    [which] for xorriso, then bsdtar, then 7z, each time with a command
    line handed to [system], until one is found. *)
Definition which_line (tool : string) : string :=
  snprintf 256 ("which " ++ tool ++ " >/dev/null 2>&1").

Definition extract_probes (e : outside) : list call :=
  C_system (which_line "xorriso")
  :: (if which e "xorriso" then []
      else C_system (which_line "bsdtar")
           :: (if which e "bsdtar" then []
               else [C_system (which_line "7z")])).

(** The searches [on_start_clicked] makes: those of
    [iso_extract_is_supported], reached in extract mode once a device is
    selected and the image is analysed and fits. They come before the
    calls of [r_calls], which are the calls on the device. *)
Definition on_start_clicked_probes (e : outside) (self : RufusWindow)
  : list call :=
  let device_idx := device_dropdown self in
  match devices self with
  | None => []
  | Some devs =>
      if (device_idx =? GTK_INVALID_LIST_POSITION)
         || (Z.of_nat (List.length devs) <=? device_idx)
      then []
      else
        match nth_error devs (Z.to_nat device_idx) with
        | None => []
        | Some dev =>
            let write_iso :=
              (boot_dropdown self =? 0)
              && match iso_path self with Some _ => true | None => false end in
            let iso_extract := write_mode_dropdown self =? 1 in
            if write_iso then
              match iso_info self with
              | None => []
              | Some info =>
                  if Device.size dev <? IsoAnalyzer.size info then []
                  else if iso_extract then extract_probes e
                  else []
              end
            else []
        end
  end.

(** Everything a job runs outside, in order: the searches, then the
    calls on the device. *)
Definition job_trace (e : outside) (self : RufusWindow) (response : Z)
  : list call :=
  (on_start_clicked_probes e self ++ job_calls e self response)%list.

End Window.

(* ================================================================== *)
(** ** src/common/hash.c *)

Module Hash.
Import Libc.

(** A digest is an array of [uint8_t], here numbers from 0 to 255. *)
Definition hex_chars : string := "0123456789abcdef".

Definition hex_char (i : Z) : ascii :=
  match String.get (Z.to_nat i) hex_chars with
  | Some c => c
  | None => Ascii.zero
  end.

Fixpoint hash_digest_to_hex (digest : list Z) : string :=
  match digest with
  | [] => EmptyString
  | b :: rest =>
      String (hex_char (Z.land (Z.shiftr b 4) 15))
        (String (hex_char (Z.land b 15)) (hash_digest_to_hex rest))
  end.

(** A [char] read as a number: negative from 128 on. *)
Definition schar (c : ascii) : Z :=
  if code c <? 128 then code c else code c - 256.

(** [tolower] in the C locale. *)
Definition tolower (c : Z) : Z :=
  if (65 <=? c) && (c <=? 90) then c + 32 else c.

(** [(hi >= 'a') ? (hi - 'a' + 10) : (hi - '0')] of the lowered
    character. *)
Definition hex_val (c : ascii) : Z :=
  let h := tolower (schar c) in
  if 97 <=? h then h - 97 + 10 else h - 48.

(** The loop of [hash_verify_hex] over the bytes of the digest; the
    length test before it makes sure two characters are there for each
    byte. *)
Fixpoint hash_verify_loop (digest : list Z) (hex : string) : bool :=
  match digest with
  | [] => true
  | b :: rest =>
      match hex with
      | String hi (String lo hex') =>
          if negb (b =? Z.lor (Z.shiftl (hex_val hi) 4) (hex_val lo))
          then false
          else hash_verify_loop rest hex'
      | _ => false
      end
  end.

Definition hash_verify_hex (digest : list Z) (expected_hex : option string)
  : bool :=
  match expected_hex with
  | None => false
  | Some hex =>
      if negb (strlen hex =? List.length digest * 2)%nat then false
      else hash_verify_loop digest hex
  end.

End Hash.

(* ================================================================== *)
(** ** src/iso/iso_extract.c *)

Module IsoExtract.
Import Libc.

(** What [iso_extract_to_partition] meets outside: the tools in PATH,
    whether [stat] finds the image, the directory [mkdtemp] makes (none
    when it fails), the effective user, the place of [pkexec], the exit
    status of every command line, and glib's [g_shell_quote]. *)
Record env := {
  xe_which : string -> bool;
  xe_stat_ok : bool;
  xe_mkdtemp : option string;
  xe_root : bool;
  xe_pkexec : option string;
  xe_system : string -> Z;
  xe_quote : string -> string
}.

Inductive event :=
| Xe_progress (fraction : float) (message : string)
| Xe_system (cmd : string)
| Xe_rmdir (dir : string).

(** [command_exists] of src/common/utils.c: the answer of [which] and
    the command line handed to [system] for it. *)
Definition command_exists (e : env) (cmd : string) : bool * list event :=
  (xe_which e cmd,
   [Xe_system (snprintf 256 ("which " ++ cmd ++ " >/dev/null 2>&1"))]).

(** [select_extract_tool]: the first tool found, and the searches made. *)
Definition select_extract_tool (e : env) : option string * list event :=
  let '(xorriso, t1) := command_exists e "xorriso" in
  if xorriso then (Some "xorriso", t1)
  else
    let '(bsdtar, t2) := command_exists e "bsdtar" in
    if bsdtar then (Some "bsdtar", (t1 ++ t2)%list)
    else
      let '(sevenz, t3) := command_exists e "7z" in
      if sevenz then (Some "7z", (t1 ++ t2 ++ t3)%list)
      else (None, (t1 ++ t2 ++ t3)%list).

Definition iso_extract_tool_name (e : env) : option string * list event :=
  select_extract_tool e.

Definition iso_extract_is_supported (e : env) : bool * list event :=
  let '(tool, t) := select_extract_tool e in
  (match tool with Some _ => true | None => false end, t).

Definition build_extract_command (e : env) (tool iso_path mount_dir : string)
  : option string :=
  let q_iso := xe_quote e iso_path in
  if strcmp tool "xorriso" =? 0
  then Some ("xorriso -osirrox on -indev " ++ q_iso ++ " -extract / "
             ++ mount_dir)
  else if strcmp tool "bsdtar" =? 0
  then Some ("bsdtar -C " ++ mount_dir ++ " -xf " ++ q_iso)
  else if strcmp tool "7z" =? 0
  then Some ("7z x -y -o" ++ mount_dir ++ " " ++ q_iso)
  else None.

(** [run_privileged] of src/common/utils.c, with the command lines it
    hands to [system] as events. *)
Definition run_privileged (e : env) (cmd : string) : Z * list event :=
  if xe_root e then (xe_system e cmd, [Xe_system cmd])
  else match xe_pkexec e with
       | None => (-1, [])
       | Some pkexec =>
           let full_cmd := snprintf 4096 (pkexec ++ " " ++ cmd) in
           (xe_system e full_cmd, [Xe_system full_cmd])
       end.

(** [iso_extract_to_partition]: the answer and the events in order,
    the searches for a tool first; [progress] says whether a callback was
    given. *)
Definition iso_extract_to_partition (e : env)
           (iso_path partition_path : option string) (progress : bool)
  : bool * list event :=
  match iso_path, partition_path with
  | Some iso, Some part =>
      let '(found, tp) := select_extract_tool e in
      match found with
      | None => (false, tp)
      | Some tool =>
          if negb (xe_stat_ok e) then (false, tp)
          else
            match xe_mkdtemp e with
            | None => (false, tp)
            | Some mount_dir =>
                match build_extract_command e tool iso mount_dir with
                | None => (false, (tp ++ [Xe_rmdir mount_dir])%list)
                | Some extract_cmd =>
                    let script :=
                      "set -e; mount " ++ part ++ " " ++ mount_dir
                      ++ "; trap 'umount " ++ mount_dir ++ "' EXIT; "
                      ++ extract_cmd ++ "; sync" in
                    let cmd := "sh -c " ++ dq ++ script ++ dq in
                    let t0 := if progress
                              then [Xe_progress 0.0%float "Extracting ISO..."]
                              else [] in
                    let '(rc, t1) := run_privileged e cmd in
                    let t2 :=
                      if progress
                      then [Xe_progress (if rc =? 0 then 1.0%float else 0.0%float)
                              (if rc =? 0 then "Complete" else "Failed")]
                      else [] in
                    (rc =? 0,
                     (tp ++ t0 ++ t1 ++ t2 ++ [Xe_rmdir mount_dir])%list)
                end
            end
      end
  | _, _ => (false, [])
  end.

End IsoExtract.

Import Libc Device Platform Partition Format IsoWriter.

(* ================================================================== *)
(** * Vocabulary of the properties *)

(** A mountpoint is forbidden when it is one of the four listed paths or
    begins with [/home/]. *)
Definition forbidden_path (m : string) : Prop :=
  In m forbidden_mounts \/ exists rest, m = "/home/" ++ rest.

(** [s] begins with [p]. *)
Definition starts_with (p s : string) : Prop := exists r, s = p ++ r.

(** No zero byte inside a (literal) prefix. *)
Fixpoint no_nul (p : string) : Prop :=
  match p with
  | EmptyString => True
  | String c t => code c <> 0 /\ no_nul t
  end.

(** [c] is one of the characters 0 to 9. *)
Definition digit_char (c : ascii) : Prop :=
  code "0"%char <= code c <= code "9"%char.

(** [s] is not empty and its last character is a digit. *)
Definition ends_in_digit (s : string) : Prop :=
  exists pre c, s = pre ++ String c "" /\ digit_char c.

(** The naming convention of the specification: a [p] goes between the
    device name and the partition number when the base name ends in a
    digit or begins with [nvme], [mmcblk] or [loop]. *)
Definition needs_p_infix (base : string) : Prop :=
  ends_in_digit base
  \/ starts_with "nvme" base \/ starts_with "mmcblk" base
  \/ starts_with "loop" base.

(** A blank disk of 512-byte sectors, every call succeeding. *)
Definition blank_world (root : bool) : world :=
  {| w_disk := {| dk_sector_size := 512; dk_label := None; dk_parts := [] |};
     w_root := root;
     w_which := fun _ => true;
     w_pkexec := Some "/usr/bin/pkexec";
     w_system := fun _ => 0;
     w_fail := fun _ => false;
     w_calls := 0;
     w_log := [] |}.

(** The calls of the progress callback in a trace of [format_partition]. *)
Fixpoint progress_calls (t : list Format.event) : list (float * string) :=
  match t with
  | [] => []
  | Fp_progress f m :: t' => (f, m) :: progress_calls t'
  | _ :: t' => progress_calls t'
  end.


(** The bytes-written values handed to the progress callback. *)
Fixpoint reported (t : list IsoWriter.event) : list Z :=
  match t with
  | [] => []
  | Ev_progress b _ :: t' => b :: reported t'
  | _ :: t' => reported t'
  end.

(** A stat file for /dev/sdb with [wr] as its seventh field. *)
Definition stat_file (wr : Z) : string :=
  "     312      105    14536      820      97       41 " ++ fmt_d wr
  ++ "     5120        0     1410     5940".

Definition sysfs_with (content : string) : string -> option string :=
  fun p => if String.eqb p "/sys/block/sdb/stat" then Some content else None.

Definition obs_of (content : string) (wt : wait_obs) : obs :=
  {| o_sysfs := sysfs_with content; o_pipe_ok := true; o_fork := 4242;
     o_wait := wt |}.

(** A writer for a 1 GiB image, with both callbacks. *)
Definition writer_1GiB : option machine :=
  iso_writer_start iso_writer_new "/tmp/image.iso" "/dev/sdb"
    (Some (1024 * 1024 * 1024)) true true.

Definition from_start (om : option machine) (sch : list sched) : option machine :=
  match om with
  | Some m => Some (run sch m)
  | None => None
  end.

(** The counter values the outside shows to the writer thread, one per
    stretch of the thread. *)
Fixpoint thread_readings (dev : string) (sch : list sched) : list Z :=
  match sch with
  | [] => []
  | Thread o :: rest =>
      get_device_sectors_written (o_sysfs o) dev :: thread_readings dev rest
  | Cancel :: rest => thread_readings dev rest
  end.

Definition tick_readings (dev : string) (ticks : list tick) : list Z :=
  map (fun t => get_device_sectors_written (t_sysfs t) dev) ticks.

(** Counter values that stay within 2^55 sectors of [lo]: the byte count
    of a difference then fits 64 bits. *)
Definition in_window (lo r : Z) : Prop := lo <= r < lo + 2 ^ 55.

Definition nondecreasing (l : list Z) : Prop := StronglySorted Z.le l.

(** What holds of the writer thread between two stretches, given the
    counter values [future] still to come. *)
Definition writer_inv (dev : string) (sz lo : Z) (future : list Z)
           (m : machine) : Prop :=
  device_path (m_writer m) = Some dev
  /\ iso_size (m_writer m) = sz
  /\ nondecreasing (reported (m_trace m))
  /\ Forall (fun v => v <= sz) (reported (m_trace m))
  /\ match m_pc m with
     | PC_start | PC_spawn => reported (m_trace m) = []
     | PC_publish | PC_check | PC_poll =>
         lo <= m_baseline m
         /\ Forall (fun r => m_baseline m <= r) future
         /\ Forall (fun v =>
                      Forall (fun r => v <= poll_bytes (m_baseline m) r sz)
                             future)
                   (reported (m_trace m))
     | _ => True
     end.

(** The schedule of a run without cancellation that meets the counter
    values [samples] after the baseline [base]: entry, spawn and
    publication of the pid, then one check and one poll per sample. *)
Definition polling_schedule (base : Z) (samples : list Z) : list sched :=
  (repeat (Thread (obs_of (stat_file base) W_running)) 3
   ++ flat_map (fun s => [Thread (obs_of (stat_file s) W_running);
                          Thread (obs_of (stat_file s) W_running)]) samples)%list.

(** A trace without flush and without the state Complete. *)
Definition clean (t : list IsoWriter.event) : Prop :=
  ~ In Ev_sync t /\ ~ In (Ev_state WRITE_STATE_COMPLETE) t.





(** The outside with another mount table. *)
Definition with_mounts (pm : option (list mntent)) (e : Window.outside)
  : Window.outside :=
  {| Window.proc_mounts := pm;
     Window.which := Window.which e;
     Window.umount2_ok := Window.umount2_ok e;
     Window.system_rc := Window.system_rc e;
     Window.call_ok := Window.call_ok e |}.

(** A USB stick and the window after an enumeration that found it
    unmounted; a 4 GB image is selected for a raw write. *)
Definition usb_stick : udev_device :=
  {| devnode := "/dev/sdb"; sysname := Some "sdb"; ID_BUS := Some "usb";
     ID_VENDOR := Some "Generic"; ID_MODEL := Some "Flash_Disk";
     ID_SERIAL_SHORT := None; sys_removable := true;
     sys_size := 15633408 |}.

Definition image_4GB : IsoAnalyzer.iso_info_t :=
  {| IsoAnalyzer.path := Some "/tmp/image.iso";
     IsoAnalyzer.label := Some "LIVE";
     IsoAnalyzer.size := 4 * 1000 * 1000 * 1000;
     IsoAnalyzer.boot_type := IsoAnalyzer.BOOT_TYPE_HYBRID;
     IsoAnalyzer.is_bootable := true; IsoAnalyzer.has_efi := true;
     IsoAnalyzer.has_eltorito := true; IsoAnalyzer.is_hybrid := true;
     IsoAnalyzer.is_windows := false; IsoAnalyzer.is_linux := true |}.

Definition window_with (devs : list device_info_t)
           (info : IsoAnalyzer.iso_info_t) (write_mode target fs : Z)
  : Window.RufusWindow :=
  {| Window.device_dropdown := 0; Window.boot_dropdown := 0;
     Window.write_mode_dropdown := write_mode;
     Window.partition_dropdown := 1; Window.target_dropdown := target;
     Window.fs_dropdown := fs; Window.cluster_dropdown := 0;
     Window.label_entry := "LIVE";
     Window.devices := Some devs;
     Window.iso_path := Some "/tmp/image.iso";
     Window.iso_info := Some info;
     Window.iso_writer := iso_writer_new;
     Window.operation_running := false;
     Window.status_label := ("READY", Some "status-ready") |}.

Definition root_mount : mntent :=
  {| mnt_fsname := "/dev/nvme0n1p2"; mnt_dir := "/" |}.

Definition outside_with (mounts : list mntent) : Window.outside :=
  {| Window.proc_mounts := Some mounts;
     Window.which := fun _ => true;
     Window.umount2_ok := fun _ => true;
     Window.system_rc := fun _ => 0;
     Window.call_ok := fun _ => true |}.

(** Modelled from the spec: the error taxonomy of its section 7, which the
    code does not have (the window reports a refusal as a status text of
    the style class status-error). The taxonomy files a size mismatch
    between source and device under SafetyViolation and a missing tool
    under ConfigurationError. *)
Inductive error_class :=
| ConfigurationError
| SafetyViolation
| DeviceIOError
| ProcessError
| CancellationRequested.

(** Modelled from the spec: the class of a refusal of [on_start_clicked],
    for the two status texts whose cause the taxonomy names (the size
    mismatch and the missing extraction tool). *)
Definition refusal_class (text : string) : option error_class :=
  if String.eqb text "ISO is larger than the target device"
  then Some SafetyViolation
  else if String.eqb text "ISO file copy needs xorriso, bsdtar, or 7z"
  then Some ConfigurationError
  else None.

(** A click on Start that ends in a refusal: an error status, no call, no
    dialog and so no operation. *)
Definition refused (r : Window.started) : Prop :=
  Window.r_dialog r = None
  /\ Window.r_calls r = []
  /\ snd (Window.status_label (Window.r_window r)) = Some "status-error".

Definition stick_with_mounts (ms : list string) : device_info_t :=
  {| name := "sdb"; Device.path := "/dev/sdb"; vendor := Some "Generic";
     model := Some "Flash_Disk"; serial := None;
     Device.size := 15633408 * 512; removable := true; is_usb := true;
     bus_type := Some "usb"; mountpoints := Some ms;
     mountpoint_count := Z.of_nat (List.length ms) |}.

Definition image_16GB : IsoAnalyzer.iso_info_t :=
  {| IsoAnalyzer.path := Some "/tmp/image.iso";
     IsoAnalyzer.label := Some "BIG";
     IsoAnalyzer.size := 16 * 1000 * 1000 * 1000;
     IsoAnalyzer.boot_type := IsoAnalyzer.BOOT_TYPE_HYBRID;
     IsoAnalyzer.is_bootable := true; IsoAnalyzer.has_efi := true;
     IsoAnalyzer.has_eltorito := true; IsoAnalyzer.is_hybrid := true;
     IsoAnalyzer.is_windows := false; IsoAnalyzer.is_linux := true |}.

(** The states the writer was put in, in order. *)
Fixpoint states_of (t : list IsoWriter.event) : list write_state_t :=
  match t with
  | [] => []
  | Ev_state s :: t' => s :: states_of t'
  | _ :: t' => states_of t'
  end.

(** The calls of the completion callback, in order. *)
Fixpoint completions (t : list IsoWriter.event) : list (write_state_t * string) :=
  match t with
  | [] => []
  | Ev_complete s msg :: t' => (s, msg) :: completions t'
  | _ :: t' => completions t'
  end.

(** The message [writer_thread] hands to the completion callback with
    each final state. *)
Definition terminal_message (s : write_state_t) : string :=
  match s with
  | WRITE_STATE_COMPLETE => "Write complete"
  | WRITE_STATE_ERROR => "Write failed"
  | WRITE_STATE_CANCELLED => "Write cancelled"
  | _ => ""
  end.

(** Where a writer stands after its thread has returned: the states it
    went through end in its final state, and the device was flushed on the
    way to Complete only. *)
Definition finished (t : list IsoWriter.event) (s : write_state_t) : Prop :=
  (states_of t = [WRITE_STATE_WRITING; WRITE_STATE_SYNCING; WRITE_STATE_COMPLETE]
   /\ s = WRITE_STATE_COMPLETE /\ In Ev_sync t)
  \/ (states_of t = [WRITE_STATE_WRITING; WRITE_STATE_ERROR]
      /\ s = WRITE_STATE_ERROR /\ ~ In Ev_sync t)
  \/ (states_of t = [WRITE_STATE_WRITING; WRITE_STATE_CANCELLED]
      /\ s = WRITE_STATE_CANCELLED /\ ~ In Ev_sync t).

(** What every stretch of the writer thread and every call of
    [iso_writer_cancel] keeps, by the point the thread has reached; [ccb]
    says whether a completion callback was given. *)
Definition lifecycle (ccb : bool) (m : machine) : Prop :=
  let w := m_writer m in
  let t := m_trace m in
  complete_cb w = ccb
  /\ match m_pc m with
     | PC_start =>
         thread_running w = true /\ states_of t = [] /\ completions t = []
         /\ ~ In Ev_sync t
     | PC_spawn | PC_publish | PC_check | PC_poll
     | PC_cancelled | PC_success | PC_error =>
         thread_running w = true /\ state w = WRITE_STATE_WRITING
         /\ states_of t = [WRITE_STATE_WRITING] /\ completions t = []
         /\ ~ In Ev_sync t
     | PC_sync =>
         thread_running w = true /\ state w = WRITE_STATE_SYNCING
         /\ dd_pid w = -1
         /\ states_of t = [WRITE_STATE_WRITING; WRITE_STATE_SYNCING]
         /\ completions t = [] /\ ~ In Ev_sync t
     | PC_complete =>
         thread_running w = true /\ state w = WRITE_STATE_COMPLETE
         /\ dd_pid w = -1
         /\ states_of t = [WRITE_STATE_WRITING; WRITE_STATE_SYNCING;
                           WRITE_STATE_COMPLETE]
         /\ completions t = [] /\ In Ev_sync t
     | PC_done =>
         thread_running w = false /\ dd_pid w = -1
         /\ finished t (state w)
         /\ completions t
            = (if ccb then [(state w, terminal_message (state w))] else [])
         /\ (ccb = true ->
             exists t0, t = (t0 ++ [Ev_complete (state w)
                                      (terminal_message (state w))])%list)
     end.

(** The writer of [writer_1GiB] with its thread at its entry. *)
Definition machine_1GiB : machine :=
  {| m_writer :=
       {| iso_path := Some "/tmp/image.iso"; device_path := Some "/dev/sdb";
          iso_size := 1024 * 1024 * 1024; progress_cb := true;
          complete_cb := true; state := WRITE_STATE_IDLE; dd_pid := -1;
          cancel_requested := false; thread_running := true |};
     m_pc := PC_start; m_pid := 0; m_baseline := 0; m_trace := [] |}.

(** A run to the end without cancellation: three samples, then the copy
    process is reaped with the status word [wstatus]. *)
Definition full_run (wstatus : Z) : list sched :=
  (polling_schedule 0 [100; 200; 300]
   ++ [Thread (obs_of (stat_file 300) W_running);
       Thread (obs_of (stat_file 300) (W_reaped wstatus))]
   ++ repeat (Thread (obs_of (stat_file 300) W_running)) 3)%list.

(** Every character of [s] passes the test [p]. *)
Fixpoint str_all (p : ascii -> bool) (s : string) : bool :=
  match s with
  | EmptyString => true
  | String c t => p c && str_all p t
  end.

(** The number a string of decimal digits denotes, on top of [acc]. *)
Fixpoint dec_acc (s : string) (acc : Z) : Z :=
  match s with
  | EmptyString => acc
  | String c t => dec_acc t (acc * 10 + (code c - 48))
  end.

Definition dec_value (s : string) : Z := dec_acc s 0.

(** A field of a stat file: white space, then a number of at least one
    digit that fits an unsigned long. *)
Definition stat_field (f : string * string) : Prop :=
  str_all isspace (fst f) = true
  /\ str_all isdigit (snd f) = true
  /\ snd f <> ""
  /\ dec_value (snd f) <= ULONG_MAX.

(** The fields one after the other; every field but the first is set off
    by white space. *)
Fixpoint stat_text (fields : list (string * string)) : string :=
  match fields with
  | [] => ""
  | f :: rest => fst f ++ snd f ++ stat_text rest
  end.

Fixpoint separated (fields : list (string * string)) : Prop :=
  match fields with
  | [] => True
  | f :: rest => fst f <> "" /\ separated rest
  end.

(** No [waitpid] of these turns finds the child gone. *)
Definition never_reaped (ticks : list tick) : Prop :=
  Forall (fun t => match t_wait t with W_reaped _ => False | _ => True end) ticks.

(** The rest of the input after a number does not go on with a digit. *)
Definition stops_number (rest : string) : Prop :=
  match rest with
  | EmptyString => True
  | String c _ => isdigit c = false
  end.

(** The stat file of the kernel documentation's example: eleven fields,
    the seventh is 1100. *)
Definition stat_fields_example : list (string * string) :=
  [ ("    ", "312"); ("      ", "105"); ("    ", "14536"); ("      ", "820");
    ("      ", "97"); ("       ", "41"); (" ", "1100"); ("     ", "5120");
    ("        ", "0"); ("     ", "1410"); ("     ", "5940") ].

(** The partition [partition_add] asks libfdisk for, on a disk of label
    [lbl] and sector size [ss]. *)
Definition is_mbr (lbl : partition_style_t) : bool :=
  match lbl with
  | PARTITION_STYLE_MBR => true
  | PARTITION_STYLE_GPT => false
  end.

(** A type that marks a partition as an EFI System Partition. *)
Definition efi_type (t : option parttype) : Prop :=
  t = Some (PT_guid GPT_TYPE_EFI) \/ t = Some (PT_code MBR_TYPE_EFI).

(** What no call of the partition engine changes: who the caller is and
    how the outside answers. *)
Definition same_outside (w w' : world) : Prop :=
  w_root w' = w_root w /\ w_which w' = w_which w
  /\ w_pkexec w' = w_pkexec w /\ w_system w' = w_system w
  /\ w_fail w' = w_fail w.

(** The partition [partition_add] and [partition_add_efi] hand to
    libfdisk for an entry, on a disk of sector size [ss]. *)
Definition requested (ty : option parttype) (active : bool) (ss : Z)
           (part : partition_entry_t) (n : Z) : fdisk_partition :=
  {| pa_partno := (n - 1) mod 2 ^ 64;
     pa_start := if 0 <? Partition.start part
                 then Some (Partition.start part / ss) else None;
     pa_size := if 0 <? Partition.size part
                then Some (Partition.size part / ss) else None;
     pa_type := ty;
     pa_active := active |}.

(** The type [partition_add] gives on a table of label [lbl]. *)
Definition data_type (lbl : partition_style_t) (fs : fs_type_t) : parttype :=
  match lbl with
  | PARTITION_STYLE_MBR => PT_code (get_mbr_type fs)
  | PARTITION_STYLE_GPT => PT_guid (get_gpt_type fs)
  end.

(** The type [partition_add_efi] gives on a table of label [lbl]. *)
Definition esp_type (lbl : partition_style_t) : parttype :=
  match lbl with
  | PARTITION_STYLE_MBR => PT_code MBR_TYPE_EFI
  | PARTITION_STYLE_GPT => PT_guid GPT_TYPE_EFI
  end.

(** The two partitions of the bootable GPT layout on a disk of sector
    size [ss]: the 256 MiB partition and the data partition. *)
Definition layout_esp (ss : Z) : fdisk_partition :=
  {| pa_partno := 0; pa_start := None;
     pa_size := Some (256 * 1024 * 1024 / ss);
     pa_type := Some (PT_guid (get_gpt_type FS_FAT32));
     pa_active := false |}.

Definition layout_data (fs : fs_type_t) : fdisk_partition :=
  {| pa_partno := 1; pa_start := None; pa_size := None;
     pa_type := Some (PT_guid (get_gpt_type fs)); pa_active := false |}.

(** The one partition of the single-partition layouts: the whole disk,
    flagged active on an MBR table only. *)
Definition layout_whole (style : partition_style_t) (ty : parttype)
  : fdisk_partition :=
  {| pa_partno := 0; pa_start := None; pa_size := None;
     pa_type := Some ty; pa_active := is_mbr style |}.

Definition table_of (ss : Z) (style : partition_style_t)
           (parts : list fdisk_partition) : disk :=
  {| dk_sector_size := ss; dk_label := Some style; dk_parts := parts |}.

(** The search for [sfdisk]: the command line [command_exists] hands to
    [system], and the world after it, in which that command line is in
    the log and nothing else has changed. *)
Definition sfdisk_probe : Partition.event :=
  Pe_system "which sfdisk >/dev/null 2>&1".

Definition probed (w : world) : world :=
  {| w_disk := w_disk w; w_root := w_root w; w_which := w_which w;
     w_pkexec := w_pkexec w; w_system := w_system w; w_fail := w_fail w;
     w_calls := w_calls w; w_log := (w_log w ++ [sfdisk_probe])%list |}.

(** A world without root rights in which [sfdisk] or [pkexec] is missing. *)
Definition no_helper (w : world) : Prop :=
  w_root w = false /\ (w_which w "sfdisk" = false \/ w_pkexec w = None).

Definition unprivileged_world : world :=
  {| w_disk := {| dk_sector_size := 512; dk_label := None; dk_parts := [] |};
     w_root := false;
     w_which := fun _ => true;
     w_pkexec := None;
     w_system := fun _ => 0;
     w_fail := fun _ => false;
     w_calls := 0;
     w_log := [] |}.

(** The events of a formatting trace that are not progress reports. *)
Definition not_progress (ev : Format.event) : bool :=
  match ev with Fp_progress _ _ => false | _ => true end.

(** Fractions that never go back: each one is at most the next. *)
Fixpoint rising (l : list float) : Prop :=
  match l with
  | a :: (b :: _) as t => PrimFloat.leb a b = true /\ rising t
  | _ => True
  end.

(** The command lines the child of [format_partition] executes. *)
Fixpoint executed (t : list Format.event) : list (list string) :=
  match t with
  | [] => []
  | Fp_exec argv :: t' => argv :: executed t'
  | _ :: t' => executed t'
  end.

Definition format_env (root : bool) (polls : nat) (status : Z) : Format.env :=
  {| fe_which := fun _ => true; fe_fork := 4321; fe_root := root;
     fe_polls := polls; fe_status := status |}.

Definition fat32_options : format_options_t :=
  {| Format.fs_type := FS_FAT32; Format.label := Some "USB";
     cluster_size := 4096; quick_format := true |}.

(** How [sh] reads one word, for the fragment that quoting uses: text
    between single quotes is literal, outside quotes a backslash makes
    the next character literal and a space ends the word. [inq] says
    whether the reader is between quotes. The answer is the word and what
    is left of the line; it is [None] for an open quote and for any other
    character met outside quotes. *)
Fixpoint sh_word (inq : bool) (s : string) : option (string * string) :=
  match s with
  | EmptyString => if inq then None else Some (EmptyString, EmptyString)
  | String c t =>
      if inq then
        if Ascii.eqb c "'"%char then sh_word false t
        else match sh_word true t with
             | Some (w, rest) => Some (String c w, rest)
             | None => None
             end
      else if Ascii.eqb c "'"%char then sh_word true t
      else if Ascii.eqb c "\"%char then
        match t with
        | String d t' =>
            match sh_word false t' with
            | Some (w, rest) => Some (String d w, rest)
            | None => None
            end
        | EmptyString => None
        end
      else if Ascii.eqb c " "%char then Some (EmptyString, s)
      else None
  end.

(** What may follow a word on a command line: nothing, or a space and
    more. *)
Definition word_end (s : string) : Prop :=
  s = EmptyString \/ exists t, s = String " " t.

(** A text without a single quote. *)
Fixpoint quote_free (s : string) : Prop :=
  match s with
  | EmptyString => True
  | String c t => c <> "'"%char /\ quote_free t
  end.

(** A mountpoint that [device_unmount] can hand to the shell between
    single quotes: it has no single quote, and the command line made
    with it fits the 512 bytes of [cmd]. *)
Definition plain_mountpoint (m : string) : Prop :=
  quote_free m /\ (String.length m <= 490)%nat.

(** A command line that the shell reads as the unmount of [m], with the
    errors thrown away: after [umount] comes one word, which the shell
    reads as [m], and then the redirection. *)
Definition shell_umount (m cmd : string) : Prop :=
  exists arg,
    cmd = "umount " ++ arg ++ " 2>/dev/null"
    /\ sh_word false (arg ++ " 2>/dev/null") = Some (m, " 2>/dev/null").

(** A search for an extraction tool: it names no device. *)
Definition tool_search (cmd : string) : Prop :=
  In cmd [ "which xorriso >/dev/null 2>&1"; "which bsdtar >/dev/null 2>&1";
           "which 7z >/dev/null 2>&1" ].

(** A call that concerns the device [dev] and nothing else: an unmount of
    one of its mountpoints, by [umount2] or by a command line the shell
    reads as such, a sleep, an operation on its path or on the path of
    its first or second partition; or a search for a tool. *)
Definition concerns (dev : device_info_t) (c : Window.call) : Prop :=
  match c with
  | Window.C_umount2 dir =>
      exists ms, mountpoints dev = Some ms /\ In dir ms
  | Window.C_system cmd =>
      tool_search cmd
      \/ exists ms m, mountpoints dev = Some ms /\ In m ms
                      /\ shell_umount m cmd
  | Window.C_usleep _ => True
  | Window.C_partition_create_single_efi device _ _
  | Window.C_partition_create_bootable device _ _ _ _
  | Window.C_partition_create_single device _ _ _
  | Window.C_iso_write_sync _ device => device = Device.path dev
  | Window.C_format_partition p _ =>
      p = partition_get_path (Device.path dev) 1
      \/ p = partition_get_path (Device.path dev) 2
  | Window.C_iso_extract_to_partition _ p =>
      p = partition_get_path (Device.path dev) 1
  end.

(** The calls that partition, format and write nothing: the unmounts,
    the command lines handed to [system] and the sleeps. *)
Definition unmounts_or_sleeps (c : Window.call) : bool :=
  match c with
  | Window.C_umount2 _ | Window.C_system _ | Window.C_usleep _ => true
  | _ => false
  end.

(** A partition suffix: text without a slash, as the [1] of [/dev/sdb1]. *)
Fixpoint no_slash (s : string) : Prop :=
  match s with
  | EmptyString => True
  | String c t => c <> "/"%char /\ no_slash t
  end.

(** What [device_enumerate] records of the mounts of a device agrees:
    the count is the length of the array, and the array is NULL rather
    than empty. *)
Definition mounts_agree (d : device_info_t) : Prop :=
  match mountpoints d with
  | None => mountpoint_count d = 0
  | Some ms => ms <> [] /\ mountpoint_count d = Z.of_nat (List.length ms)
  end.

(** A stick whose first partition is mounted, as udev and the mount
    table show it. *)
Definition media_mount : mntent :=
  {| mnt_fsname := "/dev/sdb1"; mnt_dir := "/media/usb" |}.

(** The bytes of a digest. *)
Definition is_byte (b : Z) : Prop := 0 <= b < 256.

(** The characters 0-9, a-f and A-F. *)
Definition is_hex_digit (c : ascii) : bool :=
  let n := code c in
  ((48 <=? n) && (n <=? 57)) || ((97 <=? n) && (n <=? 102))
  || ((65 <=? n) && (n <=? 70)).

Fixpoint all_hex_digits (s : string) : bool :=
  match s with
  | EmptyString => true
  | String c t => is_hex_digit c && all_hex_digits t
  end.

(** A text with its capital letters A to Z made small. *)
Definition lower_char (c : ascii) : ascii :=
  let n := code c in
  if (65 <=? n) && (n <=? 90) then ascii_of_nat (Z.to_nat (n + 32)) else c.

Fixpoint lower_text (s : string) : string :=
  match s with
  | EmptyString => EmptyString
  | String c t => String (lower_char c) (lower_text t)
  end.

(** A text of spaces only. *)
Fixpoint all_spaces (s : string) : Prop :=
  match s with
  | EmptyString => True
  | String c t => c = " "%char /\ all_spaces t
  end.

(** A text that neither begins nor ends with a space (and is not
    empty). *)
Definition begins_nonspace (s : string) : Prop :=
  match s with
  | EmptyString => False
  | String c _ => c <> " "%char
  end.

Definition ends_nonspace (s : string) : Prop :=
  exists pre c, s = pre ++ String c EmptyString /\ c <> " "%char.

(** The command lines and the progress reports in a trace of
    [iso_extract_to_partition]. *)
Fixpoint extract_commands (t : list IsoExtract.event) : list string :=
  match t with
  | [] => []
  | IsoExtract.Xe_system cmd :: t' => cmd :: extract_commands t'
  | _ :: t' => extract_commands t'
  end.

Fixpoint extract_progress (t : list IsoExtract.event) : list (float * string) :=
  match t with
  | [] => []
  | IsoExtract.Xe_progress f m :: t' => (f, m) :: extract_progress t'
  | _ :: t' => extract_progress t'
  end.

(** The searches [select_extract_tool] can make, in their order. *)
Definition tool_probes : list IsoExtract.event :=
  [ IsoExtract.Xe_system "which xorriso >/dev/null 2>&1";
    IsoExtract.Xe_system "which bsdtar >/dev/null 2>&1";
    IsoExtract.Xe_system "which 7z >/dev/null 2>&1" ].

Definition extract_env (which : string -> bool) (rc : Z) : IsoExtract.env :=
  {| IsoExtract.xe_which := which;
     IsoExtract.xe_stat_ok := true;
     IsoExtract.xe_mkdtemp := Some "/tmp/rufus-mount-a1b2c3";
     IsoExtract.xe_root := false;
     IsoExtract.xe_pkexec := Some "/usr/bin/pkexec";
     IsoExtract.xe_system := fun _ => rc;
     IsoExtract.xe_quote := fun s => "'" ++ s ++ "'" |}.

(** A partitioning step made without root rights: after the search for
    [sfdisk] (made once, or twice), one command line, an
    [sh -c 'printf ... | sfdisk ...'] handed to [pkexec], and the answer
    says whether it came back with 0. *)
Definition runs_sfdisk_once (pk : string) (w : world) (r : bool * world)
  : Prop :=
  exists script probes,
    starts_with "sh -c 'printf " script
    /\ (probes = [sfdisk_probe] \/ probes = [sfdisk_probe; sfdisk_probe])
    /\ w_log (snd r)
       = (w_log w ++ probes
          ++ [Pe_system (snprintf 4096 (pk ++ " " ++ script))])%list
    /\ fst r = (w_system w (snprintf 4096 (pk ++ " " ++ script)) =? 0).

(* ================================================================== *)
(** * Properties *)

Lemma strcmp_refl (s : string) : strcmp s s = 0.
Proof.
  induction s as [|c t IH]; simpl; [reflexivity|].
  rewrite Z.eqb_refl. destruct (code c =? 0); auto.
Qed.

Lemma forbidden_scan_home (m : string) (fm : list string) :
  fm <> [] -> strncmp m "/home/" 6 = 0 -> forbidden_scan m fm = true.
Proof.
  destruct fm as [|f fm']; [congruence|]. intros _ H. cbn [forbidden_scan].
  destruct (strcmp m f =? 0); [reflexivity|]. now rewrite H.
Qed.

Lemma forbidden_scan_eq (m : string) (fm : list string) :
  In m fm -> forbidden_scan m fm = true.
Proof.
  induction fm as [|f fm' IH]; cbn [forbidden_scan In]; [tauto|].
  intros [->|Hin].
  - now rewrite strcmp_refl.
  - destruct (strcmp m f =? 0); [reflexivity|].
    destruct (strncmp m "/home/" 6 =? 0); [reflexivity|]. now apply IH.
Qed.

Lemma strncmp_prefix_home (rest : string) :
  strncmp ("/home/" ++ rest) "/home/" 6 = 0.
Proof. vm_compute. reflexivity. Qed.

Lemma forbidden_scan_path (m : string) :
  forbidden_path m -> forbidden_scan m forbidden_mounts = true.
Proof.
  intros [Hin|[rest ->]].
  - now apply forbidden_scan_eq.
  - apply forbidden_scan_home; [discriminate|apply strncmp_prefix_home].
Qed.

Lemma has_forbidden_mount_loop_in (ms : list string) (m : string) :
  In m ms -> forbidden_path m -> has_forbidden_mount_loop ms = true.
Proof.
  induction ms as [|x xs IH]; cbn [has_forbidden_mount_loop In]; [tauto|].
  intros [->|Hin] Hf.
  - now rewrite forbidden_scan_path.
  - destruct (forbidden_scan x forbidden_mounts); auto.
Qed.

(** C1. A device one of whose mountpoints is [/], [/boot], [/boot/efi],
    [/home] or begins with [/home/] is a system drive for
    [device_is_system_drive] ([has_forbidden_mount] answers true), so it is
    not eligible. *)
Theorem C1_forbidden_mount_ineligible (d : device_info_t)
        (ms : list string) (m : string) :
  mountpoints d = Some ms ->
  In m ms ->
  (m = "/" \/ m = "/boot" \/ m = "/boot/efi" \/ m = "/home"
   \/ exists rest, m = "/home/" ++ rest) ->
  has_forbidden_mount (mountpoints d) = true
  /\ device_is_system_drive (Some d) = true
  /\ isEligible d = false.
Proof.
  intros Hd Hin Hm.
  assert (Hf : forbidden_path m).
  { unfold forbidden_path, forbidden_mounts. simpl.
    destruct Hm as [->|[->|[->|[->|Hex]]]]; auto 6. }
  assert (H : has_forbidden_mount (mountpoints d) = true).
  { rewrite Hd. simpl. eapply has_forbidden_mount_loop_in; eauto. }
  unfold isEligible. simpl. rewrite H. auto.
Qed.

(* ------------------------------------------------------------------ *)
(** ** Partition device paths *)

Lemma code_inj (a b : ascii) : code a = code b -> a = b.
Proof.
  unfold code. intros H. apply Nat2Z.inj in H.
  rewrite <- (ascii_nat_embedding a), <- (ascii_nat_embedding b).
  now rewrite H.
Qed.

Lemma code_eqb_spec (a b : ascii) : (code a =? code b) = true <-> a = b.
Proof.
  rewrite Z.eqb_eq. split; [apply code_inj | now intros ->].
Qed.

Lemma strncmp_starts_with (p : string) :
  no_nul p -> forall s, strncmp s p (strlen p) = 0 <-> starts_with p s.
Proof.
  induction p as [|c p IH]; intros Hp s.
  - simpl. split; [intros _; now exists s | reflexivity].
  - destruct Hp as [Hc Hp]. cbn [strlen String.length strncmp].
    destruct s as [|a s].
    + split; [lia|]. intros [r Hr]. discriminate Hr.
    + destruct (code a =? code c) eqn:E.
      * apply code_eqb_spec in E. subst a.
        apply Z.eqb_neq in Hc. rewrite Hc.
        fold (strlen p). rewrite (IH Hp s). split.
        -- intros [r ->]. now exists r.
        -- intros [r Hr]. simpl in Hr. injection Hr as ->. now exists r.
      * split.
        -- intros H. apply Z.eqb_neq in E. lia.
        -- intros [r Hr]. simpl in Hr. injection Hr as -> _.
           rewrite Z.eqb_refl in E. discriminate.
Qed.

Lemma isdigit_spec (c : ascii) : isdigit c = true <-> digit_char c.
Proof.
  unfold isdigit, digit_char. rewrite andb_true_iff, !Z.leb_le.
  change (code "0"%char) with 48. change (code "9"%char) with 57. tauto.
Qed.

Lemma get_last_spec (s : string) (c : ascii) :
  String.get (strlen s - 1) s = Some c <-> exists pre, s = pre ++ String c "".
Proof.
  induction s as [|a s IH].
  - simpl. split; [discriminate|]. intros [[|x pre] H]; discriminate H.
  - destruct s as [|b s'].
    + simpl. split.
      * intros [= ->]. now exists "".
      * intros [[|x pre] H]; simpl in H.
        -- now injection H as ->.
        -- injection H as _ H. destruct pre; discriminate H.
    + replace (strlen (String a (String b s')) - 1)%nat
        with (S (strlen (String b s') - 1)) by (simpl; lia).
      cbn [String.get]. rewrite IH. split.
      * intros [pre ->]. now exists (String a pre).
      * intros [[|x pre] H]; simpl in H.
        -- discriminate H.
        -- injection H as _ H. now exists pre.
Qed.

Lemma last_digit_spec (s : string) :
  ((0 <? strlen s)%nat
   && match String.get (strlen s - 1) s with
      | Some c => isdigit c
      | None => false
      end) = true <-> ends_in_digit s.
Proof.
  rewrite andb_true_iff. split.
  - intros [_ H]. destruct (String.get (strlen s - 1) s) as [c|] eqn:G;
      [|discriminate].
    apply get_last_spec in G. destruct G as [pre ->].
    exists pre, c. split; [reflexivity | now apply isdigit_spec].
  - intros (pre & c & -> & Hd). split.
    + apply Nat.ltb_lt. destruct pre; simpl; lia.
    + assert (G : String.get (strlen (pre ++ String c "") - 1)
                    (pre ++ String c "") = Some c)
        by (apply get_last_spec; now exists pre).
      rewrite G. now apply isdigit_spec.
Qed.

Lemma no_nul_nvme : no_nul "nvme".
Proof. simpl. repeat split; discriminate. Qed.

Lemma no_nul_mmcblk : no_nul "mmcblk".
Proof. simpl. repeat split; discriminate. Qed.

Lemma no_nul_loop : no_nul "loop".
Proof. simpl. repeat split; discriminate. Qed.

Lemma prefix_test (p s : string) :
  no_nul p -> (strncmp s p (strlen p) =? 0) = true <-> starts_with p s.
Proof. intros Hp. rewrite Z.eqb_eq. now apply strncmp_starts_with. Qed.

(** C9. [partition_get_path] puts a [p] before the partition number
    exactly when the base name of the device ends in a digit or begins with
    [nvme], [mmcblk] or [loop], and appends the bare number otherwise;
    [/dev/sda] gives [/dev/sda1] and [/dev/nvme0n1] gives
    [/dev/nvme0n1p1]. *)
Theorem C9_partition_path (device : string) (n : Z) :
  (needs_p_infix (base_of device) ->
   partition_get_path device n = device ++ "p" ++ fmt_d n)
  /\ (~ needs_p_infix (base_of device) ->
      partition_get_path device n = device ++ fmt_d n)
  /\ partition_get_path "/dev/sda" 1 = "/dev/sda1"
  /\ partition_get_path "/dev/nvme0n1" 1 = "/dev/nvme0n1p1".
Proof.
  assert (Hn := prefix_test "nvme" (base_of device) no_nul_nvme).
  assert (Hm := prefix_test "mmcblk" (base_of device) no_nul_mmcblk).
  assert (Hl := prefix_test "loop" (base_of device) no_nul_loop).
  assert (Hd := last_digit_spec (base_of device)).
  unfold partition_get_path. fold (base_of device).
  change (strlen "nvme") with 4%nat in Hn.
  change (strlen "mmcblk") with 6%nat in Hm.
  change (strlen "loop") with 4%nat in Hl.
  unfold needs_p_infix.
  destruct (strncmp (base_of device) "nvme" 4 =? 0);
    destruct (strncmp (base_of device) "mmcblk" 6 =? 0);
    destruct (strncmp (base_of device) "loop" 4 =? 0);
    cbn [orb];
    try (repeat split; try reflexivity; intros; try reflexivity; tauto).
  destruct ((0 <? strlen (base_of device))%nat &&
            match String.get (strlen (base_of device) - 1) (base_of device) with
            | Some c => isdigit c
            | None => false
            end).
  - repeat split; try reflexivity; tauto.
  - repeat split; try reflexivity; intros H; try reflexivity.
    exfalso.
    destruct H as [H|[H|[H|H]]];
      [apply Hd in H | apply Hn in H | apply Hm in H | apply Hl in H];
      discriminate.
Qed.

(* ------------------------------------------------------------------ *)
(** ** Bootable layout *)

(** C3. Run as root on a blank disk with every libfdisk call succeeding,
    [partition_create_bootable] for UEFI and GPT writes two partitions, the
    first of 256 MiB and the second over the remaining space, but the type
    of the first is the Microsoft basic data GUID, not the EFI System
    GUID. *)
Theorem C3_root_esp_type_is_msdata :
  let r := partition_create_bootable "/dev/sdb" PARTITION_STYLE_GPT
             TARGET_UEFI FS_FAT32 (Some "USB") (blank_world true) in
  fst r = true
  /\ dk_label (w_disk (snd r)) = Some PARTITION_STYLE_GPT
  /\ dk_parts (w_disk (snd r)) =
       [ {| pa_partno := 0; pa_start := None;
            pa_size := Some (256 * 1024 * 1024 / 512);
            pa_type := Some (PT_guid GPT_TYPE_MSDATA); pa_active := false |};
         {| pa_partno := 1; pa_start := None; pa_size := None;
            pa_type := Some (PT_guid GPT_TYPE_MSDATA); pa_active := false |} ]
  /\ GPT_TYPE_MSDATA <> GPT_TYPE_EFI.
Proof.
  cbv zeta. repeat split; try (vm_compute; reflexivity). discriminate.
Qed.

(** The sibling path taken when the caller is not root looks for sfdisk
    and asks it for the EFI System type ([U]) on the first partition. *)
Lemma privileged_path_requests_efi_type :
  w_log (snd (partition_create_bootable "/dev/sdb" PARTITION_STYLE_GPT
                TARGET_UEFI FS_FAT32 (Some "USB") (blank_world false))) =
  [ Pe_system "which sfdisk >/dev/null 2>&1";
    Pe_system ("/usr/bin/pkexec sh -c 'printf " ++ dq
               ++ "label: gpt\n, 256M, U\n, , " ++ GPT_TYPE_MSDATA ++ "\n"
               ++ dq ++ " | sfdisk --wipe always --wipe-partitions always"
               ++ " --lock /dev/sdb'") ].
Proof. vm_compute. reflexivity. Qed.

(** The same on every disk and for every data filesystem: as root, with no
    failing call, the GPT layout for a UEFI target is a 256 MiB partition of
    the type [get_gpt_type FS_FAT32] followed by a partition over the
    remaining space. *)
Lemma root_bootable_layout (w : world) (device : string) (fs : fs_type_t)
      (lbl : option string) (target : target_type_t) :
  w_root w = true ->
  (forall n, w_fail w n = false) ->
  target <> TARGET_BIOS ->
  let r := partition_create_bootable device PARTITION_STYLE_GPT target fs lbl w in
  fst r = true
  /\ dk_parts (w_disk (snd r)) =
       [ {| pa_partno := 0; pa_start := None;
            pa_size := Some (256 * 1024 * 1024 / dk_sector_size (w_disk w));
            pa_type := Some (PT_guid (get_gpt_type FS_FAT32));
            pa_active := false |};
         {| pa_partno := 1; pa_start := None; pa_size := None;
            pa_type := Some (PT_guid (get_gpt_type fs));
            pa_active := false |} ].
Proof.
  intros Hroot Hfail Ht.
  destruct target; [congruence| |];
    unfold partition_create_bootable, partition_create_table, partition_add,
      add_with_type, bind, ret, is_root, fdisk_ok, get_disk, put_disk,
      usleep, emit;
    cbn; rewrite Hroot; cbn; repeat (rewrite Hfail; cbn); split; reflexivity.
Qed.

(* ------------------------------------------------------------------ *)
(** ** Progress of formatting *)







(* ------------------------------------------------------------------ *)
(** ** Progress of the raw image writer *)

Lemma reported_app (t1 t2 : list IsoWriter.event) :
  reported (t1 ++ t2) = (reported t1 ++ reported t2)%list.
Proof.
  induction t1 as [|e t1 IH]; [reflexivity|].
  destruct e; simpl; rewrite IH; reflexivity.
Qed.

Lemma poll_bytes_le_size (b c iso : Z) : poll_bytes b c iso <= iso.
Proof.
  unfold poll_bytes. cbv zeta.
  destruct (Z.ltb_spec iso (wrap64 (wrap64 (c - b) * 512))); lia.
Qed.

Lemma poll_bytes_exact (b c iso : Z) :
  b <= c -> c - b < 2 ^ 55 ->
  poll_bytes b c iso = Z.min ((c - b) * 512) iso.
Proof.
  intros H1 H2. unfold poll_bytes, wrap64. cbv zeta.
  rewrite (Z.mod_small (c - b)) by lia.
  rewrite (Z.mod_small ((c - b) * 512)) by lia.
  destruct (Z.ltb_spec iso ((c - b) * 512)); lia.
Qed.

Lemma poll_bytes_mono (b c1 c2 iso : Z) :
  b <= c1 -> c1 <= c2 -> c2 - b < 2 ^ 55 ->
  poll_bytes b c1 iso <= poll_bytes b c2 iso.
Proof.
  intros H1 H2 H3. rewrite !poll_bytes_exact by lia. lia.
Qed.

(** A short read: [fscanf] assigns fewer than seven fields, and the
    function answers 0. *)
Lemma short_read_gives_zero (sysfs : string -> option string)
      (dev r content : string) :
  strrchr dev "/"%char = Some r ->
  sysfs (snprintf 256 ("/sys/block/" ++ next r ++ "/stat")) = Some content ->
  fscanf_ret content (scan_fields 8 content) < 7 ->
  get_device_sectors_written sysfs dev = 0.
Proof.
  intros Hr Hs Hlt. unfold get_device_sectors_written.
  rewrite Hr, Hs. cbv zeta.
  destruct (Z.leb_spec 7 (fscanf_ret content (scan_fields 8 content)));
    [lia | reflexivity].
Qed.

(** A sample of 0 under a baseline that is not 0 wraps around and is cut
    at the size of the image. *)
Lemma poll_bytes_zero_sample (b iso : Z) :
  0 < b -> b * 512 < 2 ^ 64 -> 0 <= iso -> iso + b * 512 <= 2 ^ 64 ->
  poll_bytes b 0 iso = iso.
Proof.
  intros H1 H2 H3 H4. unfold poll_bytes, wrap64. cbv zeta.
  replace ((0 - b) mod 2 ^ 64) with (2 ^ 64 - b).
  2:{ apply Z.mod_unique with (q := -1); lia. }
  replace (((2 ^ 64 - b) * 512) mod 2 ^ 64) with (2 ^ 64 - b * 512).
  2:{ apply Z.mod_unique with (q := 511); lia. }
  destruct (Z.ltb_spec iso (2 ^ 64 - b * 512)); lia.
Qed.

(** C7. Baseline 1000 sectors, a full sample of 1100 sectors, then a stat
    file with three fields only: the short read is taken as a counter of 0,
    the difference to the baseline wraps around, and the value reported for
    that tick is the size of the image, above the 51200 bytes of the tick
    before. *)
Theorem C7_short_read_not_zero_delta :
  let short := "     312      105    14536" in
  let sch := [ Thread (obs_of (stat_file 1000) W_running);   (* entry *)
               Thread (obs_of (stat_file 1000) W_running);   (* baseline, fork *)
               Thread (obs_of (stat_file 1000) W_running);   (* dd_pid *)
               Thread (obs_of (stat_file 1100) W_running);   (* check *)
               Thread (obs_of (stat_file 1100) W_running);   (* poll *)
               Thread (obs_of short W_running);              (* check *)
               Thread (obs_of short W_running) ] in          (* poll *)
  fscanf_ret short (scan_fields 8 short) = 3
  /\ get_device_sectors_written (sysfs_with short) "/dev/sdb" = 0
  /\ option_map (fun m => reported (m_trace m)) (from_start writer_1GiB sch)
     = Some [51200; 1073741824]
  /\ ~ (1073741824 <= 51200).
Proof.
  cbv zeta. repeat split; try (vm_compute; reflexivity). lia.
Qed.

Lemma nondecreasing_snoc (l : list Z) (v : Z) :
  nondecreasing l -> Forall (fun x => x <= v) l -> nondecreasing (l ++ [v]).
Proof.
  unfold nondecreasing. induction l as [|x l IH]; intros Hs Hf; simpl.
  - repeat constructor.
  - apply StronglySorted_inv in Hs as [Hs' Hx].
    pose proof (Forall_inv Hf) as Hxv. cbn beta in Hxv.
    pose proof (Forall_inv_tail Hf) as Hf'.
    constructor; [now apply IH|].
    apply Forall_app. split; [assumption | now repeat constructor].
Qed.

Lemma reported_complete_call (w : iso_writer) (s : write_state_t) (msg : string) :
  reported (complete_call w s msg) = [].
Proof. unfold complete_call. now destruct (complete_cb w). Qed.

Section WriterInvariant.

Variables (dev : string) (sz lo : Z).

Lemma writer_inv_cancel (future : list Z) (m : machine) :
  writer_inv dev sz lo future m -> writer_inv dev sz lo future (iso_writer_cancel m).
Proof.
  unfold writer_inv, iso_writer_cancel, upd. cbn.
  rewrite reported_app.
  replace (reported (if 0 <? dd_pid (m_writer m)
                     then [Ev_kill (dd_pid (m_writer m))] else []))
    with (@nil Z) by (destruct (0 <? dd_pid (m_writer m)); reflexivity).
  rewrite app_nil_r. tauto.
Qed.

Lemma Forall_tail_inner (b r : Z) (future : list Z) (l : list Z) :
  Forall (fun v => Forall (fun x => v <= poll_bytes b x sz) (r :: future)) l ->
  Forall (fun v => Forall (fun x => v <= poll_bytes b x sz) future) l.
Proof.
  apply Forall_impl. intros v H. now inversion H.
Qed.

Lemma Forall_head_inner (b r : Z) (future : list Z) (l : list Z) :
  Forall (fun v => Forall (fun x => v <= poll_bytes b x sz) (r :: future)) l ->
  Forall (fun v => v <= poll_bytes b r sz) l.
Proof.
  apply Forall_impl. intros v H. now inversion H.
Qed.

Lemma writer_inv_thread (o : obs) (future : list Z) (m : machine) :
  let r := get_device_sectors_written (o_sysfs o) dev in
  nondecreasing (r :: future) ->
  Forall (in_window lo) (r :: future) ->
  writer_inv dev sz lo (r :: future) m ->
  writer_inv dev sz lo future (thread_step o m).
Proof.
  intros r Hsort Hwin (Hdev & Hsz & Hnd & Hle & Hpc).
  apply StronglySorted_inv in Hsort as [Hsort' Hr].
  pose proof (Forall_inv Hwin) as Hwr.
  pose proof (Forall_inv_tail Hwin) as Hwin'.
  unfold thread_step, writer_inv.
  destruct (m_pc m) eqn:Epc.
  - (* entry *)
    cbn. rewrite reported_app, Hpc. cbn. repeat split; auto; constructor.
  - (* baseline, pipe, fork *)
    destruct (negb (o_pipe_ok o));
      [cbn; rewrite app_nil_r, Hpc; repeat split; auto; constructor|].
    destruct (o_fork o =? -1);
      [cbn; rewrite app_nil_r, Hpc; repeat split; auto; constructor|].
    cbn. rewrite reported_app, Hpc, Hdev. cbn.
    fold r. unfold in_window in Hwr.
    repeat split; auto; try constructor; lia.
  - (* dd_pid *)
    destruct Hpc as (Hlo & Hb & Hv). apply Forall_inv_tail in Hb.
    cbn. rewrite app_nil_r. repeat split; auto.
    eapply Forall_tail_inner; eauto.
  - (* check *)
    destruct Hpc as (Hlo & Hb & Hv). apply Forall_inv_tail in Hb.
    destruct (cancel_requested (m_writer m)); cbn;
      rewrite ?reported_app, ?app_nil_r; cbn; rewrite ?app_nil_r;
      repeat split; auto.
    eapply Forall_tail_inner; eauto.
  - (* poll *)
    destruct Hpc as (Hlo & Hb & Hv).
    pose proof (Forall_inv Hb) as Hbr.
    pose proof (Forall_inv_tail Hb) as Hb'.
    assert (Hsample :
      writer_inv dev sz lo future
        (upd (m_writer m) PC_check
             ((if progress_cb (m_writer m)
               then [Ev_progress
                       (poll_bytes (m_baseline m)
                          (get_device_sectors_written (o_sysfs o)
                             (str_of (device_path (m_writer m))))
                          (iso_size (m_writer m)))
                       (iso_size (m_writer m))]
               else []) ++ [Ev_usleep (PROGRESS_POLL_MS * 1000)]) m)).
    { unfold writer_inv. cbn. rewrite Hdev, Hsz. cbn. fold r.
      rewrite !reported_app.
      destruct (progress_cb (m_writer m)); cbn; rewrite ?app_nil_r.
      - repeat split; auto.
        + apply nondecreasing_snoc; auto.
          eapply Forall_head_inner; eauto.
        + apply Forall_app. split; auto. constructor; [|constructor].
          apply poll_bytes_le_size.
        + apply Forall_app. split.
          * eapply Forall_tail_inner; eauto.
          * constructor; [|constructor].
            rewrite Forall_forall in Hr, Hwin', Hb' |- *.
            intros x Hx. unfold in_window in *.
            specialize (Hr x Hx). specialize (Hwin' x Hx).
            apply poll_bytes_mono; lia.
      - repeat split; auto. eapply Forall_tail_inner; eauto. }
    fold (writer_inv dev sz lo future) in Hsample |- *.
    destruct (o_wait o) as [|wstatus|[|]]; try exact Hsample.
    + destruct (exited_zero wstatus); unfold writer_inv; cbn;
        rewrite app_nil_r; repeat split; auto.
    + unfold writer_inv; cbn; rewrite app_nil_r; repeat split; auto.
  - (* cancelled *)
    cbn. rewrite reported_app. cbn. rewrite reported_complete_call, app_nil_r.
    repeat split; auto.
  - (* success *)
    cbn. rewrite reported_app. cbn. rewrite app_nil_r. repeat split; auto.
  - (* sync *)
    cbn. rewrite reported_app. cbn. rewrite app_nil_r. repeat split; auto.
  - (* the last callbacks *)
    cbn. rewrite !reported_app, reported_complete_call, app_nil_r, Hsz.
    destruct (progress_cb (m_writer m)); cbn; rewrite ?app_nil_r.
    + repeat split; auto.
      * apply nondecreasing_snoc; auto.
      * apply Forall_app. split; auto. constructor; [lia|constructor].
    + repeat split; auto.
  - (* error *)
    cbn. rewrite reported_app. cbn. rewrite reported_complete_call, app_nil_r.
    repeat split; auto.
  - (* returned *)
    rewrite Epc. repeat split; auto.
Qed.

Lemma writer_inv_run (sch : list sched) :
  forall m,
    nondecreasing (thread_readings dev sch) ->
    Forall (in_window lo) (thread_readings dev sch) ->
    writer_inv dev sz lo (thread_readings dev sch) m ->
    writer_inv dev sz lo [] (run sch m).
Proof.
  induction sch as [|s sch IH]; intros m Hs Hw Hi; [exact Hi|].
  destruct s as [o|]; cbn [thread_readings] in *.
  - apply IH.
    + now apply StronglySorted_inv in Hs.
    + now apply Forall_inv_tail in Hw.
    + now apply writer_inv_thread.
  - apply IH; auto. now apply writer_inv_cancel.
Qed.

(** The loop of [iso_write_sync]: [c] is the counter value of the turn
    before. *)
Lemma sync_loop_sorted (b : Z) (progress : bool) (ticks : list tick) :
  forall c,
    lo <= b -> b <= c ->
    nondecreasing (c :: tick_readings dev ticks) ->
    Forall (in_window lo) (tick_readings dev ticks) ->
    let t := snd (iso_write_sync_loop dev sz b progress ticks) in
    nondecreasing (reported t)
    /\ Forall (fun v => poll_bytes b c sz <= v <= sz) (reported t).
Proof.
  induction ticks as [|t ticks IH]; intros c Hlo Hbc Hs Hw.
  - cbn. split; constructor.
  - cbn [tick_readings map] in Hs, Hw. fold (tick_readings dev ticks) in Hs, Hw.
    apply StronglySorted_inv in Hs as [Hs' Hc].
    pose proof (Forall_inv Hc) as Hcr.
    pose proof (Forall_inv Hw) as Hwr.
    pose proof (Forall_inv_tail Hw) as Hw'.
    set (r := get_device_sectors_written (t_sysfs t) dev) in *.
    assert (Hfinal :
      nondecreasing (reported (Ev_sync :: (if progress
                               then [Ev_progress sz sz] else [])))
      /\ Forall (fun v => poll_bytes b c sz <= v <= sz)
                (reported (Ev_sync :: (if progress
                               then [Ev_progress sz sz] else [])))).
    { destruct progress; cbn; split; repeat constructor.
      - apply poll_bytes_le_size.
      - lia. }
    assert (Hstep :
      let t' := snd (let '(res, evs) :=
                       iso_write_sync_loop dev sz b progress ticks in
                     (res, ((if progress
                             then [Ev_progress (poll_bytes b r sz) sz]
                             else [])
                            ++ Ev_usleep (PROGRESS_POLL_MS * 1000) :: evs)%list)) in
      nondecreasing (reported t')
      /\ Forall (fun v => poll_bytes b c sz <= v <= sz) (reported t')).
    { specialize (IH r Hlo ltac:(lia) Hs' Hw').
      destruct (iso_write_sync_loop dev sz b progress ticks) as [res evs].
      cbn [snd] in IH |- *. destruct IH as [IH1 IH2].
      assert (Hm : poll_bytes b c sz <= poll_bytes b r sz)
        by (unfold in_window in Hwr; apply poll_bytes_mono; lia).
      destruct progress; cbn.
      - split.
        + constructor; [exact IH1|].
          eapply Forall_impl; [|exact IH2]. cbn. intros; lia.
        + constructor.
          * split; [exact Hm | apply poll_bytes_le_size].
          * eapply Forall_impl; [|exact IH2]. cbn. intros; lia.
      - split; [exact IH1|].
        eapply Forall_impl; [|exact IH2]. cbn. intros; lia. }
    cbn [iso_write_sync_loop]. fold r.
    destruct (t_wait t); [exact Hstep | exact Hfinal | exact Hstep].
Qed.

End WriterInvariant.

Lemma writer_inv_start (w : iso_writer) (iso dev : string) (sz lo : Z)
      (pcb ccb : bool) (m0 : machine) (future : list Z) :
  iso_writer_start w iso dev (Some sz) pcb ccb = Some m0 ->
  writer_inv dev sz lo future m0.
Proof.
  unfold iso_writer_start. destruct (thread_running w); [discriminate|].
  intros [= <-]. unfold writer_inv. cbn. repeat split; constructor.
Qed.

(** C6. When the counter values are non-decreasing and stay within 2^55
    sectors of one another (so that no byte count leaves 64 bits), the
    bytes-written values reported by [writer_thread] and by
    [iso_write_sync] are non-decreasing and none exceeds the size of the
    image; for the samples 0, 100, 250, 250, 500 over a baseline of 0 the
    values are 0, 51200, 128000, 128000, 256000. *)
Theorem C6_progress_monotone_in_window :
  (forall (w : iso_writer) (iso dev : string) (sz : Z) (pcb ccb : bool)
          (m0 : machine) (sch : list sched) (lo : Z),
      iso_writer_start w iso dev (Some sz) pcb ccb = Some m0 ->
      nondecreasing (thread_readings dev sch) ->
      Forall (in_window lo) (thread_readings dev sch) ->
      nondecreasing (reported (m_trace (run sch m0)))
      /\ Forall (fun v => v <= sz) (reported (m_trace (run sch m0))))
  /\ (forall (iso dev : string) (sz : Z) (sysfs0 : string -> option string)
             (fork : Z) (pcb : bool) (ticks : list tick) (lo : Z),
         nondecreasing (get_device_sectors_written sysfs0 dev
                        :: tick_readings dev ticks) ->
         Forall (in_window lo) (get_device_sectors_written sysfs0 dev
                                :: tick_readings dev ticks) ->
         nondecreasing
           (reported (snd (iso_write_sync iso dev (Some sz) sysfs0 fork pcb ticks)))
         /\ Forall (fun v => v <= sz)
              (reported (snd (iso_write_sync iso dev (Some sz) sysfs0 fork pcb ticks))))
  /\ option_map (fun m => reported (m_trace m))
       (from_start writer_1GiB (polling_schedule 0 [0; 100; 250; 250; 500]))
     = Some [0; 51200; 128000; 128000; 256000].
Proof.
  split; [|split].
  - intros w iso dev sz pcb ccb m0 sch lo Hstart Hs Hw.
    pose proof (writer_inv_run dev sz lo sch m0 Hs Hw
                  (writer_inv_start _ _ _ _ _ _ _ _ _ Hstart)) as H.
    destruct H as (_ & _ & H1 & H2 & _). split; assumption.
  - intros iso dev sz sysfs0 fork pcb ticks lo Hs Hw.
    unfold iso_write_sync.
    destruct (fork =? -1); [cbn; split; constructor|].
    pose proof (Forall_inv Hw) as Hb. unfold in_window in Hb.
    pose proof (sync_loop_sorted dev sz lo
                  (get_device_sectors_written sysfs0 dev) pcb ticks
                  (get_device_sectors_written sysfs0 dev)
                  ltac:(lia) ltac:(lia) Hs (Forall_inv_tail Hw)) as H.
    cbv zeta in H.
    destruct (iso_write_sync_loop dev sz
                (get_device_sectors_written sysfs0 dev) pcb ticks) as [res evs].
    cbn [snd reported] in H |- *. destruct H as [H1 H2]. split; [exact H1|].
    eapply Forall_impl; [|exact H2]. cbn. intros; lia.
  - vm_compute. reflexivity.
Qed.

(** C6, the statement without the bound: baseline 0, then the counter at
    2^55 - 1 and at 2^55 sectors. The second byte count is 2^64, which is 0
    in 64 bits, so the reported values go from the size of the image down
    to 0. *)
Lemma C6_wraparound_reports_decrease :
  thread_readings "/dev/sdb" (polling_schedule 0 [2 ^ 55 - 1; 2 ^ 55])
  = [0; 0; 0; 2 ^ 55 - 1; 2 ^ 55 - 1; 2 ^ 55; 2 ^ 55]
  /\ nondecreasing
       (thread_readings "/dev/sdb" (polling_schedule 0 [2 ^ 55 - 1; 2 ^ 55]))
  /\ option_map (fun m => reported (m_trace m))
       (from_start writer_1GiB (polling_schedule 0 [2 ^ 55 - 1; 2 ^ 55]))
     = Some [1073741824; 0]
  /\ (nondecreasing [1073741824; 0] -> False).
Proof.
  assert (E : thread_readings "/dev/sdb" (polling_schedule 0 [2 ^ 55 - 1; 2 ^ 55])
              = [0; 0; 0; 2 ^ 55 - 1; 2 ^ 55 - 1; 2 ^ 55; 2 ^ 55])
    by (vm_compute; reflexivity).
  split; [exact E|]. split; [|split].
  - rewrite E. unfold nondecreasing. repeat constructor; lia.
  - vm_compute. reflexivity.
  - intros H. apply StronglySorted_inv in H as [_ H].
    apply Forall_inv in H. lia.
Qed.

(** The first part of C6 at the samples of the specification. *)
Lemma C6_witness_samples :
  nondecreasing
    (reported (m_trace (run (polling_schedule 0 [0; 100; 250; 250; 500])
      {| m_writer :=
           {| iso_path := Some "/tmp/image.iso"; device_path := Some "/dev/sdb";
              iso_size := 1024 * 1024 * 1024; progress_cb := true;
              complete_cb := true; state := WRITE_STATE_IDLE; dd_pid := -1;
              cancel_requested := false; thread_running := true |};
         m_pc := PC_start; m_pid := 0; m_baseline := 0; m_trace := [] |})))
  /\ Forall (fun v => v <= 1024 * 1024 * 1024)
       (reported (m_trace (run (polling_schedule 0 [0; 100; 250; 250; 500])
      {| m_writer :=
           {| iso_path := Some "/tmp/image.iso"; device_path := Some "/dev/sdb";
              iso_size := 1024 * 1024 * 1024; progress_cb := true;
              complete_cb := true; state := WRITE_STATE_IDLE; dd_pid := -1;
              cancel_requested := false; thread_running := true |};
         m_pc := PC_start; m_pid := 0; m_baseline := 0; m_trace := [] |}))).
Proof.
  apply (proj1 C6_progress_monotone_in_window iso_writer_new
           "/tmp/image.iso" "/dev/sdb" (1024 * 1024 * 1024) true true _
           (polling_schedule 0 [0; 100; 250; 250; 500]) 0).
  - reflexivity.
  - assert (E : thread_readings "/dev/sdb"
                  (polling_schedule 0 [0; 100; 250; 250; 500])
                = [0; 0; 0; 0; 0; 100; 100; 250; 250; 250; 250; 500; 500])
      by (vm_compute; reflexivity).
    rewrite E. unfold nondecreasing. repeat constructor; lia.
  - assert (E : thread_readings "/dev/sdb"
                  (polling_schedule 0 [0; 100; 250; 250; 500])
                = [0; 0; 0; 0; 0; 100; 100; 250; 250; 250; 250; 500; 500])
      by (vm_compute; reflexivity).
    rewrite E. unfold in_window. repeat constructor; lia.
Defined.

(* ------------------------------------------------------------------ *)
(** ** Cancellation of the raw image writer *)


Lemma clean_nil : clean [].
Proof. split; intros []. Qed.

Lemma clean_complete_call (w : iso_writer) (s : write_state_t) (msg : string) :
  clean (complete_call w s msg).
Proof.
  unfold complete_call. destruct (complete_cb w); [|apply clean_nil].
  split; intros [H|[]]; discriminate H.
Qed.








Lemma run_app (sch1 sch2 : list sched) (m : machine) :
  run (sch1 ++ sch2) m = run sch2 (run sch1 m).
Proof. unfold run. apply fold_left_app. Qed.




(* ------------------------------------------------------------------ *)
(** ** The safety predicate and the jobs of the window *)

Lemma device_enumerate_loop_safe (pm : option (list mntent))
      (devs : list udev_device) :
  forall acc,
    Forall (fun d => device_is_system_drive (Some d) = false) acc ->
    Forall (fun d => device_is_system_drive (Some d) = false)
           (device_enumerate_loop pm devs acc).
Proof.
  induction devs as [|dev rest IH]; intros acc Hacc; cbn [device_enumerate_loop];
    [exact Hacc|].
  destruct (MAX_DEVICES <=? List.length acc)%nat; [exact Hacc|].
  destruct (skipped_name (sysname dev)); [now apply IH|].
  destruct (negb (is_usb_bus (ID_BUS dev))); [now apply IH|].
  destruct (get_mountpoints (devnode dev) pm) as [mounts mount_count].
  destruct (has_forbidden_mount mounts) eqn:E; [now apply IH|].
  apply IH. apply Forall_app. split; [exact Hacc|].
  constructor; [exact E | constructor].
Qed.

Lemma device_unmount_loop_mounts (pm : option (list mntent))
      (e : Window.outside) (ms : list string) :
  Window.device_unmount_loop (with_mounts pm e) ms
  = Window.device_unmount_loop e ms.
Proof.
  induction ms as [|m ms IH]; [reflexivity|].
  cbn [Window.device_unmount_loop]. rewrite IH. reflexivity.
Qed.

Lemma prepare_mounts (pm : option (list mntent)) (e : Window.outside)
      (self : Window.RufusWindow) (dev : device_info_t) (wi ie : bool) :
  Window.prepare (with_mounts pm e) self dev wi ie
  = Window.prepare e self dev wi ie.
Proof.
  unfold Window.prepare, Window.device_unmount.
  destruct (mountpoints dev) as [ms|]; [|reflexivity].
  rewrite device_unmount_loop_mounts. reflexivity.
Qed.

Lemma on_start_clicked_mounts (pm : option (list mntent))
      (e : Window.outside) (self : Window.RufusWindow) :
  Window.on_start_clicked (with_mounts pm e) self
  = Window.on_start_clicked e self.
Proof.
  unfold Window.on_start_clicked.
  destruct (Window.devices self) as [devs|]; [|reflexivity].
  destruct ((Window.device_dropdown self =? Window.GTK_INVALID_LIST_POSITION)
            || (Z.of_nat (List.length devs) <=? Window.device_dropdown self));
    [reflexivity|].
  destruct (nth_error devs (Z.to_nat (Window.device_dropdown self))) as [dev|];
    [|reflexivity].
  cbv zeta.
  destruct ((Window.boot_dropdown self =? 0)
            && match Window.iso_path self with
               | Some _ => true
               | None => false
               end); [|apply prepare_mounts].
  destruct (Window.iso_info self) as [info|]; [|reflexivity].
  destruct (Device.size dev <? IsoAnalyzer.size info); [reflexivity|].
  destruct (Window.write_mode_dropdown self =? 1); [|apply prepare_mounts].
  change (Window.extract_checks (with_mounts pm e))
    with (Window.extract_checks e).
  destruct (Window.extract_checks e _ info); [reflexivity|apply prepare_mounts].
Qed.

(** C2. The safety predicate is evaluated when the devices are
    enumerated: no device of the list has a forbidden mount in the mount
    table read at that time. The job started from the window works on that
    list: its calls are the same whatever the mount table is when Start is
    clicked. *)
Theorem C2_checked_at_enumeration_only :
  (forall (pm : option (list mntent)) (udev : list udev_device)
          (d : device_info_t),
      In d (device_enumerate pm udev) ->
      device_is_system_drive (Some d) = false /\ isEligible d = true)
  /\ (forall (e : Window.outside) (self : Window.RufusWindow) (response : Z)
             (pm : option (list mntent)),
         Window.job_calls (with_mounts pm e) self response
         = Window.job_calls e self response).
Proof.
  split.
  - intros pm udev d Hin.
    pose proof (device_enumerate_loop_safe pm udev [] (Forall_nil _)) as H.
    rewrite Forall_forall in H. specialize (H d Hin).
    unfold isEligible. rewrite H. split; reflexivity.
  - intros e self response pm. unfold Window.job_calls.
    rewrite on_start_clicked_mounts. reflexivity.
Qed.

(** C2, the statement as a re-evaluation before the first destructive
    call: the stick is enumerated while unmounted, then its first
    partition is mounted on /home. At the click the fresh mount set makes
    the device forbidden (an enumeration now would leave it out), and the
    job still writes the image to it. *)
Lemma C2_late_forbidden_mount_is_written :
  let late := [root_mount; {| mnt_fsname := "/dev/sdb1"; mnt_dir := "/home" |}] in
  let self := window_with (device_enumerate (Some [root_mount]) [usb_stick])
                image_4GB 0 2 0 in
  has_forbidden_mount (fst (get_mountpoints "/dev/sdb" (Some late))) = true
  /\ device_enumerate (Some late) [usb_stick] = []
  /\ Window.job_calls (outside_with late) self 1
     = [Window.C_iso_write_sync "/tmp/image.iso" "/dev/sdb"]
  /\ Window.destructive (Window.C_iso_write_sync "/tmp/image.iso" "/dev/sdb")
     = true.
Proof. cbv zeta. repeat split; vm_compute; reflexivity. Qed.

Lemma refuse_refused (self : Window.RufusWindow) (text : string) :
  refused (Window.refuse self text).
Proof. repeat split. Qed.

Lemma refused_no_calls (e : Window.outside) (self : Window.RufusWindow) :
  refused (Window.on_start_clicked e self) ->
  forall response, Window.job_calls e self response = [].
Proof.
  intros (Hd & Hc & _) response. unfold Window.job_calls.
  now rewrite Hd, Hc.
Qed.

(** C5. With an image selected for writing whose size is larger than the
    size of the selected device, [on_start_clicked] returns with the error
    status "ISO is larger than the target device" (a size mismatch, the
    SafetyViolation of the specification) before it unmounts anything or
    builds an operation: the job makes no call at all, and the writer of
    the window is left as it was, in the state Idle it was created in. *)
Theorem C5_oversized_image_refused
        (e : Window.outside) (self : Window.RufusWindow)
        (devs : list device_info_t) (dev : device_info_t)
        (ipath : string) (info : IsoAnalyzer.iso_info_t) :
  Window.devices self = Some devs ->
  0 <= Window.device_dropdown self ->
  Window.device_dropdown self <> Window.GTK_INVALID_LIST_POSITION ->
  nth_error devs (Z.to_nat (Window.device_dropdown self)) = Some dev ->
  Window.boot_dropdown self = 0 ->
  Window.iso_path self = Some ipath ->
  Window.iso_info self = Some info ->
  Device.size dev < IsoAnalyzer.size info ->
  let r := Window.on_start_clicked e self in
  Window.r_calls r = []
  /\ Window.r_dialog r = None
  /\ Window.status_label (Window.r_window r)
     = ("ISO is larger than the target device", Some "status-error")
  /\ refusal_class (fst (Window.status_label (Window.r_window r)))
     = Some SafetyViolation
  /\ Window.iso_writer (Window.r_window r) = Window.iso_writer self
  /\ (state (Window.iso_writer self) = WRITE_STATE_IDLE ->
      state (Window.iso_writer (Window.r_window r)) = WRITE_STATE_IDLE)
  /\ (forall response, Window.job_calls e self response = []).
Proof.
  intros Hdevs Hpos Hvalid Hnth Hboot Hpath Hinfo Hsize.
  assert (Hlen : (Z.to_nat (Window.device_dropdown self) < List.length devs)%nat)
    by (apply nth_error_Some; congruence).
  assert (E : Window.on_start_clicked e self
              = Window.refuse
                  (if negb (IsoAnalyzer.is_bootable info)
                   then Window.set_status self "Warning: ISO may not be bootable"
                          (Some "status-error")
                   else self)
                  "ISO is larger than the target device").
  { unfold Window.on_start_clicked. rewrite Hdevs.
    replace (Window.device_dropdown self =? Window.GTK_INVALID_LIST_POSITION)
      with false by (symmetry; now apply Z.eqb_neq).
    replace (Z.of_nat (List.length devs) <=? Window.device_dropdown self)
      with false by (symmetry; apply Z.leb_gt; lia).
    cbn [orb]. rewrite Hnth. cbv zeta. rewrite Hboot, Hpath, Hinfo.
    cbn [Z.eqb andb].
    replace (Device.size dev <? IsoAnalyzer.size info) with true
      by (symmetry; now apply Z.ltb_lt).
    reflexivity. }
  cbv zeta.
  assert (Hw : Window.iso_writer (Window.r_window (Window.on_start_clicked e self))
               = Window.iso_writer self).
  { rewrite E. cbn. now destruct (negb (IsoAnalyzer.is_bootable info)). }
  split; [now rewrite E|]. split; [now rewrite E|]. split; [now rewrite E|].
  split; [now rewrite E|]. split; [exact Hw|]. split.
  - intros Hidle. now rewrite Hw.
  - apply refused_no_calls. rewrite E. apply refuse_refused.
Qed.

(** C8. With an image selected and the mode "ISO file copy" chosen, when
    the image has no analysis or no EFI boot files, or is a Windows image,
    or the filesystem is not FAT32, or the target is BIOS,
    [on_start_clicked] returns with an error status and builds no
    operation: the job makes no call, and no raw write takes the place of
    the extraction. *)
Theorem C8_extract_preconditions
        (e : Window.outside) (self : Window.RufusWindow) (ipath : string) :
  Window.boot_dropdown self = 0 ->
  Window.iso_path self = Some ipath ->
  Window.write_mode_dropdown self = 1 ->
  match Window.iso_info self with
  | None => True
  | Some info =>
      IsoAnalyzer.has_efi info = false
      \/ IsoAnalyzer.is_windows info = true
      \/ Window.fs_dropdown self <> 0
      \/ Window.target_dropdown self = 0
  end ->
  refused (Window.on_start_clicked e self)
  /\ (forall response, Window.job_calls e self response = []).
Proof.
  intros Hboot Hpath Hmode Hcond.
  assert (R : refused (Window.on_start_clicked e self)).
  { unfold Window.on_start_clicked.
    destruct (Window.devices self) as [devs|]; [|apply refuse_refused].
    destruct ((Window.device_dropdown self =? Window.GTK_INVALID_LIST_POSITION)
              || (Z.of_nat (List.length devs) <=? Window.device_dropdown self));
      [apply refuse_refused|].
    destruct (nth_error devs (Z.to_nat (Window.device_dropdown self))) as [dev|];
      [|apply refuse_refused].
    cbv zeta. rewrite Hboot, Hpath, Hmode. cbn [Z.eqb andb].
    destruct (Window.iso_info self) as [info|]; [|apply refuse_refused].
    destruct (Device.size dev <? IsoAnalyzer.size info); [apply refuse_refused|].
    cbn [Pos.eqb].
    set (self1 := if negb (IsoAnalyzer.is_bootable info)
                  then Window.set_status self "Warning: ISO may not be bootable"
                         (Some "status-error")
                  else self).
    assert (Ht : Window.target_dropdown self1 = Window.target_dropdown self)
      by (unfold self1; now destruct (negb (IsoAnalyzer.is_bootable info))).
    assert (Hf : Window.fs_dropdown self1 = Window.fs_dropdown self)
      by (unfold self1; now destruct (negb (IsoAnalyzer.is_bootable info))).
    unfold Window.extract_checks. rewrite Ht, Hf.
    destruct (negb (Window.iso_extract_is_supported e)); [apply refuse_refused|].
    destruct (IsoAnalyzer.is_windows info) eqn:Ew; [apply refuse_refused|].
    destruct (IsoAnalyzer.has_efi info) eqn:Ee; cbn [negb];
      [|apply refuse_refused].
    destruct (Window.target_dropdown self =? 0) eqn:Et; [apply refuse_refused|].
    destruct (Window.fs_dropdown self =? 0) eqn:Efs; cbn [negb];
      [|apply refuse_refused].
    exfalso. apply Z.eqb_neq in Et. apply Z.eqb_eq in Efs.
    destruct Hcond as [H|[H|[H|H]]]; congruence. }
  split; [exact R | now apply refused_no_calls].
Qed.

(* ------------------------------------------------------------------ *)
(** ** The theorems at concrete inputs *)

(** C1 at a device with a partition mounted under /home/. *)
Lemma C1_witness_home_mount :
  has_forbidden_mount
    (mountpoints (stick_with_mounts ["/media/usb"; "/home/user/stick"])) = true
  /\ device_is_system_drive
       (Some (stick_with_mounts ["/media/usb"; "/home/user/stick"])) = true
  /\ isEligible (stick_with_mounts ["/media/usb"; "/home/user/stick"]) = false.
Proof.
  apply (C1_forbidden_mount_ineligible
           (stick_with_mounts ["/media/usb"; "/home/user/stick"])
           ["/media/usb"; "/home/user/stick"] "/home/user/stick").
  - reflexivity.
  - right. left. reflexivity.
  - right. right. right. right. exists "user/stick". reflexivity.
Defined.


(** C5 at a 16 GB image for the 8 GB stick, which is mounted. *)
Lemma C5_witness_16GB_image :
  Window.job_calls (outside_with [root_mount])
    (window_with [stick_with_mounts ["/media/usb"]] image_16GB 0 2 0) 1 = []
  /\ Window.status_label
       (Window.r_window
          (Window.on_start_clicked (outside_with [root_mount])
             (window_with [stick_with_mounts ["/media/usb"]] image_16GB 0 2 0)))
     = ("ISO is larger than the target device", Some "status-error").
Proof.
  pose proof (C5_oversized_image_refused (outside_with [root_mount])
                (window_with [stick_with_mounts ["/media/usb"]] image_16GB 0 2 0)
                [stick_with_mounts ["/media/usb"]]
                (stick_with_mounts ["/media/usb"])
                "/tmp/image.iso" image_16GB
                eq_refl ltac:(cbn; lia) ltac:(cbn; discriminate)
                eq_refl eq_refl eq_refl eq_refl ltac:(cbn; lia)) as H.
  cbv zeta in H. destruct H as (_ & _ & Hs & _ & _ & _ & Hj).
  split; [exact (Hj 1) | exact Hs].
Defined.

(** C8 at an image without EFI boot files, with FAT32 and a UEFI target
    chosen. *)
Lemma C8_witness_no_efi :
  let info := {| IsoAnalyzer.path := Some "/tmp/image.iso";
                 IsoAnalyzer.label := Some "OLD";
                 IsoAnalyzer.size := 700 * 1000 * 1000;
                 IsoAnalyzer.boot_type := IsoAnalyzer.BOOT_TYPE_BIOS;
                 IsoAnalyzer.is_bootable := true; IsoAnalyzer.has_efi := false;
                 IsoAnalyzer.has_eltorito := true; IsoAnalyzer.is_hybrid := false;
                 IsoAnalyzer.is_windows := false; IsoAnalyzer.is_linux := true |} in
  let self := window_with [stick_with_mounts []] info 1 1 0 in
  refused (Window.on_start_clicked (outside_with [root_mount]) self)
  /\ (forall response,
         Window.job_calls (outside_with [root_mount]) self response = []).
Proof.
  cbv zeta.
  apply (C8_extract_preconditions (outside_with [root_mount])
           (window_with [stick_with_mounts []]
              {| IsoAnalyzer.path := Some "/tmp/image.iso";
                 IsoAnalyzer.label := Some "OLD";
                 IsoAnalyzer.size := 700 * 1000 * 1000;
                 IsoAnalyzer.boot_type := IsoAnalyzer.BOOT_TYPE_BIOS;
                 IsoAnalyzer.is_bootable := true; IsoAnalyzer.has_efi := false;
                 IsoAnalyzer.has_eltorito := true; IsoAnalyzer.is_hybrid := false;
                 IsoAnalyzer.is_windows := false; IsoAnalyzer.is_linux := true |}
              1 1 0)
           "/tmp/image.iso").
  - reflexivity.
  - reflexivity.
  - reflexivity.
  - cbn. left. reflexivity.
Defined.

(* ------------------------------------------------------------------ *)
(** ** The life of a writer *)

Lemma states_of_app (t1 t2 : list IsoWriter.event) :
  states_of (t1 ++ t2) = (states_of t1 ++ states_of t2)%list.
Proof.
  induction t1 as [|e t1 IH]; [reflexivity|].
  destruct e; simpl; rewrite IH; reflexivity.
Qed.

Lemma completions_app (t1 t2 : list IsoWriter.event) :
  completions (t1 ++ t2) = (completions t1 ++ completions t2)%list.
Proof.
  induction t1 as [|e t1 IH]; [reflexivity|].
  destruct e; simpl; rewrite IH; reflexivity.
Qed.

Lemma states_of_complete_call (w : iso_writer) (s : write_state_t) (msg : string) :
  states_of (complete_call w s msg) = [].
Proof. unfold complete_call. now destruct (complete_cb w). Qed.

Lemma completions_complete_call (w : iso_writer) (s : write_state_t) (msg : string) :
  completions (complete_call w s msg) = if complete_cb w then [(s, msg)] else [].
Proof. unfold complete_call. now destruct (complete_cb w). Qed.

Lemma sync_not_in_complete_call (w : iso_writer) (s : write_state_t) (msg : string) :
  ~ In Ev_sync (complete_call w s msg).
Proof. apply clean_complete_call. Qed.

Lemma not_in_app (t1 t2 : list IsoWriter.event) (e : IsoWriter.event) :
  ~ In e t1 -> ~ In e t2 -> ~ In e (t1 ++ t2).
Proof. intros H1 H2 H. apply in_app_or in H. tauto. Qed.

Lemma not_in_cons_event (e x : IsoWriter.event) (t : list IsoWriter.event) :
  e <> x -> ~ In e t -> ~ In e (x :: t).
Proof. intros H1 H2 [H|H]; [now apply H1 | now apply H2]. Qed.

Ltac no_sync :=
  repeat first
    [ assumption
    | apply sync_not_in_complete_call
    | apply in_nil
    | (apply not_in_cons_event; [discriminate|])
    | apply not_in_app ].

Lemma lifecycle_cancel (ccb : bool) (m : machine) :
  lifecycle ccb m -> lifecycle ccb (iso_writer_cancel m).
Proof.
  unfold lifecycle, iso_writer_cancel, upd. cbn.
  set (k := if 0 <? dd_pid (m_writer m)
            then [Ev_kill (dd_pid (m_writer m))] else []).
  assert (Hs : states_of k = []) by (unfold k; now destruct (0 <? _)).
  assert (Hc : completions k = []) by (unfold k; now destruct (0 <? _)).
  assert (Hn : ~ In Ev_sync k)
    by (unfold k; destruct (0 <? _); cbn; intuition discriminate).
  rewrite states_of_app, completions_app, Hs, Hc, !app_nil_r.
  intros [Hcb H]. split; [exact Hcb|].
  destruct (m_pc m);
    try (decompose [and] H; repeat split; auto using not_in_app;
         apply in_or_app; auto).
  (* the thread has returned: no process is left to signal *)
  destruct H as (Hr & Hp & Hf & Hco & Hl).
  assert (Ek : k = []) by (unfold k; rewrite Hp; reflexivity).
  rewrite Ek, app_nil_r. repeat split; auto.
Qed.

Lemma lifecycle_thread (ccb : bool) (o : obs) (m : machine) :
  lifecycle ccb m -> lifecycle ccb (thread_step o m).
Proof.
  unfold lifecycle, thread_step. intros [Hcb H].
  destruct (m_pc m) eqn:E.
  - (* entry *)
    destruct H as (Hr & Hs & Hc & Hn). cbn.
    rewrite states_of_app, completions_app, Hs, Hc. cbn.
    repeat split; auto. no_sync.
  - (* baseline, pipe, fork *)
    destruct H as (Hr & Hst & Hs & Hc & Hn).
    destruct (negb (o_pipe_ok o));
      [cbn; rewrite app_nil_r; repeat split; auto|].
    destruct (o_fork o =? -1);
      [cbn; rewrite app_nil_r; repeat split; auto|].
    cbn. rewrite states_of_app, completions_app, Hs, Hc. cbn.
    repeat split; auto. no_sync.
  - (* dd_pid *)
    destruct H as (Hr & Hst & Hs & Hc & Hn).
    cbn. rewrite app_nil_r. repeat split; auto.
  - (* check *)
    destruct H as (Hr & Hst & Hs & Hc & Hn).
    destruct (cancel_requested (m_writer m)); cbn;
      rewrite ?states_of_app, ?completions_app, ?Hs, ?Hc, ?app_nil_r; cbn;
      repeat split; auto. no_sync.
  - (* poll *)
    destruct H as (Hr & Hst & Hs & Hc & Hn).
    assert (Hsample :
      let m' := upd (m_writer m) PC_check
               ((if progress_cb (m_writer m)
                 then [Ev_progress
                         (poll_bytes (m_baseline m)
                            (get_device_sectors_written (o_sysfs o)
                               (str_of (device_path (m_writer m))))
                            (iso_size (m_writer m)))
                         (iso_size (m_writer m))]
                 else []) ++ [Ev_usleep (PROGRESS_POLL_MS * 1000)]) m in
      complete_cb (m_writer m') = ccb
      /\ thread_running (m_writer m') = true
      /\ state (m_writer m') = WRITE_STATE_WRITING
      /\ states_of (m_trace m') = [WRITE_STATE_WRITING]
      /\ completions (m_trace m') = []
      /\ ~ In Ev_sync (m_trace m')).
    { cbn. rewrite states_of_app, completions_app, Hs, Hc.
      destruct (progress_cb (m_writer m)); cbn; repeat split; auto; no_sync. }
    destruct (o_wait o) as [|wstatus|[|]]; try exact Hsample.
    + destruct (exited_zero wstatus); cbn; rewrite app_nil_r;
        repeat split; auto.
    + cbn; rewrite app_nil_r; repeat split; auto.
  - (* cancelled: the rest of the lemma follows the labels of the source *)
    destruct H as (Hr & Hst & Hs & Hc & Hn). cbn. unfold finished.
    rewrite states_of_app, completions_app, Hs, Hc. cbn.
    rewrite states_of_complete_call, completions_complete_call, Hcb.
    split; [first [exact Hcb | reflexivity]|]. split; [reflexivity|].
    split; [reflexivity|].
    split; [|split; [reflexivity|]].
    + right. right. repeat split; auto. no_sync.
    + intros ->. unfold complete_call. rewrite Hcb.
      exists (m_trace m ++ [Ev_waitpid (m_pid m);
                            Ev_state WRITE_STATE_CANCELLED])%list.
      rewrite <- app_assoc. reflexivity.
  - (* success *)
    destruct H as (Hr & Hst & Hs & Hc & Hn). cbn.
    rewrite states_of_app, completions_app, Hs, Hc. cbn.
    repeat split; auto. no_sync.
  - (* sync *)
    destruct H as (Hr & Hst & Hp & Hs & Hc & Hn). cbn.
    rewrite states_of_app, completions_app, Hs, Hc. cbn.
    repeat split; auto. apply in_or_app. right. left. reflexivity.
  - (* the last callbacks *)
    destruct H as (Hr & Hst & Hp & Hs & Hc & Hn). cbn. unfold finished.
    rewrite states_of_app, completions_app, Hs, Hc, Hst. cbn.
    rewrite !states_of_app, !completions_app, states_of_complete_call,
      completions_complete_call, Hcb.
    replace (states_of (if progress_cb (m_writer m)
                        then [Ev_progress (iso_size (m_writer m))
                                (iso_size (m_writer m))] else []))
      with (@nil write_state_t) by (now destruct (progress_cb (m_writer m))).
    replace (completions (if progress_cb (m_writer m)
                          then [Ev_progress (iso_size (m_writer m))
                                  (iso_size (m_writer m))] else []))
      with (@nil (write_state_t * string))
      by (now destruct (progress_cb (m_writer m))).
    cbn. split; [first [exact Hcb | reflexivity]|]. split; [reflexivity|].
    split; [exact Hp|].
    split; [|split; [reflexivity|]].
    + left. repeat split; auto. apply in_or_app. left. exact Hn.
    + intros ->. unfold complete_call. rewrite Hcb.
      exists (m_trace m ++ (if progress_cb (m_writer m)
                            then [Ev_progress (iso_size (m_writer m))
                                    (iso_size (m_writer m))] else []))%list.
      rewrite <- app_assoc. reflexivity.
  - (* error *)
    destruct H as (Hr & Hst & Hs & Hc & Hn). cbn. unfold finished.
    rewrite states_of_app, completions_app, Hs, Hc. cbn.
    rewrite states_of_complete_call, completions_complete_call, Hcb.
    split; [first [exact Hcb | reflexivity]|]. split; [reflexivity|].
    split; [reflexivity|].
    split; [|split; [reflexivity|]].
    + right. left. repeat split; auto. no_sync.
    + intros ->. unfold complete_call. rewrite Hcb.
      exists (m_trace m ++ [Ev_state WRITE_STATE_ERROR])%list.
      rewrite <- app_assoc. reflexivity.
  - (* returned *)
    rewrite E. split; [exact Hcb | exact H].
Qed.

Lemma lifecycle_run (ccb : bool) (sch : list sched) :
  forall m, lifecycle ccb m -> lifecycle ccb (run sch m).
Proof.
  induction sch as [|s sch IH]; intros m H; [exact H|].
  change (run (s :: sch) m) with (run sch (step m s)). apply IH.
  destruct s; [now apply lifecycle_thread | now apply lifecycle_cancel].
Qed.

Lemma lifecycle_start (w : iso_writer) (iso dev : string) (sz : Z)
      (pcb ccb : bool) (m0 : machine) :
  iso_writer_start w iso dev (Some sz) pcb ccb = Some m0 -> lifecycle ccb m0.
Proof.
  unfold iso_writer_start. destruct (thread_running w); [discriminate|].
  intros [= <-]. unfold lifecycle. cbn. repeat split; auto.
Qed.

(** X1. The states of a writer only move forward: whatever the schedule
    of thread stretches and cancel requests, the states set since
    [iso_writer_start] are a beginning of Writing, Syncing, Complete, or
    Writing then Error, or Writing then Cancelled. *)
Theorem writer_states_move_forward
        (w : iso_writer) (iso dev : string) (sz : Z) (pcb ccb : bool)
        (m0 : machine) (sch : list sched) :
  iso_writer_start w iso dev (Some sz) pcb ccb = Some m0 ->
  In (states_of (m_trace (run sch m0)))
     [ [];
       [WRITE_STATE_WRITING];
       [WRITE_STATE_WRITING; WRITE_STATE_SYNCING];
       [WRITE_STATE_WRITING; WRITE_STATE_SYNCING; WRITE_STATE_COMPLETE];
       [WRITE_STATE_WRITING; WRITE_STATE_ERROR];
       [WRITE_STATE_WRITING; WRITE_STATE_CANCELLED] ].
Proof.
  intros Hstart.
  pose proof (lifecycle_run ccb sch m0 (lifecycle_start _ _ _ _ _ _ _ Hstart))
    as [_ H].
  cbv zeta in H. cbn [In].
  destruct (m_pc (run sch m0)).
  - destruct H as (_ & H & _). rewrite H. auto.
  - destruct H as (_ & _ & H & _). rewrite H. auto.
  - destruct H as (_ & _ & H & _). rewrite H. auto.
  - destruct H as (_ & _ & H & _). rewrite H. auto.
  - destruct H as (_ & _ & H & _). rewrite H. auto.
  - destruct H as (_ & _ & H & _). rewrite H. auto.
  - destruct H as (_ & _ & H & _). rewrite H. auto.
  - destruct H as (_ & _ & _ & H & _). rewrite H. auto.
  - destruct H as (_ & _ & _ & H & _). rewrite H. auto.
  - destruct H as (_ & _ & H & _). rewrite H. auto.
  - destruct H as (_ & _ & [(H & _)|[(H & _)|(H & _)]] & _); rewrite H; auto 7.
Qed.

Lemma writer_states_move_forward_witness :
  In (states_of (m_trace (run (full_run 256) machine_1GiB)))
     [ [];
       [WRITE_STATE_WRITING];
       [WRITE_STATE_WRITING; WRITE_STATE_SYNCING];
       [WRITE_STATE_WRITING; WRITE_STATE_SYNCING; WRITE_STATE_COMPLETE];
       [WRITE_STATE_WRITING; WRITE_STATE_ERROR];
       [WRITE_STATE_WRITING; WRITE_STATE_CANCELLED] ].
Proof.
  exact (writer_states_move_forward iso_writer_new "/tmp/image.iso" "/dev/sdb"
           (1024 * 1024 * 1024) true true machine_1GiB (full_run 256) eq_refl).
Defined.

(** X2. When the writer thread has returned, the writer is in one of the
    states Complete, Error, Cancelled, it is no longer marked running and
    holds no process id; the device was flushed exactly when the state is
    Complete; and the completion callback, when one was given, was called
    once, as the last event, with that state. *)
Theorem writer_thread_end_state
        (w : iso_writer) (iso dev : string) (sz : Z) (pcb ccb : bool)
        (m0 : machine) (sch : list sched) :
  iso_writer_start w iso dev (Some sz) pcb ccb = Some m0 ->
  m_pc (run sch m0) = PC_done ->
  let m := run sch m0 in
  let s := state (m_writer m) in
  In s [WRITE_STATE_COMPLETE; WRITE_STATE_ERROR; WRITE_STATE_CANCELLED]
  /\ thread_running (m_writer m) = false
  /\ dd_pid (m_writer m) = -1
  /\ (In Ev_sync (m_trace m) <-> s = WRITE_STATE_COMPLETE)
  /\ completions (m_trace m)
     = (if ccb then [(s, terminal_message s)] else [])
  /\ (ccb = true ->
      exists t0, m_trace m = (t0 ++ [Ev_complete s (terminal_message s)])%list).
Proof.
  intros Hstart Hpc. cbv zeta.
  pose proof (lifecycle_run ccb sch m0 (lifecycle_start _ _ _ _ _ _ _ Hstart))
    as [_ H].
  cbv zeta in H. rewrite Hpc in H. destruct H as (Hr & Hp & Hf & Hc & Hl).
  split; [|split; [exact Hr|split; [exact Hp|split; [|split; [exact Hc|exact Hl]]]]].
  - cbn [In]. destruct Hf as [(_ & H & _)|[(_ & H & _)|(_ & H & _)]]; auto.
  - destruct Hf as [(_ & H & Hs)|[(_ & H & Hs)|(_ & H & Hs)]]; rewrite H.
    + tauto.
    + split; [tauto | discriminate].
    + split; [tauto | discriminate].
Qed.

Lemma writer_thread_end_state_witness :
  state (m_writer (run (full_run 256) machine_1GiB)) = WRITE_STATE_ERROR
  /\ completions (m_trace (run (full_run 256) machine_1GiB))
     = [(WRITE_STATE_ERROR, "Write failed")]
  /\ (In Ev_sync (m_trace (run (full_run 256) machine_1GiB))
      <-> state (m_writer (run (full_run 256) machine_1GiB))
          = WRITE_STATE_COMPLETE).
Proof.
  pose proof (writer_thread_end_state iso_writer_new "/tmp/image.iso" "/dev/sdb"
                (1024 * 1024 * 1024) true true machine_1GiB (full_run 256)
                eq_refl eq_refl) as H.
  cbv zeta in H. destruct H as (_ & _ & _ & Hs & Hc & _).
  split; [reflexivity|]. split; [exact Hc | exact Hs].
Defined.

(** X3. One job at a time: as long as the writer thread has not
    returned, [iso_writer_start] on the same writer is refused, whatever
    its arguments. *)
Theorem iso_writer_start_refused_while_running
        (w : iso_writer) (iso dev : string) (sz : Z) (pcb ccb : bool)
        (m0 : machine) (sch : list sched)
        (iso' dev' : string) (stat_size : option Z) (pcb' ccb' : bool) :
  iso_writer_start w iso dev (Some sz) pcb ccb = Some m0 ->
  m_pc (run sch m0) <> PC_done ->
  iso_writer_start (m_writer (run sch m0)) iso' dev' stat_size pcb' ccb' = None.
Proof.
  intros Hstart Hpc.
  pose proof (lifecycle_run ccb sch m0 (lifecycle_start _ _ _ _ _ _ _ Hstart))
    as [_ H].
  cbv zeta in H. unfold iso_writer_start.
  destruct (m_pc (run sch m0)); try (destruct H as (-> & _); reflexivity).
  now contradiction Hpc.
Qed.

Lemma iso_writer_start_refused_while_running_witness :
  iso_writer_start
    (m_writer (run (polling_schedule 0 [100; 200; 300]) machine_1GiB))
    "/tmp/other.iso" "/dev/sdc" (Some 4096) false false = None.
Proof.
  apply (iso_writer_start_refused_while_running iso_writer_new
           "/tmp/image.iso" "/dev/sdb" (1024 * 1024 * 1024) true true
           machine_1GiB (polling_schedule 0 [100; 200; 300])
           "/tmp/other.iso" "/dev/sdc" (Some 4096) false false eq_refl).
  vm_compute. discriminate.
Defined.

Lemma run_after_return (sch : list sched) :
  forall m,
    m_pc m = PC_done -> dd_pid (m_writer m) = -1 ->
    m_pc (run sch m) = PC_done
    /\ m_trace (run sch m) = m_trace m
    /\ state (m_writer (run sch m)) = state (m_writer m)
    /\ dd_pid (m_writer (run sch m)) = -1.
Proof.
  induction sch as [|s sch IH]; intros m Hpc Hp; [auto|].
  change (run (s :: sch) m) with (run sch (step m s)).
  destruct s as [o|]; cbn [step].
  - unfold thread_step. rewrite Hpc. now apply IH.
  - assert (Hc : m_pc (iso_writer_cancel m) = PC_done
                 /\ m_trace (iso_writer_cancel m) = m_trace m
                 /\ state (m_writer (iso_writer_cancel m)) = state (m_writer m)
                 /\ dd_pid (m_writer (iso_writer_cancel m)) = -1).
    { unfold iso_writer_cancel, upd. cbn. rewrite Hp. cbn.
      rewrite app_nil_r. auto. }
    destruct Hc as (C1 & C2 & C3 & C4).
    destruct (IH _ C1 C4) as (I1 & I2 & I3 & I4).
    rewrite I2, I3, C2, C3. auto.
Qed.

(** X4. Once the writer thread has returned, nothing that is scheduled
    afterwards adds an event or changes the state: a late
    [iso_writer_cancel] sends no signal (the process id was reset to -1)
    and leaves the final state as it is. *)
Theorem cancel_after_return_is_silent
        (w : iso_writer) (iso dev : string) (sz : Z) (pcb ccb : bool)
        (m0 : machine) (sch later : list sched) :
  iso_writer_start w iso dev (Some sz) pcb ccb = Some m0 ->
  m_pc (run sch m0) = PC_done ->
  m_trace (run (sch ++ later) m0) = m_trace (run sch m0)
  /\ state (m_writer (run (sch ++ later) m0)) = state (m_writer (run sch m0)).
Proof.
  intros Hstart Hpc.
  pose proof (lifecycle_run ccb sch m0 (lifecycle_start _ _ _ _ _ _ _ Hstart))
    as [_ H].
  cbv zeta in H. rewrite Hpc in H. destruct H as (_ & Hp & _).
  rewrite run_app.
  destruct (run_after_return later _ Hpc Hp) as (_ & H1 & H2 & _). auto.
Qed.

Lemma cancel_after_return_is_silent_witness :
  m_trace (run (full_run 0 ++ [Cancel; Cancel]) machine_1GiB)
  = m_trace (run (full_run 0) machine_1GiB)
  /\ state (m_writer (run (full_run 0 ++ [Cancel; Cancel]) machine_1GiB))
     = state (m_writer (run (full_run 0) machine_1GiB)).
Proof.
  exact (cancel_after_return_is_silent iso_writer_new "/tmp/image.iso"
           "/dev/sdb" (1024 * 1024 * 1024) true true machine_1GiB
           (full_run 0) [Cancel; Cancel] eq_refl eq_refl).
Defined.

(* ------------------------------------------------------------------ *)
(** ** Reading the sector counter *)

Lemma isdigit_range (c : ascii) : isdigit c = true -> 0 <= code c - 48 <= 9.
Proof.
  unfold isdigit. rewrite andb_true_iff, !Z.leb_le. lia.
Qed.

Lemma scan_digits_nonneg (s : string) :
  forall acc n, 0 <= acc -> 0 <= fst (fst (scan_digits s acc n)).
Proof.
  induction s as [|c t IH]; intros acc n H; cbn [scan_digits]; [exact H|].
  destruct (isdigit c) eqn:E; [|exact H].
  apply IH. apply isdigit_range in E. lia.
Qed.

Lemma scan_lu_range (s rest : string) (v : Z) :
  scan_lu s = Some (v, rest) -> 0 <= v <= ULONG_MAX.
Proof.
  unfold scan_lu.
  set (s1 := skip_ws s).
  destruct (match s1 with
            | String "-"%char t => (true, t)
            | String "+"%char t => (false, t)
            | _ => (false, s1)
            end) as [neg s2].
  pose proof (scan_digits_nonneg s2 0 0 ltac:(lia)) as Hn.
  destruct (scan_digits s2 0 0) as [[d n] r]. cbn [fst] in Hn.
  destruct n; [discriminate|]. intros [= <- _].
  unfold ULONG_MAX, wrap64 in *.
  destruct (Z.ltb_spec (2 ^ 64 - 1) d); [lia|].
  destruct neg; [|lia].
  pose proof (Z.mod_pos_bound (- d) (2 ^ 64) ltac:(lia)). lia.
Qed.

Lemma scan_fields_range (k : nat) :
  forall s, Forall (fun v => 0 <= v <= ULONG_MAX) (scan_fields k s).
Proof.
  induction k as [|k IH]; intros s; cbn [scan_fields]; [constructor|].
  destruct (scan_lu s) as [[v rest]|] eqn:E; [|constructor].
  constructor; [eapply scan_lu_range; eauto | apply IH].
Qed.

(** X5. Whatever the device path and the content of sysfs,
    [get_device_sectors_written] answers a value of an unsigned 64-bit
    counter: between 0 and 2^64 - 1. *)
Theorem get_device_sectors_written_range
        (sysfs : string -> option string) (device_path : string) :
  0 <= get_device_sectors_written sysfs device_path <= ULONG_MAX.
Proof.
  unfold get_device_sectors_written.
  destruct (strrchr device_path "/"%char) as [r|]; [|unfold ULONG_MAX; lia].
  destruct (sysfs _) as [content|]; [|unfold ULONG_MAX; lia].
  cbv zeta.
  destruct (7 <=? fscanf_ret content (scan_fields 8 content));
    [|unfold ULONG_MAX; lia].
  pose proof (scan_fields_range 8 content) as H.
  rewrite Forall_forall in H.
  destruct (nth_in_or_default 6 (scan_fields 8 content) 0) as [Hin|Hd].
  - now apply H.
  - rewrite Hd. unfold ULONG_MAX. lia.
Qed.

Lemma str_app_assoc (a b c : string) : (a ++ b) ++ c = a ++ b ++ c.
Proof. induction a as [|x a IH]; cbn; [reflexivity | now rewrite IH]. Qed.

Lemma length_str_app (a b : string) :
  String.length (a ++ b) = (String.length a + String.length b)%nat.
Proof. induction a as [|c a IH]; cbn; [reflexivity | now rewrite IH]. Qed.

Lemma str_app_nil_r (a : string) : a ++ "" = a.
Proof. induction a as [|x a IH]; cbn; [reflexivity | now rewrite IH]. Qed.

Lemma skip_ws_spaces (ws rest : string) :
  str_all isspace ws = true -> skip_ws (ws ++ rest) = skip_ws rest.
Proof.
  induction ws as [|c t IH]; intros H; [reflexivity|].
  cbn [str_all] in H. apply andb_true_iff in H as [Hc Ht].
  cbn [append skip_ws]. rewrite Hc. now apply IH.
Qed.

Lemma digit_not_space (c : ascii) : isdigit c = true -> isspace c = false.
Proof.
  unfold isdigit, isspace. rewrite andb_true_iff, !Z.leb_le. intros [H1 H2].
  apply orb_false_iff. split.
  - apply Z.eqb_neq. lia.
  - apply andb_false_iff. right. apply Z.leb_gt. lia.
Qed.

Lemma space_not_digit (c : ascii) : isspace c = true -> isdigit c = false.
Proof.
  intros H. destruct (isdigit c) eqn:E; [|reflexivity].
  apply digit_not_space in E. congruence.
Qed.

Lemma scan_digits_field (ds : string) :
  forall rest acc n,
    str_all isdigit ds = true -> stops_number rest ->
    scan_digits (ds ++ rest) acc n
    = (dec_acc ds acc, (n + String.length ds)%nat, rest).
Proof.
  induction ds as [|c t IH]; intros rest acc n Hd Hr.
  - cbn [append dec_acc String.length]. rewrite Nat.add_0_r.
    destruct rest as [|c r]; [reflexivity|].
    cbn [scan_digits]. cbn in Hr. now rewrite Hr.
  - cbn [str_all] in Hd. apply andb_true_iff in Hd as [Hc Ht].
    cbn [append scan_digits dec_acc String.length]. rewrite Hc.
    rewrite (IH rest _ _ Ht Hr). f_equal. f_equal. lia.
Qed.

Lemma scan_lu_field (ws ds rest : string) :
  str_all isspace ws = true -> str_all isdigit ds = true -> ds <> "" ->
  dec_value ds <= ULONG_MAX -> stops_number rest ->
  scan_lu (ws ++ ds ++ rest) = Some (dec_value ds, rest).
Proof.
  intros Hws Hds Hne Hmax Hr. unfold scan_lu.
  rewrite (skip_ws_spaces ws _ Hws).
  destruct ds as [|c t]; [congruence|].
  cbn [str_all] in Hds. pose proof Hds as Hds'.
  apply andb_true_iff in Hds as [Hc Ht].
  assert (Hsk : skip_ws (String c t ++ rest) = String c t ++ rest).
  { cbn [append skip_ws]. now rewrite (digit_not_space c Hc). }
  rewrite Hsk.
  assert (Hsign : match (String c t ++ rest) with
                  | String "-"%char t0 => (true, t0)
                  | String "+"%char t0 => (false, t0)
                  | _ => (false, String c t ++ rest)
                  end = (false, String c t ++ rest)).
  { cbn [append].
    destruct (Ascii.eqb_spec c "-"%char) as [->|Hm];
      [vm_compute in Hc; discriminate|].
    destruct (Ascii.eqb_spec c "+"%char) as [->|Hp];
      [vm_compute in Hc; discriminate|].
    destruct c as [[] [] [] [] [] [] [] []]; try reflexivity;
      first [now contradiction Hm | now contradiction Hp]. }
  rewrite Hsign.
  rewrite (scan_digits_field (String c t) rest 0 0 Hds' Hr).
  cbn [String.length Nat.add]. fold (dec_value (String c t)).
  replace (ULONG_MAX <? dec_value (String c t)) with false
    by (symmetry; apply Z.ltb_ge; exact Hmax).
  reflexivity.
Qed.

Lemma stat_text_stops (fields : list (string * string)) (tail : string) :
  separated fields -> Forall stat_field fields ->
  str_all isspace tail = true ->
  stops_number (stat_text fields ++ tail).
Proof.
  intros Hsep Hf Ht. destruct fields as [|f rest].
  - cbn. destruct tail as [|c t]; [exact I|]. cbn in Ht.
    apply andb_true_iff in Ht as [Hc _]. cbn. now apply space_not_digit.
  - destruct Hsep as [Hne _]. apply Forall_inv in Hf.
    destruct Hf as (Hws & _). destruct f as [ws ds]. cbn in *.
    destruct ws as [|c t]; [congruence|]. cbn in Hws |- *.
    apply andb_true_iff in Hws as [Hc _]. now apply space_not_digit.
Qed.

Lemma scan_fields_stat_text (k : nat) :
  forall (f : string * string) (fields : list (string * string)) (tail : string),
    stat_field f -> separated fields -> Forall stat_field fields ->
    str_all isspace tail = true ->
    scan_fields k (stat_text (f :: fields) ++ tail)
    = firstn k (map (fun x => dec_value (snd x)) (f :: fields)).
Proof.
  induction k as [|k IH]; intros f fields tail Hf Hsep Hall Ht;
    [reflexivity|].
  destruct Hf as (Hws & Hds & Hne & Hmax).
  cbn [stat_text scan_fields map firstn].
  rewrite !str_app_assoc.
  rewrite (scan_lu_field _ _ _ Hws Hds Hne Hmax
             (stat_text_stops fields tail Hsep Hall Ht)).
  f_equal. destruct fields as [|g rest].
  - cbn [stat_text map firstn append].
    destruct k; [reflexivity|]. cbn [scan_fields].
    assert (E : scan_lu tail = None).
    { unfold scan_lu.
      replace (skip_ws tail) with "".
      - reflexivity.
      - symmetry. rewrite <- (str_app_nil_r tail) at 1.
        now rewrite (skip_ws_spaces tail "" Ht). }
    rewrite E. destruct k; reflexivity.
  - destruct Hsep as [_ Hsep']. apply IH; auto.
    + now apply Forall_inv in Hall.
    + now apply Forall_inv_tail in Hall.
Qed.

(** X6. A stat file that holds at least seven unsigned decimal numbers
    (each below 2^64) set off by white space, and white space only after
    the last one, is read as its seventh number. *)
Theorem get_device_sectors_written_seventh_field
        (sysfs : string -> option string) (dev r : string)
        (fields : list (string * string)) (tail : string) :
  strrchr dev "/"%char = Some r ->
  sysfs (snprintf 256 ("/sys/block/" ++ next r ++ "/stat"))
  = Some (stat_text fields ++ tail) ->
  Forall stat_field fields ->
  separated (tl fields) ->
  (7 <= List.length fields)%nat ->
  str_all isspace tail = true ->
  get_device_sectors_written sysfs dev
  = dec_value (snd (nth 6 fields ("", ""))).
Proof.
  intros Hr Hs Hall Hsep Hlen Ht.
  unfold get_device_sectors_written. rewrite Hr, Hs. cbv zeta.
  destruct fields as [|f fs]; [cbn in Hlen; lia|].
  cbn [tl] in Hsep.
  rewrite (scan_fields_stat_text 8 f fs tail (Forall_inv Hall) Hsep
             (Forall_inv_tail Hall) Ht).
  set (vals := map (fun x => dec_value (snd x)) (f :: fs)).
  assert (Hl : List.length vals = List.length (f :: fs))
    by (unfold vals; apply length_map).
  assert (Hret : fscanf_ret (stat_text (f :: fs) ++ tail) (firstn 8 vals)
                 = Z.of_nat (List.length (firstn 8 vals))).
  { unfold fscanf_ret. destruct (firstn 8 vals) eqn:E; [|reflexivity].
    exfalso. unfold vals in E. cbn in E. discriminate E. }
  rewrite Hret, length_firstn.
  replace (7 <=? Z.of_nat (Nat.min 8 (List.length vals))) with true
    by (symmetry; apply Z.leb_le; lia).
  rewrite nth_firstn. cbn [Nat.ltb Nat.leb].
  unfold vals.
  change 0 with ((fun x : string * string => dec_value (snd x)) ("", "")).
  apply map_nth.
Qed.

Lemma get_device_sectors_written_seventh_field_witness :
  get_device_sectors_written
    (sysfs_with (stat_text stat_fields_example ++ String "010"%char ""))
    "/dev/sdb"
  = dec_value (snd (nth 6 stat_fields_example ("", ""))).
Proof.
  apply (get_device_sectors_written_seventh_field
           (sysfs_with (stat_text stat_fields_example ++ String "010"%char ""))
           "/dev/sdb" "/sdb" stat_fields_example (String "010"%char "")).
  - reflexivity.
  - reflexivity.
  - unfold stat_fields_example, stat_field.
    repeat constructor; cbn; try discriminate; vm_compute; discriminate.
  - cbn. repeat split; discriminate.
  - cbn. lia.
  - reflexivity.
Defined.

(* ------------------------------------------------------------------ *)
(** ** The blocking writer *)

Lemma iso_write_sync_loop_polls (dev : string) (sz b : Z) (progress : bool)
      (ticks : list tick) :
  never_reaped ticks ->
  fst (iso_write_sync_loop dev sz b progress ticks) = None
  /\ ~ In Ev_sync (snd (iso_write_sync_loop dev sz b progress ticks)).
Proof.
  induction ticks as [|t ticks IH]; intros H.
  - cbn. split; [reflexivity | intros []].
  - pose proof (Forall_inv H) as Ht. cbn beta in Ht.
    destruct (IH (Forall_inv_tail H)) as [IH1 IH2].
    cbn [iso_write_sync_loop].
    destruct (iso_write_sync_loop dev sz b progress ticks) as [res evs].
    cbn [fst snd] in *.
    destruct (t_wait t); try contradiction; cbn [fst snd];
      (split; [exact IH1|]);
      destruct progress; cbn; intros Hin;
      repeat (destruct Hin as [Hin|Hin]; [discriminate Hin|]); auto.
Qed.

Lemma iso_write_sync_loop_reaps
        (dev : string) (sz b : Z) (progress : bool)
        (before after : list tick) (t : tick) (wstatus : Z) :
  never_reaped before ->
  t_wait t = W_reaped wstatus ->
  fst (iso_write_sync_loop dev sz b progress before) = None
  /\ fst (iso_write_sync_loop dev sz b progress (before ++ t :: after))
     = Some (exited_zero wstatus)
  /\ exists evs,
       snd (iso_write_sync_loop dev sz b progress (before ++ t :: after))
       = (evs ++ Ev_sync :: (if progress then [Ev_progress sz sz] else []))%list
       /\ ~ In Ev_sync evs.
Proof.
  intros Hb Ht.
  split; [apply (iso_write_sync_loop_polls dev sz b progress before Hb)|].
  induction before as [|x before IH].
  - cbn [app iso_write_sync_loop]. rewrite Ht. cbn [fst snd].
    split; [reflexivity|]. exists []. split; [reflexivity | intros []].
  - pose proof (Forall_inv Hb) as Hx. cbn beta in Hx.
    destruct (IH (Forall_inv_tail Hb)) as (IH1 & evs & IH2 & IH3).
    cbn [app iso_write_sync_loop].
    destruct (iso_write_sync_loop dev sz b progress (before ++ t :: after))
      as [res tr].
    cbn [fst snd] in *. subst tr.
    destruct (t_wait x); try contradiction; cbn [fst snd];
      (split; [exact IH1|]);
      (exists ((if progress
                then [Ev_progress
                        (poll_bytes b
                           (get_device_sectors_written (t_sysfs x) dev) sz) sz]
                else []) ++ Ev_usleep (PROGRESS_POLL_MS * 1000) :: evs)%list);
      (split; [now rewrite <- app_assoc|]);
      destruct progress; cbn; intros Hin;
      repeat (destruct Hin as [Hin|Hin]; [discriminate Hin|]); auto.
Qed.

(** X7. Once the copy process is started, [iso_write_sync] returns only
    in the turn in which [waitpid] reaps it (errors of [waitpid] keep it
    polling). It then flushes and reports the whole size as written, also
    when the copy failed, and answers true exactly for an exit status of
    zero. *)
Theorem iso_write_sync_returns_on_reap
        (iso dev : string) (sz : Z) (sysfs0 : string -> option string)
        (fork : Z) (progress : bool)
        (before after : list tick) (t : tick) (wstatus : Z) :
  fork <> -1 ->
  never_reaped before ->
  t_wait t = W_reaped wstatus ->
  fst (iso_write_sync iso dev (Some sz) sysfs0 fork progress before) = None
  /\ fst (iso_write_sync iso dev (Some sz) sysfs0 fork progress
            (before ++ t :: after))
     = Some (exited_zero wstatus)
  /\ exists evs,
       snd (iso_write_sync iso dev (Some sz) sysfs0 fork progress
              (before ++ t :: after))
       = (evs ++ Ev_sync :: (if progress then [Ev_progress sz sz] else []))%list
       /\ ~ In Ev_sync evs.
Proof.
  intros Hf Hb Ht. unfold iso_write_sync.
  replace (fork =? -1) with false by (symmetry; now apply Z.eqb_neq).
  destruct (iso_write_sync_loop_reaps dev sz
              (get_device_sectors_written sysfs0 dev) progress
              before after t wstatus Hb Ht) as (H1 & H2 & evs & H3 & H4).
  destruct (iso_write_sync_loop dev sz
              (get_device_sectors_written sysfs0 dev) progress before)
    as [r0 e0].
  destruct (iso_write_sync_loop dev sz
              (get_device_sectors_written sysfs0 dev) progress
              (before ++ t :: after)) as [r1 e1].
  cbn [fst snd] in *. split; [exact H1|]. split; [exact H2|].
  eexists (_ :: evs). split.
  - rewrite H3. reflexivity.
  - intros [Hin|Hin]; [discriminate Hin | now apply H4].
Qed.

Lemma iso_write_sync_returns_on_reap_witness :
  let poll := {| t_wait := W_running; t_sysfs := sysfs_with (stat_file 100) |} in
  let fail := {| t_wait := W_failed false; t_sysfs := sysfs_with (stat_file 100) |} in
  let gone := {| t_wait := W_reaped 256; t_sysfs := sysfs_with (stat_file 100) |} in
  fst (iso_write_sync "/tmp/image.iso" "/dev/sdb" (Some 4096)
         (sysfs_with (stat_file 0)) 4242 true [poll; fail; gone; poll])
  = Some false.
Proof.
  cbv zeta.
  assert (Hb : never_reaped
                 [{| t_wait := W_running; t_sysfs := sysfs_with (stat_file 100) |};
                  {| t_wait := W_failed false;
                     t_sysfs := sysfs_with (stat_file 100) |}])
    by (repeat constructor).
  exact (proj1 (proj2
    (iso_write_sync_returns_on_reap "/tmp/image.iso" "/dev/sdb" 4096
       (sysfs_with (stat_file 0)) 4242 true _
       [{| t_wait := W_running; t_sysfs := sysfs_with (stat_file 100) |}]
       {| t_wait := W_reaped 256; t_sysfs := sysfs_with (stat_file 100) |}
       256 ltac:(discriminate) Hb eq_refl))).
Defined.

(* ------------------------------------------------------------------ *)
(** ** Adding partitions *)

Ltac failed_call :=
  cbn; intros ok w' [= <- <-]; cbn;
  repeat split; try reflexivity; intros; discriminate.

Lemma same_outside_refl (w : world) : same_outside w w.
Proof. repeat split. Qed.

Lemma same_outside_trans (w1 w2 w3 : world) :
  same_outside w1 w2 -> same_outside w2 w3 -> same_outside w1 w3.
Proof.
  unfold same_outside. intros (A1 & A2 & A3 & A4 & A5) (B1 & B2 & B3 & B4 & B5).
  repeat split; congruence.
Qed.

Lemma partition_create_table_spec (device : string) (style : partition_style_t)
      (w : world) :
  forall ok w',
    partition_create_table device style w = (ok, w') ->
    same_outside w w'
    /\ (ok = false -> w_disk w' = w_disk w /\ w_log w' = w_log w)
    /\ (ok = true ->
        w_disk w' = {| dk_sector_size := dk_sector_size (w_disk w);
                       dk_label := Some style; dk_parts := [] |}).
Proof.
  unfold partition_create_table, bind, ret, fdisk_ok, get_disk, put_disk, emit.
  cbn.
  destruct (w_fail w (w_calls w)); cbn; [failed_call|].
  destruct (w_fail w (S (w_calls w))); cbn; [failed_call|].
  destruct (w_fail w (S (S (w_calls w)))); cbn; [failed_call|].
  destruct (w_fail w (S (S (S (w_calls w))))); cbn; [failed_call|].
  destruct (w_fail w (S (S (S (S (w_calls w)))))); cbn; [failed_call|].
  intros ok w' [= <- <-]. cbn.
  repeat split; try reflexivity; intros; discriminate.
Qed.

Lemma add_with_type_spec
      (type_of : option partition_style_t -> option parttype)
      (device : string) (part : partition_entry_t) (n : Z) (w : world) :
  forall ok w',
    add_with_type type_of device part n w = (ok, w') ->
    same_outside w w'
    /\ (ok = false -> w_disk w' = w_disk w /\ w_log w' = w_log w)
    /\ (ok = true ->
        exists lbl,
          dk_label (w_disk w) = Some lbl
          /\ w_disk w'
             = {| dk_sector_size := dk_sector_size (w_disk w);
                  dk_label := Some lbl;
                  dk_parts :=
                    (dk_parts (w_disk w)
                     ++ [requested (type_of (Some lbl))
                           (bootable part && is_mbr lbl)
                           (dk_sector_size (w_disk w)) part n])%list |}).
Proof.
  unfold add_with_type, bind, ret, fdisk_ok, get_disk, put_disk, emit. cbn.
  destruct (w_fail w (w_calls w)); cbn; [failed_call|].
  destruct (w_fail w (S (w_calls w))); cbn; [failed_call|].
  destruct (w_fail w (S (S (w_calls w)))); cbn; [failed_call|].
  destruct (w_fail w (S (S (S (w_calls w))))); cbn; [failed_call|].
  destruct (dk_label (w_disk w)) as [lbl|] eqn:El; cbn; [|failed_call].
  destruct (w_fail w (S (S (S (S (w_calls w)))))); cbn; [failed_call|].
  intros ok w' [= <- <-]. cbn.
  split; [repeat split|]. split; [intros; discriminate|].
  intros _. exists lbl. split; [reflexivity|].
  unfold requested. destruct lbl; cbn; rewrite ?andb_true_r, ?andb_false_r;
    reflexivity.
Qed.

Lemma partition_add_spec (device : string) (part : partition_entry_t) (n : Z)
      (w : world) :
  forall ok w',
    partition_add device part n w = (ok, w') ->
    same_outside w w'
    /\ (ok = false -> w_disk w' = w_disk w /\ w_log w' = w_log w)
    /\ (ok = true ->
        exists lbl,
          dk_label (w_disk w) = Some lbl
          /\ w_disk w'
             = {| dk_sector_size := dk_sector_size (w_disk w);
                  dk_label := Some lbl;
                  dk_parts :=
                    (dk_parts (w_disk w)
                     ++ [requested (Some (data_type lbl (Partition.fs_type part)))
                           (bootable part && is_mbr lbl)
                           (dk_sector_size (w_disk w)) part n])%list |}).
Proof.
  intros ok w' H. unfold partition_add in H.
  apply add_with_type_spec in H as (H1 & H2 & H3).
  split; [exact H1|]. split; [exact H2|].
  intros Hok. destruct (H3 Hok) as (lbl & Hl & Hd).
  exists lbl. split; [exact Hl|]. rewrite Hd. now destruct lbl.
Qed.

Lemma partition_add_efi_spec (device : string) (part : partition_entry_t)
      (n : Z) (w : world) :
  forall ok w',
    partition_add_efi device part n w = (ok, w') ->
    same_outside w w'
    /\ (ok = false -> w_disk w' = w_disk w /\ w_log w' = w_log w)
    /\ (ok = true ->
        exists lbl,
          dk_label (w_disk w) = Some lbl
          /\ w_disk w'
             = {| dk_sector_size := dk_sector_size (w_disk w);
                  dk_label := Some lbl;
                  dk_parts :=
                    (dk_parts (w_disk w)
                     ++ [requested (Some (esp_type lbl))
                           (bootable part && is_mbr lbl)
                           (dk_sector_size (w_disk w)) part n])%list |}).
Proof.
  intros ok w' H. unfold partition_add_efi in H.
  apply add_with_type_spec in H as (H1 & H2 & H3).
  split; [exact H1|]. split; [exact H2|].
  intros Hok. destruct (H3 Hok) as (lbl & Hl & Hd).
  exists lbl. split; [exact Hl|]. rewrite Hd. now destruct lbl.
Qed.

Lemma data_type_not_efi (lbl : partition_style_t) (fs : fs_type_t) :
  ~ efi_type (Some (data_type lbl fs)).
Proof.
  unfold efi_type. destruct lbl, fs; cbn; intros [E|E]; discriminate E.
Qed.

(** X8. [partition_add] either fails and leaves the partition table as
    it was, or appends exactly one partition. Its number is
    [part_number - 1] read as a [size_t]: the number asked for, counted
    from 0, for a part number from 1 on, and a number near 2^64 for a part
    number of 0 or less. The new partition is active only on an MBR table
    and only when the entry asks for it, and its type is never an EFI
    System type, whatever the filesystem of the entry. *)
Theorem partition_add_appends_one
        (w : world) (device : string) (part : partition_entry_t) (n : Z) :
  let r := partition_add device part n w in
  (fst r = false -> w_disk (snd r) = w_disk w)
  /\ (fst r = true ->
      exists lbl p,
        dk_label (w_disk w) = Some lbl
        /\ dk_label (w_disk (snd r)) = Some lbl
        /\ dk_sector_size (w_disk (snd r)) = dk_sector_size (w_disk w)
        /\ dk_parts (w_disk (snd r)) = (dk_parts (w_disk w) ++ [p])%list
        /\ pa_partno p = (n - 1) mod 2 ^ 64
        /\ (1 <= n <= 2147483647 -> pa_partno p = n - 1)
        /\ (- 2147483648 < n <= 0 -> pa_partno p = 2 ^ 64 + (n - 1))
        /\ pa_active p = bootable part && is_mbr lbl
        /\ ~ efi_type (pa_type p)).
Proof.
  cbv zeta.
  destruct (partition_add device part n w) as [ok w'] eqn:E.
  apply partition_add_spec in E as (_ & H2 & H3). cbn [fst snd].
  split; [intros Hok; now apply H2|].
  intros Hok. destruct (H3 Hok) as (lbl & Hl & Hd).
  exists lbl. eexists. rewrite Hd. cbn [dk_label dk_sector_size dk_parts].
  split; [exact Hl|]. split; [reflexivity|]. split; [reflexivity|].
  split; [reflexivity|]. unfold requested.
  cbn [pa_partno pa_active pa_type]. split; [reflexivity|].
  split; [intros Hn; apply Z.mod_small; lia|].
  split; [|split; [reflexivity | apply data_type_not_efi]].
  intros Hn. symmetry.
  apply Z.mod_unique with (q := -1); lia.
Qed.

(** X9. [partition_add] hands start and size to libfdisk in whole
    sectors, rounded down: the size it asks for, in bytes, is at most the
    size of the entry and less than one sector short of it (so a size
    below one sector becomes a request for 0 sectors); a size of 0 asks
    for the rest of the disk and a start of 0 for the first free
    sector. *)
Theorem partition_add_rounds_down
        (w : world) (device : string) (part : partition_entry_t) (n : Z) :
  0 < dk_sector_size (w_disk w) ->
  fst (partition_add device part n w) = true ->
  let ss := dk_sector_size (w_disk w) in
  exists p,
    dk_parts (w_disk (snd (partition_add device part n w)))
    = (dk_parts (w_disk w) ++ [p])%list
    /\ match pa_size p with
       | Some q => 0 < Partition.size part
                   /\ q * ss <= Partition.size part < q * ss + ss
       | None => Partition.size part <= 0
       end
    /\ match pa_start p with
       | Some q => 0 < Partition.start part
                   /\ q * ss <= Partition.start part < q * ss + ss
       | None => Partition.start part <= 0
       end.
Proof.
  intros Hss Hok. cbv zeta.
  destruct (partition_add device part n w) as [ok w'] eqn:E.
  apply partition_add_spec in E as (_ & _ & H3). cbn [fst snd] in *.
  destruct (H3 Hok) as (lbl & Hl & Hd). eexists. rewrite Hd.
  cbn [dk_parts pa_size pa_start requested].
  split; [reflexivity|]. unfold requested. cbn [pa_size pa_start]. split.
  - destruct (Z.ltb_spec 0 (Partition.size part)); [|lia].
    split; [assumption|].
    pose proof (Z.mul_div_le (Partition.size part) _ Hss).
    pose proof (Z.mul_succ_div_gt (Partition.size part) _ Hss). lia.
  - destruct (Z.ltb_spec 0 (Partition.start part)); [|lia].
    split; [assumption|].
    pose proof (Z.mul_div_le (Partition.start part) _ Hss).
    pose proof (Z.mul_succ_div_gt (Partition.start part) _ Hss). lia.
Qed.

Lemma partition_add_rounds_down_witness :
  exists p,
    dk_parts (w_disk (snd (partition_add "/dev/sdb"
      {| Partition.start := 0; Partition.size := 1000;
         Partition.fs_type := FS_FAT32; bootable := true;
         Partition.label := None |} 1
      (snd (partition_create_table "/dev/sdb" PARTITION_STYLE_MBR
              (blank_world true))))))
    = ([] ++ [p])%list
    /\ match pa_size p with
       | Some q => 0 < 1000 /\ q * 512 <= 1000 < q * 512 + 512
       | None => 1000 <= 0
       end
    /\ match pa_start p with
       | Some q => 0 < 0 /\ q * 512 <= 0 < q * 512 + 512
       | None => 0 <= 0
       end.
Proof.
  exact (partition_add_rounds_down
           (snd (partition_create_table "/dev/sdb" PARTITION_STYLE_MBR
                   (blank_world true)))
           "/dev/sdb"
           {| Partition.start := 0; Partition.size := 1000;
              Partition.fs_type := FS_FAT32; bootable := true;
              Partition.label := None |} 1 eq_refl eq_refl).
Defined.

(** X10. Run as root for a UEFI target and GPT, with libfdisk calls that
    may fail anywhere: when [partition_create_bootable] answers true the
    disk holds a GPT with exactly the 256 MiB partition and the data
    partition; when it answers false nothing is rolled back, and the disk
    is left with its old table, with an empty GPT, or with a GPT that
    holds the 256 MiB partition only. *)
Theorem partition_create_bootable_outcomes
        (w : world) (device : string) (fs : fs_type_t)
        (lbl : option string) (target : target_type_t) :
  w_root w = true ->
  target <> TARGET_BIOS ->
  let r := partition_create_bootable device PARTITION_STYLE_GPT target fs lbl w in
  let ss := dk_sector_size (w_disk w) in
  let gpt parts := {| dk_sector_size := ss;
                      dk_label := Some PARTITION_STYLE_GPT;
                      dk_parts := parts |} in
  (fst r = true -> w_disk (snd r) = gpt [layout_esp ss; layout_data fs])
  /\ (fst r = false ->
      w_disk (snd r) = w_disk w \/ w_disk (snd r) = gpt []
      \/ w_disk (snd r) = gpt [layout_esp ss]).
Proof.
  intros Hroot Ht. cbv zeta.
  assert (E : partition_create_bootable device PARTITION_STYLE_GPT target fs lbl w
              = (ok1 <- partition_create_table device PARTITION_STYLE_GPT ;;
                 if negb ok1 then ret false else
                 usleep 500000 ;;;
                 (ok2 <- partition_add device
                           {| Partition.start := 0;
                              Partition.size := 256 * 1024 * 1024;
                              Partition.fs_type := FS_FAT32; bootable := false;
                              Partition.label := Some "EFI" |} 1 ;;
                  if negb ok2 then ret false else
                  usleep 200000 ;;;
                  partition_add device
                    {| Partition.start := 0; Partition.size := 0;
                       Partition.fs_type := fs; bootable := false;
                       Partition.label := lbl |} 2)) w).
  { unfold partition_create_bootable, bind at 1, is_root. rewrite Hroot.
    cbn [negb]. destruct target; [congruence| |]; reflexivity. }
  rewrite E. clear E.
  match goal with
  | |- (fst ?r = true -> _) /\ _ => destruct r as [ok w'] eqn:E0
  end.
  cbn [fst snd]. unfold bind at 1 in E0.
  destruct (partition_create_table device PARTITION_STYLE_GPT w)
    as [ok1 w1] eqn:E1.
  apply partition_create_table_spec in E1 as (S1 & F1 & T1).
  destruct ok1; cbn [negb] in E0.
  2:{ injection E0 as <- <-. split; [discriminate|]. intros _. left.
      now apply F1. }
  specialize (T1 eq_refl).
  unfold bind at 1, usleep at 1, emit at 1 in E0. unfold bind at 1 in E0.
  match type of E0 with
  | context [partition_add ?d ?p ?n ?x] =>
      destruct (partition_add d p n x) as [ok2 w2] eqn:E2
  end.
  apply partition_add_spec in E2 as (S2 & F2 & T2). cbn [w_disk] in *.
  destruct ok2; cbn [negb] in E0.
  2:{ injection E0 as <- <-. split; [discriminate|]. intros _. right. left.
      destruct (F2 eq_refl) as [F2' _]. now rewrite F2', T1. }
  destruct (T2 eq_refl) as (l2 & Hl2 & D2). rewrite T1 in Hl2, D2.
  cbn in Hl2, D2. injection Hl2 as <-.
  unfold bind at 1, usleep at 1, emit at 1 in E0.
  apply partition_add_spec in E0 as (S3 & F3 & T3). cbn [w_disk] in *.
  split.
  - intros ->. destruct (T3 eq_refl) as (l3 & Hl3 & D3).
    rewrite D2 in Hl3, D3. cbn in Hl3, D3. injection Hl3 as <-.
    rewrite D3. reflexivity.
  - intros ->. right. right. destruct (F3 eq_refl) as [F3' _].
    rewrite F3', D2. reflexivity.
Qed.

Lemma partition_create_bootable_outcomes_witness :
  w_disk (snd (partition_create_bootable "/dev/sdb" PARTITION_STYLE_GPT
                 TARGET_BIOS_UEFI FS_EXT4 (Some "DATA") (blank_world true)))
  = {| dk_sector_size := 512; dk_label := Some PARTITION_STYLE_GPT;
       dk_parts := [layout_esp 512; layout_data FS_EXT4] |}.
Proof.
  apply (partition_create_bootable_outcomes (blank_world true) "/dev/sdb"
           FS_EXT4 (Some "DATA") TARGET_BIOS_UEFI eq_refl).
  - discriminate.
  - reflexivity.
Defined.

Lemma single_layout_outcomes (add : string -> partition_entry_t -> Z -> M bool)
      (ty : partition_style_t -> parttype)
      (device : string) (style : partition_style_t)
      (part : partition_entry_t) (w : world) :
  (forall w0 ok w',
      add device part 1 w0 = (ok, w') ->
      (ok = false -> w_disk w' = w_disk w0)
      /\ (ok = true ->
          exists lbl,
            dk_label (w_disk w0) = Some lbl
            /\ w_disk w'
               = {| dk_sector_size := dk_sector_size (w_disk w0);
                    dk_label := Some lbl;
                    dk_parts :=
                      (dk_parts (w_disk w0)
                       ++ [requested (Some (ty lbl))
                             (bootable part && is_mbr lbl)
                             (dk_sector_size (w_disk w0)) part 1])%list |})) ->
  Partition.start part = 0 -> Partition.size part = 0 -> bootable part = true ->
  forall ok w',
    (ok1 <- partition_create_table device style ;;
     if negb ok1 then ret false else usleep 500000 ;;; add device part 1) w
    = (ok, w') ->
    (ok = true ->
     w_disk w' = table_of (dk_sector_size (w_disk w)) style
                   [layout_whole style (ty style)])
    /\ (ok = false ->
        w_disk w' = w_disk w
        \/ w_disk w' = table_of (dk_sector_size (w_disk w)) style []).
Proof.
  intros Hadd Hs Hz Hb ok w' E0. unfold bind at 1 in E0.
  destruct (partition_create_table device style w) as [ok1 w1] eqn:E1.
  apply partition_create_table_spec in E1 as (S1 & F1 & T1).
  destruct ok1; cbn [negb] in E0.
  2:{ injection E0 as <- <-. split; [discriminate|]. intros _. left.
      now apply F1. }
  specialize (T1 eq_refl).
  unfold bind at 1, usleep at 1, emit at 1 in E0.
  apply Hadd in E0 as (F2 & T2). cbn [w_disk] in *.
  split.
  - intros ->. destruct (T2 eq_refl) as (l2 & Hl2 & D2).
    rewrite T1 in Hl2, D2. cbn in Hl2, D2. injection Hl2 as <-.
    rewrite D2. unfold table_of, layout_whole, requested.
    rewrite Hs, Hz, Hb. reflexivity.
  - intros ->. right. rewrite (F2 eq_refl), T1. reflexivity.
Qed.

(** X11. Run as root, with libfdisk calls that may fail anywhere: when
    [partition_create_single] answers true the disk holds a table of the
    asked style with exactly one partition, over the whole disk, of the
    type of the filesystem, flagged active on MBR only; when it answers
    false the disk has its old table or an empty table of that style. *)
Theorem partition_create_single_outcomes
        (w : world) (device : string) (style : partition_style_t)
        (fs : fs_type_t) (lbl : option string) :
  w_root w = true ->
  let r := partition_create_single device style fs lbl w in
  let ss := dk_sector_size (w_disk w) in
  (fst r = true ->
   w_disk (snd r) = table_of ss style [layout_whole style (data_type style fs)])
  /\ (fst r = false ->
      w_disk (snd r) = w_disk w \/ w_disk (snd r) = table_of ss style []).
Proof.
  intros Hroot. cbv zeta.
  destruct (partition_create_single device style fs lbl w) as [ok w'] eqn:E0.
  unfold partition_create_single, bind at 1, is_root in E0.
  rewrite Hroot in E0. cbn [negb fst snd] in *.
  match type of E0 with
  | context [partition_add _ ?p 1] =>
      refine (single_layout_outcomes partition_add (fun l => data_type l fs)
                device style p w _ eq_refl eq_refl eq_refl ok w' E0)
  end.
  intros w0 ok0 w0' H. apply partition_add_spec in H as (_ & F & T).
  split; [intros Hf; now apply F | exact T].
Qed.

Lemma partition_create_single_outcomes_witness :
  w_disk (snd (partition_create_single "/dev/sdb" PARTITION_STYLE_MBR FS_NTFS
                 (Some "USB") (blank_world true)))
  = table_of 512 PARTITION_STYLE_MBR
      [layout_whole PARTITION_STYLE_MBR (PT_code MBR_TYPE_NTFS)].
Proof.
  apply (partition_create_single_outcomes (blank_world true) "/dev/sdb"
           PARTITION_STYLE_MBR FS_NTFS (Some "USB") eq_refl).
  reflexivity.
Defined.

(** X12. Run as root: when [partition_create_single_efi] answers true the
    one partition over the whole disk carries the EFI System type (GUID
    C12A7328-F81F-11D2-BA4B-00A0C93EC93B on GPT, code 0xEF on MBR) whatever
    the filesystem; on failure the disk has its old table or an empty one
    of the asked style. *)
Theorem partition_create_single_efi_outcomes
        (w : world) (device : string) (style : partition_style_t)
        (lbl : option string) :
  w_root w = true ->
  let r := partition_create_single_efi device style lbl w in
  let ss := dk_sector_size (w_disk w) in
  (fst r = true ->
   w_disk (snd r)
   = table_of ss style
       [layout_whole style
          (if is_mbr style then PT_code 239
           else PT_guid "C12A7328-F81F-11D2-BA4B-00A0C93EC93B")])
  /\ (fst r = false ->
      w_disk (snd r) = w_disk w \/ w_disk (snd r) = table_of ss style []).
Proof.
  intros Hroot. cbv zeta.
  destruct (partition_create_single_efi device style lbl w) as [ok w'] eqn:E0.
  unfold partition_create_single_efi, bind at 1, is_root in E0.
  rewrite Hroot in E0. cbn [negb fst snd] in *.
  replace (if is_mbr style then PT_code 239
           else PT_guid "C12A7328-F81F-11D2-BA4B-00A0C93EC93B")
    with (esp_type style) by now destruct style.
  match type of E0 with
  | context [partition_add_efi _ ?p 1] =>
      refine (single_layout_outcomes partition_add_efi esp_type
                device style p w _ eq_refl eq_refl eq_refl ok w' E0)
  end.
  intros w0 ok0 w0' H. apply partition_add_efi_spec in H as (_ & F & T).
  split; [intros Hf; now apply F | exact T].
Qed.

Lemma partition_create_single_efi_outcomes_witness :
  w_disk (snd (partition_create_single_efi "/dev/sdb" PARTITION_STYLE_GPT
                 (Some "USB") (blank_world true)))
  = table_of 512 PARTITION_STYLE_GPT
      [layout_whole PARTITION_STYLE_GPT
         (PT_guid "C12A7328-F81F-11D2-BA4B-00A0C93EC93B")].
Proof.
  apply (partition_create_single_efi_outcomes (blank_world true) "/dev/sdb"
           PARTITION_STYLE_GPT (Some "USB") eq_refl).
  reflexivity.
Defined.

Lemma command_exists_sfdisk (w : world) :
  command_exists "sfdisk" w = (w_which w "sfdisk", probed w).
Proof. reflexivity. Qed.

Lemma bind_command_exists {A} (k : bool -> M A) (w : world) :
  (have <- command_exists "sfdisk" ;; k have) w
  = k (w_which w "sfdisk") (probed w).
Proof. unfold bind. now rewrite command_exists_sfdisk. Qed.

Lemma unprivileged_single (w : world) (device : string)
      (style : partition_style_t) (fs : fs_type_t) (lbl : option string) :
  w_root w = false ->
  partition_create_single device style fs lbl w
  = partition_create_single_privileged device style fs w.
Proof.
  intros Hr. unfold partition_create_single, bind at 1, is_root.
  now rewrite Hr.
Qed.

Lemma unprivileged_single_efi (w : world) (device : string)
      (style : partition_style_t) (lbl : option string) :
  w_root w = false ->
  partition_create_single_efi device style lbl w
  = partition_create_single_efi_privileged device style w.
Proof.
  intros Hr. unfold partition_create_single_efi, bind at 1, is_root.
  now rewrite Hr.
Qed.

Lemma unprivileged_bootable (w : world) (device : string)
      (style : partition_style_t) (target : target_type_t) (fs : fs_type_t)
      (lbl : option string) :
  w_root w = false ->
  partition_create_bootable device style target fs lbl w
  = partition_create_bootable_privileged device style target fs w.
Proof.
  intros Hr. unfold partition_create_bootable, bind at 1, is_root.
  now rewrite Hr.
Qed.

(** X13. For a BIOS target, or an MBR table, [partition_create_bootable]
    does what [partition_create_single] does: the same answer, the same
    disk and the same partitioning commands. The one difference is
    without root rights and with [sfdisk] installed, where it has looked
    for [sfdisk] once before: it then does what
    [partition_create_single] does after that search. *)
Theorem partition_create_bootable_falls_back
        (w : world) (device : string) (style : partition_style_t)
        (target : target_type_t) (fs : fs_type_t) (lbl : option string) :
  target = TARGET_BIOS \/ style = PARTITION_STYLE_MBR ->
  partition_create_bootable device style target fs lbl w
  = partition_create_single device style fs lbl
      (if w_root w || negb (w_which w "sfdisk") then w else probed w).
Proof.
  intros H. destruct (w_root w) eqn:Hr; cbn [orb].
  - unfold partition_create_bootable, bind at 1, is_root. rewrite Hr.
    cbn [negb]. destruct H as [-> | ->]; [reflexivity|].
    destruct target; reflexivity.
  - rewrite (unprivileged_bootable w) by exact Hr.
    unfold partition_create_bootable_privileged.
    rewrite bind_command_exists.
    destruct (w_which w "sfdisk") eqn:Hw; cbn [negb].
    + rewrite (unprivileged_single (probed w)) by exact Hr.
      destruct H as [-> | ->]; [now destruct style|]. now destruct target.
    + rewrite (unprivileged_single w) by exact Hr.
      unfold partition_create_single_privileged.
      rewrite bind_command_exists, Hw. reflexivity.
Qed.

Lemma partition_create_bootable_falls_back_witness :
  partition_create_bootable "/dev/sdb" PARTITION_STYLE_MBR TARGET_UEFI
    FS_FAT32 None (blank_world false)
  = partition_create_single "/dev/sdb" PARTITION_STYLE_MBR FS_FAT32 None
      (probed (blank_world false)).
Proof.
  apply (partition_create_bootable_falls_back (blank_world false) "/dev/sdb"
           PARTITION_STYLE_MBR TARGET_UEFI FS_FAT32 None).
  right. reflexivity.
Defined.

Lemma run_privileged_no_pkexec (cmd : string) (w : world) :
  w_root w = false -> w_pkexec w = None -> run_privileged cmd w = (-1, w).
Proof. intros Hr Hp. unfold run_privileged. now rewrite Hr, Hp. Qed.

Lemma no_helper_probed (w : world) : no_helper w -> no_helper (probed w).
Proof. intros H. exact H. Qed.

Lemma single_needs_helper (w : world) (device : string)
      (style : partition_style_t) (fs : fs_type_t) :
  no_helper w ->
  partition_create_single_privileged device style fs w = (false, probed w).
Proof.
  intros [Hr H]. unfold partition_create_single_privileged.
  rewrite bind_command_exists.
  destruct (w_which w "sfdisk") eqn:Hw; cbn [negb]; [|reflexivity].
  destruct H as [H | H]; [discriminate|].
  cbv zeta. unfold bind. now rewrite run_privileged_no_pkexec.
Qed.

(** X14. Without root rights, when [sfdisk] is not installed or no
    [pkexec] is found, the three layout functions answer false, leave the
    disk as it was and run nothing but the search for [sfdisk]: once, or
    twice when [partition_create_bootable] falls back on the single
    layout. No partitioning command is run. *)
Theorem partition_create_needs_helper
        (w : world) (device : string) (style : partition_style_t)
        (target : target_type_t) (fs : fs_type_t) (lbl : option string) :
  no_helper w ->
  partition_create_single device style fs lbl w = (false, probed w)
  /\ partition_create_single_efi device style lbl w = (false, probed w)
  /\ (partition_create_bootable device style target fs lbl w
      = (false, probed w)
      \/ partition_create_bootable device style target fs lbl w
         = (false, probed (probed w))).
Proof.
  intros Hn. pose proof Hn as [Hr H].
  rewrite (unprivileged_single w), (unprivileged_single_efi w),
    (unprivileged_bootable w) by exact Hr.
  split; [now apply single_needs_helper|]. split.
  - unfold partition_create_single_efi_privileged.
    rewrite bind_command_exists.
    destruct (w_which w "sfdisk") eqn:Hw; cbn [negb]; [|reflexivity].
    destruct H as [H | H]; [discriminate|].
    cbv zeta. unfold bind. now rewrite run_privileged_no_pkexec.
  - unfold partition_create_bootable_privileged.
    rewrite bind_command_exists.
    destruct (w_which w "sfdisk") eqn:Hw; cbn [negb]; [|now left].
    destruct H as [H | H]; [discriminate|].
    destruct style, target;
      try (right; apply single_needs_helper; now apply no_helper_probed);
      left; cbv zeta; unfold bind; now rewrite run_privileged_no_pkexec.
Qed.

Lemma partition_create_needs_helper_witness :
  partition_create_single "/dev/sdb" PARTITION_STYLE_GPT FS_FAT32 None
    unprivileged_world = (false, probed unprivileged_world)
  /\ partition_create_single_efi "/dev/sdb" PARTITION_STYLE_GPT None
       unprivileged_world = (false, probed unprivileged_world)
  /\ (partition_create_bootable "/dev/sdb" PARTITION_STYLE_GPT TARGET_UEFI
        FS_FAT32 None unprivileged_world = (false, probed unprivileged_world)
      \/ partition_create_bootable "/dev/sdb" PARTITION_STYLE_GPT TARGET_UEFI
           FS_FAT32 None unprivileged_world
         = (false, probed (probed unprivileged_world))).
Proof.
  apply partition_create_needs_helper. split; [reflexivity|]. right.
  reflexivity.
Defined.

(* ------------------------------------------------------------------ *)
(** ** The formatting tool and its arguments *)

(** X15. [build_mkfs_args] answers NULL exactly for a filesystem without
    an mkfs tool; otherwise the vector starts with the tool of the
    filesystem, ends with the partition path and has between 2 and 8
    entries, so that it fits, with its NULL terminator, in the 16 slots
    allocated for it, whatever the label and the cluster size. *)
Theorem build_mkfs_args_fits (partition_path : string)
        (opts : format_options_t) :
  match build_mkfs_args partition_path opts with
  | None => format_get_mkfs_command (Format.fs_type opts) = None
  | Some args =>
      hd_error args = format_get_mkfs_command (Format.fs_type opts)
      /\ last args EmptyString = partition_path
      /\ (2 <= List.length args <= 8)%nat
  end.
Proof.
  unfold build_mkfs_args, format_get_mkfs_command.
  destruct (get_mkfs_info (Format.fs_type opts)) as [info|] eqn:Hi;
    [|reflexivity].
  cbv zeta. split; [reflexivity|]. split.
  - rewrite !app_assoc. apply last_last.
  - rewrite !length_app.
    destruct (Format.label opts) as [l|];
      [destruct (negb (String.eqb l EmptyString))|];
      destruct (Format.fs_type opts), (quick_format opts), (label_opt info),
        (cluster_opt info), (0 <? cluster_size opts);
      cbn; lia.
Qed.

Lemma wait_loop_silent (polls : nat) :
  forall elapsed,
    wait_loop polls elapsed false
    = filter not_progress (wait_loop polls elapsed true).
Proof.
  induction polls as [|k IH]; intros elapsed; [reflexivity|].
  cbn. f_equal. apply IH.
Qed.

(** X16. The progress callback only observes: without a callback
    [format_partition] gives the same answer and does the same things
    (the same command line, the same sleeps) as with one. *)
Theorem format_progress_only_observes (e : Format.env)
        (partition_path : option string) (options : option format_options_t) :
  format_partition e partition_path options false
  = (fst (format_partition e partition_path options true),
     filter not_progress (snd (format_partition e partition_path options true))).
Proof.
  unfold format_partition.
  destruct partition_path as [ppath|], options as [opts|]; try reflexivity.
  destruct (negb (format_is_supported (fe_which e) (Format.fs_type opts)));
    [reflexivity|].
  destruct (build_mkfs_args ppath opts) as [args|]; [|reflexivity].
  destruct (CMD_STR_SIZE <=? String.length (cmd_str_of args))%nat;
    [reflexivity|].
  destruct (fe_fork e <? 0); [reflexivity|].
  cbv zeta. cbn [fst snd]. f_equal.
  rewrite !filter_app. cbn [filter not_progress app].
  now rewrite wait_loop_silent, app_nil_r.
Qed.

Lemma frac_steps :
  forallb (fun n => PrimFloat.leb (frac (Z.of_nat n)) (frac (Z.of_nat n + 1)))
          (seq 0 50) = true.
Proof. vm_compute. reflexivity. Qed.

Lemma frac_mono (elapsed : Z) :
  0 <= elapsed -> PrimFloat.leb (frac elapsed) (frac (elapsed + 1)) = true.
Proof.
  intros H. destruct (Z.ltb_spec elapsed 50) as [Hlt|Hge].
  - pose proof frac_steps as F. rewrite forallb_forall in F.
    specialize (F (Z.to_nat elapsed)). rewrite Z2Nat.id in F by lia.
    apply F. apply in_seq. lia.
  - unfold frac.
    replace (elapsed <? 50) with false by (symmetry; apply Z.ltb_ge; lia).
    replace (elapsed + 1 <? 50) with false by (symmetry; apply Z.ltb_ge; lia).
    vm_compute. reflexivity.
Qed.

Lemma frac_first_fifty_le :
  forallb (fun n => PrimFloat.leb (frac (Z.of_nat n)) 1.0%float) (seq 0 50) = true.
Proof. vm_compute. reflexivity. Qed.

Lemma frac_le_one (elapsed : Z) :
  0 <= elapsed -> PrimFloat.leb (frac elapsed) 1.0%float = true.
Proof.
  intros H. destruct (Z.ltb_spec elapsed 50) as [Hlt|Hge].
  - pose proof frac_first_fifty_le as F. rewrite forallb_forall in F.
    specialize (F (Z.to_nat elapsed)). rewrite Z2Nat.id in F by lia.
    apply F. apply in_seq. lia.
  - unfold frac. replace (elapsed <? 50) with false
      by (symmetry; apply Z.ltb_ge; lia).
    vm_compute. reflexivity.
Qed.

Lemma wait_loop_rising (polls : nat) :
  forall elapsed, 0 <= elapsed ->
    rising (frac elapsed
            :: map fst (progress_calls (wait_loop polls elapsed true
                                        ++ [Fp_progress 1.0%float "Complete"]))).
Proof.
  induction polls as [|k IH]; intros elapsed H.
  - cbn. split; [|exact I]. now apply frac_le_one.
  - cbn [wait_loop app progress_calls map fst].
    split; [now apply frac_mono|]. apply IH. lia.
Qed.

(** X17. The fractions [format_partition] hands to the progress callback
    never go back: each one is at most the next, from the 0.0 of the
    start through the simulated values of the wait loop to the final 1.0
    (as long as the counter of the loop stays an [int]). *)
Theorem format_progress_never_goes_back (e : Format.env)
        (partition_path : option string) (options : option format_options_t) :
  Z.of_nat (fe_polls e) < 2 ^ 31 ->
  rising (map fst (progress_calls
                     (snd (format_partition e partition_path options true)))).
Proof.
  intros _. unfold format_partition.
  destruct partition_path as [ppath|], options as [opts|]; try exact I.
  destruct (negb (format_is_supported (fe_which e) (Format.fs_type opts)));
    [exact I|].
  destruct (build_mkfs_args ppath opts) as [args|]; [|exact I].
  destruct (CMD_STR_SIZE <=? String.length (cmd_str_of args))%nat; [exact I|].
  destruct (fe_fork e <? 0); [exact I|].
  cbv zeta. cbn [fst snd app progress_calls map].
  exact (wait_loop_rising (fe_polls e) 0 (Z.le_refl 0)).
Qed.

Lemma format_progress_never_goes_back_witness :
  rising (map fst (progress_calls
                     (snd (format_partition (format_env true 60 0)
                             (Some "/dev/sdb1") (Some fat32_options) true)))).
Proof.
  apply format_progress_never_goes_back. vm_compute. reflexivity.
Defined.

(** X18. [format_partition] starts at most one program, and only after
    [which] has found the mkfs tool of the filesystem: the command line is
    that tool, its options and, last, the partition path, behind [pkexec]
    when the process is not root. *)
Theorem format_partition_runs_checked_tool (e : Format.env)
        (partition_path : option string) (options : option format_options_t)
        (progress : bool) (argv : list string) :
  In argv (executed (snd (format_partition e partition_path options progress))) ->
  executed (snd (format_partition e partition_path options progress)) = [argv]
  /\ exists ppath opts tool args,
      partition_path = Some ppath /\ options = Some opts
      /\ format_get_mkfs_command (Format.fs_type opts) = Some tool
      /\ fe_which e tool = true
      /\ hd_error args = Some tool
      /\ last args EmptyString = ppath
      /\ argv = if fe_root e then args else "pkexec" :: args.
Proof.
  assert (Hx : forall t1 t2, executed (t1 ++ t2)
                             = (executed t1 ++ executed t2)%list).
  { induction t1 as [|ev t1 IH]; intros t2; [reflexivity|].
    destruct ev; cbn; now rewrite IH. }
  assert (Hw : forall polls elapsed, executed (wait_loop polls elapsed progress) = []).
  { induction polls as [|k IH]; intros elapsed; [reflexivity|].
    cbn. rewrite Hx, IH. now destruct progress. }
  unfold format_partition.
  destruct partition_path as [ppath|], options as [opts|]; try (intros []).
  unfold format_is_supported.
  destruct (format_get_mkfs_command (Format.fs_type opts)) as [tool|] eqn:Ht;
    [|intros []].
  destruct (fe_which e tool) eqn:Hwh; [|intros []]. cbn [negb].
  pose proof (build_mkfs_args_fits ppath opts) as Hb.
  destruct (build_mkfs_args ppath opts) as [args|]; [|intros []].
  destruct Hb as (Hh & Hl & _).
  destruct (CMD_STR_SIZE <=? String.length (cmd_str_of args))%nat;
    [intros []|].
  destruct (fe_fork e <? 0); [destruct progress; intros []|].
  cbv zeta. cbn [fst snd]. rewrite !Hx, Hw.
  replace (executed (if progress
                     then [Fp_progress 0.0%float "Starting format..."]
                     else [])) with (@nil (list string))
    by now destruct progress.
  replace (executed (if progress
                     then [Fp_progress 1.0%float "Complete"]
                     else [])) with (@nil (list string))
    by now destruct progress.
  cbn. intros [<- | []]. split; [reflexivity|].
  exists ppath, opts, tool, args. rewrite Hh, Ht. auto 10.
Qed.

Lemma format_partition_runs_checked_tool_witness :
  executed (snd (format_partition (format_env false 3 0) (Some "/dev/sdb1")
                   (Some fat32_options) true))
  = [["pkexec"; "mkfs.fat"; "-F"; "32"; "-n"; "USB"; "-s"; "8"; "/dev/sdb1"]].
Proof.
  apply (format_partition_runs_checked_tool (format_env false 3 0)
           (Some "/dev/sdb1") (Some fat32_options) true).
  vm_compute. left. reflexivity.
Defined.

(* ------------------------------------------------------------------ *)
(** ** What a job of the window touches *)

Lemma sh_word_quoted (m tail : string) :
  quote_free m -> word_end tail ->
  sh_word true (m ++ "'" ++ tail) = Some (m, tail).
Proof.
  intros Hm Ht. induction m as [|c m IH].
  - destruct Ht as [-> | [t ->]]; reflexivity.
  - destruct Hm as [Hc Hm].
    change (String c m ++ "'" ++ tail) with (String c (m ++ "'" ++ tail)).
    cbn [sh_word].
    destruct (Ascii.eqb_spec c "'"%char) as [E|E]; [contradiction|].
    now rewrite (IH Hm).
Qed.

Lemma substring_all (s : string) :
  forall n, (String.length s <= n)%nat -> String.substring 0 n s = s.
Proof.
  induction s as [|c s IH]; intros n Hn; [now destruct n|].
  destruct n as [|n]; [cbn in Hn; lia|]. cbn [String.substring].
  rewrite IH by (cbn in Hn; lia). reflexivity.
Qed.

(** The command line of the fallback of [device_unmount], for a
    mountpoint without a single quote that is short enough: the shell
    reads it as the unmount of that mountpoint. *)
Lemma umount_line_read (m : string) :
  plain_mountpoint m ->
  shell_umount m (snprintf 512 ("umount '" ++ m ++ "' 2>/dev/null")).
Proof.
  intros [Hq Hl]. unfold snprintf.
  rewrite substring_all
    by (rewrite !length_str_app; cbn [String.length]; lia).
  exists ("'" ++ m ++ "'"). split.
  - cbn [append]. rewrite !str_app_assoc. reflexivity.
  - rewrite !str_app_assoc. cbn [append sh_word Ascii.eqb Bool.eqb].
    apply (sh_word_quoted m " 2>/dev/null" Hq). right. eexists. reflexivity.
Qed.

Lemma device_unmount_loop_concerns (e : Window.outside) (dev : device_info_t)
      (all : list string) :
  mountpoints dev = Some all ->
  Forall plain_mountpoint all ->
  forall ms, incl ms all ->
    Forall (concerns dev) (Window.device_unmount_loop e ms).
Proof.
  intros Hall Hplain. rewrite Forall_forall in Hplain.
  induction ms as [|m ms IH]; intros Hin; [constructor|].
  cbn [Window.device_unmount_loop]. apply Forall_app. split.
  - assert (Hm : In m all) by (apply Hin; now left).
    assert (Hu : concerns dev (Window.C_umount2 m)) by (cbn; eauto).
    destruct (Window.umount2_ok e m);
      [now apply Forall_cons|].
    apply Forall_cons; [exact Hu|]. apply Forall_cons; [|apply Forall_nil].
    cbn [concerns]. right. exists all, m.
    split; [exact Hall|]. split; [exact Hm|].
    apply umount_line_read. now apply Hplain.
  - apply IH. intros x Hx. apply Hin. now right.
Qed.

Lemma prepare_concerns (e : Window.outside) (self : Window.RufusWindow)
      (dev : device_info_t) (wi ie : bool) :
  (forall ms, mountpoints dev = Some ms -> Forall plain_mountpoint ms) ->
  Forall (concerns dev) (Window.r_calls (Window.prepare e self dev wi ie))
  /\ exists op,
      Window.r_dialog (Window.prepare e self dev wi ie) = Some op
      /\ Window.op_device_path op = Device.path dev.
Proof.
  intros Hplain.
  unfold Window.prepare. cbv zeta. cbn [Window.r_calls Window.r_dialog]. split.
  - destruct (device_is_mounted (Some dev)); [|constructor].
    apply Forall_app. split; [|repeat constructor].
    unfold Window.device_unmount.
    destruct (mountpoints dev) as [ms|] eqn:Hm; [|constructor].
    apply (device_unmount_loop_concerns e dev ms Hm (Hplain ms eq_refl)).
    apply incl_refl.
  - eexists. split; [reflexivity|]. now destruct wi, ie.
Qed.

Lemma write_thread_func_concerns (e : Window.outside) (op : Window.write_op_t)
      (dev : device_info_t) :
  Window.op_device_path op = Device.path dev ->
  Forall (concerns dev) (snd (Window.write_thread_func e op)).
Proof.
  intros Hp. unfold Window.write_thread_func. cbv zeta. rewrite Hp.
  destruct (Window.op_target op), (Window.op_part_style op);
  repeat match goal with
         | |- context [if ?b then _ else _] => destruct b
         end;
    cbn [snd];
    repeat (apply Forall_cons; [cbn [concerns]; auto|]); apply Forall_nil.
Qed.

Lemma on_start_clicked_cases (e : Window.outside) (self : Window.RufusWindow)
      (devs : list device_info_t) (dev : device_info_t) :
  Window.devices self = Some devs ->
  nth_error devs (Z.to_nat (Window.device_dropdown self)) = Some dev ->
  (exists self1 text, Window.on_start_clicked e self = Window.refuse self1 text)
  \/ (exists self1 wi ie,
         Window.on_start_clicked e self = Window.prepare e self1 dev wi ie).
Proof.
  intros Hd Hn. unfold Window.on_start_clicked. rewrite Hd. cbv zeta.
  destruct ((Window.device_dropdown self =? Window.GTK_INVALID_LIST_POSITION)
            || (Z.of_nat (List.length devs) <=? Window.device_dropdown self));
    [left; eauto|].
  rewrite Hn.
  destruct ((Window.boot_dropdown self =? 0)
            && match Window.iso_path self with
               | Some _ => true
               | None => false
               end); [|right; eauto].
  destruct (Window.iso_info self) as [info|]; [|left; eauto].
  destruct (Device.size dev <? IsoAnalyzer.size info); [left; eauto|].
  destruct (Window.write_mode_dropdown self =? 1); [|right; eauto].
  destruct (Window.extract_checks e _ info); [left; eauto | right; eauto].
Qed.

Lemma extract_probes_search (e : Window.outside) (c : Window.call) :
  In c (Window.extract_probes e) ->
  exists cmd, c = Window.C_system cmd /\ tool_search cmd.
Proof.
  unfold Window.extract_probes, tool_search.
  destruct (Window.which e "xorriso"), (Window.which e "bsdtar");
    cbn; intros H;
    repeat (destruct H as [<- | H]; [eexists; split; [reflexivity|]; auto|]);
    destruct H.
Qed.

Lemma on_start_clicked_probes_search (e : Window.outside)
      (self : Window.RufusWindow) (c : Window.call) :
  In c (Window.on_start_clicked_probes e self) ->
  exists cmd, c = Window.C_system cmd /\ tool_search cmd.
Proof.
  unfold Window.on_start_clicked_probes. cbv zeta.
  destruct (Window.devices self) as [devs|]; [|intros []].
  destruct ((Window.device_dropdown self =? Window.GTK_INVALID_LIST_POSITION)
            || (Z.of_nat (List.length devs) <=? Window.device_dropdown self));
    [intros []|].
  destruct (nth_error devs (Z.to_nat (Window.device_dropdown self))) as [dev|];
    [|intros []].
  destruct ((Window.boot_dropdown self =? 0)
            && match Window.iso_path self with
               | Some _ => true
               | None => false
               end); [|intros []].
  destruct (Window.iso_info self) as [info|]; [|intros []].
  destruct (Device.size dev <? IsoAnalyzer.size info); [intros []|].
  destruct (Window.write_mode_dropdown self =? 1); [|intros []].
  apply extract_probes_search.
Qed.

Lemma job_trace_concerns
      (e : Window.outside) (self : Window.RufusWindow) (response : Z)
      (devs : list device_info_t) (dev : device_info_t) :
  Window.devices self = Some devs ->
  nth_error devs (Z.to_nat (Window.device_dropdown self)) = Some dev ->
  (forall ms, mountpoints dev = Some ms -> Forall plain_mountpoint ms) ->
  Forall (concerns dev) (Window.job_trace e self response).
Proof.
  intros Hd Hn Hplain. unfold Window.job_trace. apply Forall_app. split.
  - apply Forall_forall. intros c Hc.
    destruct (on_start_clicked_probes_search e self c Hc) as (cmd & -> & Hs).
    cbn [concerns]. now left.
  - unfold Window.job_calls. cbv zeta.
    destruct (on_start_clicked_cases e self devs dev Hd Hn)
      as [(self1 & text & ->) | (self1 & wi & ie & ->)].
    + constructor.
    + destruct (prepare_concerns e self1 dev wi ie Hplain)
        as (Hc & op & -> & Hp).
      apply Forall_app. split; [exact Hc|].
      unfold Window.on_confirm_response.
      destruct (response =? 1); [|constructor].
      now apply write_thread_func_concerns.
Qed.




Ltac next_call e :=
  match goal with
  | |- context [if negb (Window.call_ok e ?c) then _ else _] =>
      let E := fresh "E" in
      destruct (Window.call_ok e c) eqn:E; cbn [negb]
  end.

(** X20. [write_thread_func] reports success exactly when every step it
    made succeeded, and it makes no step after a failed one: a step that
    is followed by another call succeeded. *)
Theorem write_thread_func_stops_at_first_failure
        (e : Window.outside) (op : Window.write_op_t) :
  fst (Window.write_thread_func e op)
  = forallb (Window.call_ok e)
      (filter Window.destructive (snd (Window.write_thread_func e op)))
  /\ forall n c,
      nth_error (snd (Window.write_thread_func e op)) n = Some c ->
      (S n < List.length (snd (Window.write_thread_func e op)))%nat ->
      Window.destructive c = true ->
      Window.call_ok e c = true.
Proof.
  unfold Window.write_thread_func. cbv zeta.
  destruct (Window.op_write_iso op), (Window.op_iso_extract op),
    (Window.op_target op), (Window.op_part_style op);
    repeat next_call e;
    cbn [fst snd filter Window.destructive forallb List.length];
    (split;
     [repeat match goal with H : Window.call_ok e _ = _ |- _ => rewrite H end;
      cbn [andb]; rewrite ?andb_true_r; reflexivity|]);
    intros n c Hn Hlt Hdc;
    repeat (destruct n as [|n];
            [cbn in Hn; injection Hn as <-;
             first [discriminate Hdc | assumption | cbn in Hlt; lia]|]);
    cbn in Hn, Hlt; first [discriminate Hn | lia].
Qed.

(** X21. When the confirmation dialog is answered with anything but
    Continue, the job partitions, formats and writes nothing. What it
    has run by then, before the dialog was shown, are the searches for
    an extraction tool and, for a mounted device, the unmounts of the
    mountpoints of the selected device (none of which has a single quote
    or is longer than 490 characters) and the sleep after them. *)
Theorem declined_job_only_unmounts
        (e : Window.outside) (self : Window.RufusWindow) (response : Z)
        (devs : list device_info_t) (dev : device_info_t) :
  response <> 1 ->
  Window.devices self = Some devs ->
  nth_error devs (Z.to_nat (Window.device_dropdown self)) = Some dev ->
  (forall ms, mountpoints dev = Some ms -> Forall plain_mountpoint ms) ->
  Window.job_trace e self response
  = (Window.on_start_clicked_probes e self
     ++ Window.r_calls (Window.on_start_clicked e self))%list
  /\ Forall (fun c => unmounts_or_sleeps c = true /\ concerns dev c)
            (Window.job_trace e self response).
Proof.
  intros Hr Hd Hn Hplain.
  assert (E : Window.job_calls e self response
              = Window.r_calls (Window.on_start_clicked e self)).
  { unfold Window.job_calls, Window.on_confirm_response. cbv zeta.
    replace (response =? 1) with false by (symmetry; now apply Z.eqb_neq).
    destruct (Window.r_dialog _); apply app_nil_r. }
  split; [unfold Window.job_trace; now rewrite E|].
  pose proof (job_trace_concerns e self response devs dev Hd Hn Hplain) as Hc.
  rewrite Forall_forall in Hc. apply Forall_forall. intros c Hin.
  split; [|now apply Hc].
  unfold Window.job_trace in Hin. rewrite E in Hin.
  apply in_app_or in Hin. destruct Hin as [Hin | Hin].
  { destruct (on_start_clicked_probes_search e self c Hin) as (cmd & -> & _).
    reflexivity. }
  assert (Hl : forall ms, forallb unmounts_or_sleeps
                            (Window.device_unmount_loop e ms) = true).
  { induction ms as [|m ms IH]; [reflexivity|].
    cbn [Window.device_unmount_loop]. rewrite forallb_app, IH.
    now destruct (Window.umount2_ok e m). }
  assert (Hp : forall self1 wi ie,
             forallb unmounts_or_sleeps
               (Window.r_calls (Window.prepare e self1 dev wi ie)) = true).
  { intros self1 wi ie. unfold Window.prepare. cbv zeta.
    cbn [Window.r_calls].
    destruct (device_is_mounted (Some dev)); [|reflexivity].
    rewrite forallb_app. unfold Window.device_unmount.
    destruct (mountpoints dev); [now rewrite Hl | reflexivity]. }
  destruct (on_start_clicked_cases e self devs dev Hd Hn)
    as [(self1 & text & Hs) | (self1 & wi & ie & Hs)];
    rewrite Hs in Hin.
  - destruct Hin.
  - specialize (Hp self1 wi ie). rewrite forallb_forall in Hp.
    now apply Hp.
Qed.

Lemma declined_job_only_unmounts_witness :
  Window.job_trace (outside_with [root_mount])
    (window_with [stick_with_mounts ["/media/usb"]] image_4GB 1 1 0) 0
  = (Window.on_start_clicked_probes (outside_with [root_mount])
       (window_with [stick_with_mounts ["/media/usb"]] image_4GB 1 1 0)
     ++ Window.r_calls
          (Window.on_start_clicked (outside_with [root_mount])
             (window_with [stick_with_mounts ["/media/usb"]] image_4GB 1 1 0)))%list
  /\ Forall (fun c => unmounts_or_sleeps c = true
                      /\ concerns (stick_with_mounts ["/media/usb"]) c)
            (Window.job_trace (outside_with [root_mount])
               (window_with [stick_with_mounts ["/media/usb"]] image_4GB 1 1 0)
               0).
Proof.
  apply (declined_job_only_unmounts (outside_with [root_mount])
           (window_with [stick_with_mounts ["/media/usb"]] image_4GB 1 1 0) 0
           [stick_with_mounts ["/media/usb"]]
           (stick_with_mounts ["/media/usb"])).
  - discriminate.
  - reflexivity.
  - reflexivity.
  - intros ms [= <-]. constructor; [|constructor].
    split; [cbn; repeat split; discriminate | cbn; lia].
Defined.

(* ------------------------------------------------------------------ *)
(** ** The mounts of an enumerated device *)

Lemma strrchr_no_slash (s : string) :
  no_slash s -> strrchr s "/"%char = None.
Proof.
  induction s as [|a s IH]; [reflexivity|]. intros [Ha Hs].
  cbn [strrchr]. rewrite (IH Hs).
  destruct (Ascii.eqb_spec a "/"%char); [contradiction | reflexivity].
Qed.

Lemma strrchr_head (s r : string) (c : ascii) :
  strrchr s c = Some r -> exists t, r = String c t.
Proof.
  induction s as [|a s IH]; [discriminate|]. cbn [strrchr].
  destruct (strrchr s c) as [r'|].
  - intros [= <-]. now apply IH.
  - destruct (Ascii.eqb_spec a c) as [->|]; [|discriminate].
    intros [= <-]. now exists s.
Qed.

Lemma strrchr_app (p s : string) :
  no_slash s ->
  strrchr (p ++ s) "/"%char
  = match strrchr p "/"%char with
    | Some r => Some (r ++ s)
    | None => None
    end.
Proof.
  intros Hs. induction p as [|a p IH]; [now apply strrchr_no_slash|].
  cbn [append strrchr]. rewrite IH.
  destruct (strrchr p "/"%char); [reflexivity|].
  now destruct (Ascii.eqb a "/"%char).
Qed.

Lemma base_of_app (p s : string) :
  no_slash s -> base_of (p ++ s) = base_of p ++ s.
Proof.
  intros Hs. unfold base_of. rewrite (strrchr_app p s Hs).
  destruct (strrchr p "/"%char) as [r|] eqn:E; [|reflexivity].
  destruct (strrchr_head p r _ E) as [t ->]. reflexivity.
Qed.

Lemma no_nul_strrchr (s r : string) (c : ascii) :
  no_nul s -> strrchr s c = Some r -> no_nul r.
Proof.
  induction s as [|a s IH]; [discriminate|]. intros [Ha Hs].
  cbn [strrchr]. destruct (strrchr s c) as [r'|].
  - intros [= <-]. now apply IH.
  - destruct (Ascii.eqb a c); [|discriminate]. intros [= <-]. now split.
Qed.

Lemma no_nul_base_of (p : string) : no_nul p -> no_nul (base_of p).
Proof.
  intros Hp. unfold base_of. destruct (strrchr p "/"%char) as [r|] eqn:E;
    [|exact Hp].
  pose proof (no_nul_strrchr p r _ Hp E) as Hr.
  destruct r as [|a r]; [exact I | exact (proj2 Hr)].
Qed.

Lemma get_mountpoints_loop_keeps (base : string) (ents : list mntent) :
  forall l, exists l',
    get_mountpoints_loop base ents (Some l) = Some l' /\ incl l l'.
Proof.
  induction ents as [|ent ents IH]; intros l; cbn [get_mountpoints_loop].
  - exists l. split; [reflexivity | apply incl_refl].
  - cbv zeta.
    destruct (strncmp (base_of (mnt_fsname ent)) base (strlen base) =? 0).
    + destruct (IH (l ++ [mnt_dir ent])%list) as (l' & -> & Hi).
      exists l'. split; [reflexivity|].
      intros x Hx. apply Hi. apply in_or_app. now left.
    + apply IH.
Qed.

Lemma get_mountpoints_loop_complete (base : string) (ent : mntent)
      (ents : list mntent) :
  In ent ents ->
  strncmp (base_of (mnt_fsname ent)) base (strlen base) = 0 ->
  forall acc, exists l,
    get_mountpoints_loop base ents acc = Some l /\ In (mnt_dir ent) l.
Proof.
  intros Hin Hm. induction ents as [|x ents IH]; [destruct Hin|].
  intros acc. cbn [get_mountpoints_loop]. cbv zeta.
  destruct Hin as [-> | Hin].
  - rewrite Hm. cbn [Z.eqb].
    match goal with
    | |- context [get_mountpoints_loop base ents (Some ?l0)] =>
        destruct (get_mountpoints_loop_keeps base ents l0) as (l' & -> & Hi);
        exists l'; split; [reflexivity|]; apply Hi
    end.
    destruct acc as [l|]; [apply in_or_app; right|]; now left.
  - destruct (strncmp (base_of (mnt_fsname x)) base (strlen base) =? 0);
      now apply IH.
Qed.

Lemma get_mountpoints_loop_agree (base : string) (ents : list mntent) :
  forall acc, acc <> Some [] ->
    get_mountpoints_loop base ents acc <> Some [].
Proof.
  induction ents as [|ent ents IH]; intros acc Hacc;
    cbn [get_mountpoints_loop]; [exact Hacc|].
  cbv zeta.
  destruct (strncmp (base_of (mnt_fsname ent)) base (strlen base) =? 0);
    [|now apply IH].
  apply IH. destruct acc as [[|a l]|]; discriminate.
Qed.

(** What the loop of [device_enumerate] keeps true of every device it
    has added. *)
Lemma device_enumerate_loop_keeps (pm : option (list mntent))
      (P : device_info_t -> Prop) :
  (forall d, is_usb d = true ->
             mountpoints d = fst (get_mountpoints (Device.path d) pm) ->
             mountpoint_count d = snd (get_mountpoints (Device.path d) pm) ->
             has_forbidden_mount (mountpoints d) = false ->
             P d) ->
  forall devs acc,
    Forall P acc -> Forall P (device_enumerate_loop pm devs acc).
Proof.
  intros HP. induction devs as [|dev rest IH]; intros acc Hacc;
    cbn [device_enumerate_loop]; [exact Hacc|].
  destruct (MAX_DEVICES <=? List.length acc)%nat; [exact Hacc|].
  destruct (skipped_name (sysname dev)); [now apply IH|].
  destruct (negb (is_usb_bus (ID_BUS dev))); [now apply IH|].
  destruct (get_mountpoints (devnode dev) pm) as [mounts mount_count] eqn:G.
  destruct (has_forbidden_mount mounts) eqn:E; [now apply IH|].
  apply IH. apply Forall_app. split; [exact Hacc|].
  constructor; [|constructor].
  apply HP; cbn; try rewrite G; auto.
Qed.

(** X22. No device of the list of [device_enumerate] has a forbidden
    mount on itself or on one of its partitions: an entry of the mount
    table whose device is the path of a listed device followed by a
    partition suffix is mounted neither on /, /boot, /boot/efi or /home
    nor below /home/. *)
Theorem enumerated_device_has_no_forbidden_partition_mount
        (pm : list mntent) (udev : list udev_device) (d : device_info_t)
        (ent : mntent) (suffix : string) :
  In d (device_enumerate (Some pm) udev) ->
  no_nul (Device.path d) ->
  In ent pm ->
  mnt_fsname ent = Device.path d ++ suffix ->
  no_slash suffix ->
  ~ forbidden_path (mnt_dir ent).
Proof.
  intros Hd Hnul Hent Hname Hsuf Hforb.
  assert (H : has_forbidden_mount
                (fst (get_mountpoints (Device.path d) (Some pm))) = false).
  { pose proof (device_enumerate_loop_keeps (Some pm)
                  (fun d => has_forbidden_mount
                              (fst (get_mountpoints (Device.path d) (Some pm)))
                            = false)) as K.
    assert (K' := K (fun d _ Hm _ Hf => eq_ind _ (fun x => has_forbidden_mount x = false) Hf _ Hm)
                    udev [] (Forall_nil _)).
    rewrite Forall_forall in K'. now apply K'. }
  cbn [get_mountpoints fst] in H.
  destruct (get_mountpoints_loop_complete (base_of (Device.path d)) ent pm Hent)
    with (acc := @None (list string)) as (l & Hl & Hin).
  - apply strncmp_starts_with; [now apply no_nul_base_of|].
    rewrite Hname, (base_of_app _ _ Hsuf). now exists suffix.
  - rewrite Hl in H. cbn [has_forbidden_mount] in H.
    rewrite (has_forbidden_mount_loop_in l (mnt_dir ent) Hin Hforb) in H.
    discriminate H.
Qed.

Lemma enumerated_device_has_no_forbidden_partition_mount_witness :
  ~ forbidden_path "/media/usb".
Proof.
  apply (enumerated_device_has_no_forbidden_partition_mount
           [root_mount; media_mount] [usb_stick]
           {| name := "sdb"; Device.path := "/dev/sdb";
              vendor := Some "Generic"; model := Some "Flash_Disk";
              serial := None; Device.size := 15633408 * 512;
              removable := true; is_usb := true; bus_type := Some "usb";
              mountpoints := Some ["/media/usb"]; mountpoint_count := 1 |}
           media_mount "1").
  - vm_compute. left. reflexivity.
  - cbn. repeat split; discriminate.
  - right. left. reflexivity.
  - reflexivity.
  - cbn. split; [discriminate | exact I].
Defined.

Lemma device_enumerate_loop_length (pm : option (list mntent))
      (devs : list udev_device) :
  forall acc, (List.length acc <= MAX_DEVICES)%nat ->
    (List.length (device_enumerate_loop pm devs acc) <= MAX_DEVICES)%nat.
Proof.
  induction devs as [|dev rest IH]; intros acc Hacc;
    cbn [device_enumerate_loop]; [exact Hacc|].
  destruct (Nat.leb_spec MAX_DEVICES (List.length acc)); [exact Hacc|].
  destruct (skipped_name (sysname dev)); [now apply IH|].
  destruct (negb (is_usb_bus (ID_BUS dev))); [now apply IH|].
  destruct (get_mountpoints (devnode dev) pm) as [mounts mount_count].
  destruct (has_forbidden_mount mounts); [now apply IH|].
  apply IH. rewrite length_app. cbn [List.length]. lia.
Qed.

(** X23. The list of [device_enumerate] never holds more than the 64
    devices its array has room for, and for each device of the list the
    recorded mount count is the length of the recorded mount array, which
    is NULL rather than empty: [device_is_mounted] answers true exactly
    when [device_unmount] has something to unmount. *)
Theorem device_enumerate_invariants
        (pm : option (list mntent)) (udev : list udev_device) :
  (List.length (device_enumerate pm udev) <= 64)%nat
  /\ Forall (fun d => is_usb d = true /\ mounts_agree d
                      /\ (device_is_mounted (Some d) = true
                          <-> mountpoints d <> None))
            (device_enumerate pm udev).
Proof.
  split.
  - apply (device_enumerate_loop_length pm udev []). cbn. lia.
  - apply device_enumerate_loop_keeps; [|constructor].
    intros d Hu Hm Hc _. split; [exact Hu|].
    assert (A : mounts_agree d).
    { unfold mounts_agree. rewrite Hc, Hm. unfold get_mountpoints.
      destruct pm as [ents|]; [|reflexivity]. cbv zeta. cbn [fst snd].
      pose proof (get_mountpoints_loop_agree (base_of (Device.path d)) ents None)
        as Hne.
      destruct (get_mountpoints_loop (base_of (Device.path d)) ents None)
        as [l|]; [|reflexivity].
      split; [|reflexivity]. intros ->. now apply Hne. }
    split; [exact A|]. unfold mounts_agree in A. cbn [device_is_mounted].
    destruct (mountpoints d) as [ms|].
    + destruct A as [Hne ->]. split; [discriminate|]. intros _.
      apply Z.ltb_lt. destruct ms; [congruence | cbn; lia].
    + rewrite A. split; [discriminate | congruence].
Qed.

(* ------------------------------------------------------------------ *)
(** ** Quoting a path for the shell *)

Lemma shell_quote_len_fill (s : string) :
  forall len,
    IsoAnalyzer.shell_quote_len s len
    = (len + String.length (IsoAnalyzer.shell_quote_fill s) - 1)%nat.
Proof.
  induction s as [|c s IH]; intros len; cbn [IsoAnalyzer.shell_quote_len
    IsoAnalyzer.shell_quote_fill].
  - cbn. lia.
  - rewrite IH. destruct (Ascii.eqb c "'"%char); cbn [String.length]; lia.
Qed.

(** X24. The text [shell_quote] writes has exactly the length its first
    loop computed, so the buffer of that length plus one holds it with
    its terminator, however many quotes the path has. *)
Theorem shell_quote_fits (s : string) :
  exists q, IsoAnalyzer.shell_quote (Some s) = Some q
            /\ String.length q = IsoAnalyzer.shell_quote_len s 2.
Proof.
  eexists. split; [reflexivity|]. rewrite shell_quote_len_fill.
  cbn [String.length]. lia.
Qed.

Lemma sh_word_fill (s tail : string) :
  word_end tail ->
  sh_word true (IsoAnalyzer.shell_quote_fill s ++ tail) = Some (s, tail).
Proof.
  intros Ht. induction s as [|c s IH]; cbn [IsoAnalyzer.shell_quote_fill].
  - destruct Ht as [-> | [t ->]]; reflexivity.
  - destruct (Ascii.eqb c "'"%char) eqn:E.
    + apply Ascii.eqb_eq in E. subst c.
      cbn [append sh_word Ascii.eqb Bool.eqb]. rewrite IH. reflexivity.
    + cbn [append sh_word]. rewrite E, IH. reflexivity.
Qed.

(** X25. The shell reads what [shell_quote] wrote as one word, the path
    itself, whatever characters the path has, and goes on after it with
    the rest of the command line. *)
Theorem shell_quote_round_trip (s tail : string) :
  word_end tail ->
  exists q, IsoAnalyzer.shell_quote (Some s) = Some q
            /\ sh_word false (q ++ tail) = Some (s, tail).
Proof.
  intros Ht. eexists. split; [reflexivity|].
  cbn [append sh_word Ascii.eqb Bool.eqb]. now apply sh_word_fill.
Qed.

Lemma shell_quote_round_trip_witness :
  exists q, IsoAnalyzer.shell_quote (Some "it's; rm -rf $HOME") = Some q
            /\ sh_word false (q ++ " 2>/dev/null")
               = Some ("it's; rm -rf $HOME", " 2>/dev/null").
Proof.
  apply (shell_quote_round_trip "it's; rm -rf $HOME" " 2>/dev/null").
  right. eexists. reflexivity.
Defined.

(* ------------------------------------------------------------------ *)
(** ** Digests as hexadecimal text *)

Lemma all_ascii (P : ascii -> Prop) :
  (forall n, (n < 256)%nat -> P (ascii_of_nat n)) -> forall c, P c.
Proof.
  intros H c. rewrite <- (ascii_nat_embedding c). apply H.
  apply nat_ascii_bounded.
Qed.

Lemma hex_val_digit_all :
  forallb (fun n =>
             let c := ascii_of_nat n in
             negb (is_hex_digit c)
             || ((0 <=? Hash.hex_val c) && (Hash.hex_val c <? 16)
                 && Ascii.eqb (Hash.hex_char (Hash.hex_val c)) (lower_char c)))
          (seq 0 256) = true.
Proof. vm_compute. reflexivity. Qed.

Lemma hex_val_digit (c : ascii) :
  is_hex_digit c = true ->
  0 <= Hash.hex_val c < 16
  /\ Hash.hex_char (Hash.hex_val c) = lower_char c.
Proof.
  pattern c. apply all_ascii. clear c. intros n Hn Hd.
  pose proof hex_val_digit_all as F. rewrite forallb_forall in F.
  assert (Hin : In n (seq 0 256)) by (apply in_seq; lia).
  apply F in Hin. cbv zeta in Hin. rewrite Hd in Hin. cbn [negb orb] in Hin.
  rewrite !andb_true_iff in Hin.
  destruct Hin as [[H1 H2] H3].
  apply Z.leb_le in H1. apply Z.ltb_lt in H2. apply Ascii.eqb_eq in H3.
  auto.
Qed.

Lemma hex_char_inj_all :
  forallb (fun i => forallb (fun j =>
             negb (Ascii.eqb (Hash.hex_char (Z.of_nat i))
                             (Hash.hex_char (Z.of_nat j)))
             || (i =? j)%nat) (seq 0 16)) (seq 0 16) = true.
Proof. vm_compute. reflexivity. Qed.

Lemma hex_char_inj (i j : Z) :
  0 <= i < 16 -> 0 <= j < 16 ->
  Hash.hex_char i = Hash.hex_char j -> i = j.
Proof.
  intros Hi Hj E. pose proof hex_char_inj_all as F.
  rewrite forallb_forall in F.
  specialize (F (Z.to_nat i)). rewrite forallb_forall in F.
  assert (Hin : In (Z.to_nat i) (seq 0 16)) by (apply in_seq; lia).
  specialize (F Hin (Z.to_nat j)).
  assert (Hjn : In (Z.to_nat j) (seq 0 16)) by (apply in_seq; lia).
  apply F in Hjn. rewrite !Z2Nat.id in Hjn by lia.
  rewrite E, Ascii.eqb_refl in Hjn. cbn [negb orb] in Hjn.
  apply Nat.eqb_eq in Hjn. lia.
Qed.

Lemma byte_nibbles (b : Z) :
  is_byte b ->
  Z.land (Z.shiftr b 4) 15 = b / 16 /\ Z.land b 15 = b mod 16.
Proof.
  intros Hb. rewrite Z.shiftr_div_pow2 by lia.
  change 15 with (Z.ones 4). rewrite !Z.land_ones by lia.
  change (2 ^ 4) with 16. split; [|reflexivity].
  apply Z.mod_small. unfold is_byte in Hb.
  split; [apply Z.div_pos; lia | apply Z.div_lt_upper_bound; lia].
Qed.

Lemma nibbles_join_all :
  forallb (fun h => forallb (fun l =>
             Z.lor (Z.shiftl (Z.of_nat h) 4) (Z.of_nat l)
             =? 16 * Z.of_nat h + Z.of_nat l) (seq 0 16)) (seq 0 16) = true.
Proof. vm_compute. reflexivity. Qed.

Lemma nibbles_join (h l : Z) :
  0 <= h < 16 -> 0 <= l < 16 -> Z.lor (Z.shiftl h 4) l = 16 * h + l.
Proof.
  intros Hh Hl. pose proof nibbles_join_all as F.
  rewrite forallb_forall in F.
  specialize (F (Z.to_nat h)). rewrite forallb_forall in F.
  assert (Hin : In (Z.to_nat h) (seq 0 16)) by (apply in_seq; lia).
  specialize (F Hin (Z.to_nat l)).
  assert (Hln : In (Z.to_nat l) (seq 0 16)) by (apply in_seq; lia).
  apply F in Hln. rewrite !Z2Nat.id in Hln by lia. now apply Z.eqb_eq.
Qed.

Lemma hash_verify_loop_exact (digest : list Z) :
  Forall is_byte digest ->
  forall hex,
    all_hex_digits hex = true ->
    String.length hex = (List.length digest * 2)%nat ->
    (Hash.hash_verify_loop digest hex = true
     <-> lower_text hex = Hash.hash_digest_to_hex digest).
Proof.
  induction 1 as [|b digest Hb Hd IH]; intros hex Hx Hl.
  - destruct hex; [|discriminate]. cbn. tauto.
  - destruct hex as [|hi [|lo hex]]; try discriminate.
    cbn [all_hex_digits] in Hx. rewrite !andb_true_iff in Hx.
    destruct Hx as (Hhi & Hlo & Hx).
    cbn [String.length List.length Nat.mul Nat.add] in Hl.
    assert (Hl' : String.length hex = (List.length digest * 2)%nat) by lia.
    destruct (hex_val_digit hi Hhi) as [Rh Ch].
    destruct (hex_val_digit lo Hlo) as [Rl Cl].
    destruct (byte_nibbles b Hb) as [Nh Nl].
    cbn [Hash.hash_verify_loop Hash.hash_digest_to_hex lower_text].
    rewrite (nibbles_join _ _ Rh Rl), Nh, Nl, <- Ch, <- Cl.
    unfold is_byte in Hb.
    destruct (Z.eqb_spec b (16 * Hash.hex_val hi + Hash.hex_val lo)) as [E|E];
      cbn [negb].
    + rewrite (IH hex Hx Hl'). subst b.
      replace ((16 * Hash.hex_val hi + Hash.hex_val lo) / 16)
        with (Hash.hex_val hi)
        by (apply Z.div_unique_pos with (r := Hash.hex_val lo); lia).
      replace ((16 * Hash.hex_val hi + Hash.hex_val lo) mod 16)
        with (Hash.hex_val lo)
        by (apply Z.mod_unique_pos with (q := Hash.hex_val hi); lia).
      split; [now intros -> | now intros [= ->]].
    + split; [discriminate|]. intros [= E1 E2 _]. exfalso. apply E.
      apply hex_char_inj in E1;
        [|lia | split; [apply Z.div_pos; lia | apply Z.div_lt_upper_bound; lia]].
      apply hex_char_inj in E2; [|lia | apply Z.mod_pos_bound; lia].
      rewrite E1, E2. apply Z.div_mod. lia.
Qed.

(** X26. For a text of hexadecimal digits, [hash_verify_hex] answers
    true exactly when the text, its capitals made small, is what
    [hash_digest_to_hex] writes for the digest; in particular the text
    written for a digest always verifies against it. *)
Theorem hash_verify_hex_exact (digest : list Z) (hex : string) :
  Forall is_byte digest ->
  all_hex_digits hex = true ->
  (Hash.hash_verify_hex digest (Some hex) = true
   <-> lower_text hex = Hash.hash_digest_to_hex digest)
  /\ Hash.hash_verify_hex digest (Some (Hash.hash_digest_to_hex digest)) = true.
Proof.
  intros Hd Hx.
  assert (Hlen : forall d, String.length (Hash.hash_digest_to_hex d)
                           = (List.length d * 2)%nat).
  { induction d as [|b d IH]; [reflexivity|].
    cbn [Hash.hash_digest_to_hex String.length List.length]. rewrite IH. lia. }
  assert (Hlow : forall s, String.length (lower_text s) = String.length s).
  { induction s as [|c s IH]; [reflexivity|]. cbn. now rewrite IH. }
  split.
  - unfold Hash.hash_verify_hex, strlen.
    destruct (Nat.eqb_spec (String.length hex) (List.length digest * 2)) as [E|E];
      cbn [negb].
    + now apply hash_verify_loop_exact.
    + split; [discriminate|]. intros H. exfalso. apply E.
      now rewrite <- Hlow, H, Hlen.
  - unfold Hash.hash_verify_hex, strlen. rewrite Hlen, Nat.eqb_refl.
    cbn [negb]. clear hex Hx.
    induction Hd as [|b digest Hb Hd IH]; [reflexivity|].
    cbn [Hash.hash_digest_to_hex Hash.hash_verify_loop].
    destruct (byte_nibbles b Hb) as [-> ->]. unfold is_byte in Hb.
    assert (Rh : 0 <= b / 16 < 16)
      by (split; [apply Z.div_pos; lia | apply Z.div_lt_upper_bound; lia]).
    assert (Rl : 0 <= b mod 16 < 16) by (apply Z.mod_pos_bound; lia).
    assert (V : forall i, 0 <= i < 16 -> Hash.hex_val (Hash.hex_char i) = i).
    { intros i Hi.
      assert (F : forallb (fun n => Hash.hex_val (Hash.hex_char (Z.of_nat n))
                                    =? Z.of_nat n) (seq 0 16) = true)
        by (vm_compute; reflexivity).
      rewrite forallb_forall in F. specialize (F (Z.to_nat i)).
      rewrite Z2Nat.id in F by lia. apply Z.eqb_eq, F, in_seq. lia. }
    rewrite !V by assumption. rewrite (nibbles_join _ _ Rh Rl).
    replace (16 * (b / 16) + b mod 16) with b by (apply Z.div_mod; lia).
    rewrite Z.eqb_refl. cbn [negb]. exact IH.
Qed.

Lemma hash_verify_hex_exact_witness :
  (Hash.hash_verify_hex [222; 173; 190; 239] (Some "DEADbeef") = true
   <-> lower_text "DEADbeef" = Hash.hash_digest_to_hex [222; 173; 190; 239])
  /\ Hash.hash_verify_hex [222; 173; 190; 239]
       (Some (Hash.hash_digest_to_hex [222; 173; 190; 239])) = true.
Proof.
  apply (hash_verify_hex_exact [222; 173; 190; 239] "DEADbeef").
  - repeat constructor; unfold is_byte; lia.
  - vm_compute. reflexivity.
Defined.

(* ------------------------------------------------------------------ *)
(** ** Trimming the texts of udev *)

Lemma skip_spaces_split (s : string) :
  exists a, s = a ++ skip_spaces s /\ all_spaces a
            /\ (skip_spaces s = EmptyString \/ begins_nonspace (skip_spaces s)).
Proof.
  induction s as [|c s (a & Ha & Hs & Hb)].
  - exists EmptyString. cbn. auto.
  - cbn [skip_spaces]. destruct (Ascii.eqb_spec c " "%char) as [->|Hc].
    + exists (String " " a). cbn. rewrite <- Ha. auto.
    + exists EmptyString. cbn. auto.
Qed.

Lemma trailing_spaces_split (s : string) :
  exists p q, s = p ++ q /\ all_spaces q
              /\ (p = EmptyString \/ ends_nonspace p).
Proof.
  induction s as [|c s (p & q & Hs & Hq & Hp)].
  - exists EmptyString, EmptyString. cbn. auto.
  - destruct Hp as [-> | (pre & d & -> & Hd)].
    + cbn in Hs. subst s.
      destruct (Ascii.eqb_spec c " "%char) as [->|Hc].
      * exists EmptyString, (String " " q). cbn. auto.
      * exists (String c EmptyString), q. cbn. split; [reflexivity|].
        split; [exact Hq|]. right. exists EmptyString, c. auto.
    + exists (String c (pre ++ String d EmptyString)), q. subst s.
      split; [reflexivity|]. split; [exact Hq|]. right.
      exists (String c pre), d. auto.
Qed.

Lemma get_spaces (q : string) (m : nat) :
  all_spaces q -> (m < String.length q)%nat -> String.get m q = Some " "%char.
Proof.
  revert m. induction q as [|c q IH]; intros m Hq Hm; [cbn in Hm; lia|].
  destruct Hq as [-> Hq]. destruct m as [|m]; [reflexivity|].
  cbn. apply IH; [exact Hq | cbn in Hm; lia].
Qed.

Lemma trim_end_spaces (p q : string) :
  all_spaces q -> p = EmptyString \/ ends_nonspace p ->
  forall m, (m <= String.length q)%nat ->
    trim_end (p ++ q) (String.length p + m) = String.length p.
Proof.
  intros Hq Hp. induction m as [|m IH]; intros Hm.
  - rewrite Nat.add_0_r. destruct Hp as [-> | (pre & c & -> & Hc)];
      [reflexivity|].
    rewrite length_str_app. cbn [String.length].
    replace (String.length pre + 1)%nat with (S (String.length pre)) by lia.
    cbn [trim_end].
    rewrite <- append_correct1
      by (rewrite length_str_app; cbn; lia).
    assert (G : String.get (String.length pre) (pre ++ String c EmptyString)
                = Some c).
    { rewrite <- (Nat.add_0_l (String.length pre)).
      rewrite <- append_correct2. reflexivity. }
    rewrite G. destruct (Ascii.eqb_spec c " "%char); [contradiction|reflexivity].
  - replace (String.length p + S m)%nat with (S (String.length p + m)) by lia.
    cbn [trim_end].
    rewrite (Nat.add_comm (String.length p) m), <- append_correct2.
    rewrite (get_spaces q m Hq) by lia. cbn.
    rewrite Nat.add_comm. apply IH. lia.
Qed.

Lemma substring_prefix (p q : string) :
  String.substring 0 (String.length p) (p ++ q) = p.
Proof.
  induction p as [|c p IH]; cbn; [now destruct q | now rewrite IH].
Qed.

Lemma all_spaces_app (a b : string) :
  all_spaces a -> all_spaces b -> all_spaces (a ++ b).
Proof.
  induction a as [|c a IH]; cbn; [tauto|]. intros [-> Ha] Hb. auto.
Qed.

(** X27. [safe_strdup_trim] answers NULL exactly for a text that is
    missing, empty or made of spaces only; otherwise its answer is the
    text without the spaces before and after it: it neither begins nor
    ends with a space, and the text is some spaces, the answer, and some
    spaces. *)
Theorem safe_strdup_trim_strips_spaces (s : string) :
  safe_strdup_trim None = None
  /\ match safe_strdup_trim (Some s) with
     | None => all_spaces s
     | Some r =>
         begins_nonspace r /\ ends_nonspace r
         /\ exists a b, s = a ++ r ++ b /\ all_spaces a /\ all_spaces b
     end.
Proof.
  split; [reflexivity|].
  destruct s as [|c0 s0]; [exact I|].
  unfold safe_strdup_trim. cbv zeta. unfold strlen.
  set (s := String c0 s0).
  destruct (skip_spaces_split s) as (a & Ha & Hsa & Hb).
  destruct (trailing_spaces_split (skip_spaces s)) as (p & q & Hs & Hq & Hp).
  rewrite Hs in *. rewrite length_str_app.
  rewrite (trim_end_spaces p q Hq Hp (String.length q) (Nat.le_refl _)).
  destruct (Nat.eqb_spec (String.length p) 0) as [E|E].
  - destruct p; [|discriminate]. rewrite Ha. now apply all_spaces_app.
  - rewrite substring_prefix.
    destruct Hp as [-> | Hp]; [contradiction|].
    split; [|split; [exact Hp|]].
    + destruct p as [|c p]; [cbn in E; lia|].
      destruct Hb as [Hb | Hb]; [discriminate | exact Hb].
    + exists a, q. auto.
Qed.

(* ------------------------------------------------------------------ *)
(** ** Copying the files of an image *)

Lemma select_extract_tool_probes (e : IsoExtract.env) :
  exists k, (1 <= k <= 3)%nat
            /\ snd (IsoExtract.select_extract_tool e) = firstn k tool_probes.
Proof.
  unfold IsoExtract.select_extract_tool, IsoExtract.command_exists.
  destruct (IsoExtract.xe_which e "xorriso");
    [exists 1%nat; split; [lia | reflexivity]|].
  destruct (IsoExtract.xe_which e "bsdtar");
    [exists 2%nat; split; [lia | reflexivity]|].
  destruct (IsoExtract.xe_which e "7z");
    exists 3%nat; (split; [lia | reflexivity]).
Qed.

Lemma select_extract_tool_known (e : IsoExtract.env) (tool : string) :
  fst (IsoExtract.select_extract_tool e) = Some tool ->
  (tool = "xorriso" \/ tool = "bsdtar" \/ tool = "7z")
  /\ IsoExtract.xe_which e tool = true.
Proof.
  unfold IsoExtract.select_extract_tool, IsoExtract.command_exists.
  destruct (IsoExtract.xe_which e "xorriso") eqn:E1; [intros [= <-]; auto|].
  destruct (IsoExtract.xe_which e "bsdtar") eqn:E2; [intros [= <-]; auto|].
  destruct (IsoExtract.xe_which e "7z") eqn:E3; [intros [= <-]; auto|].
  discriminate.
Qed.

Lemma build_extract_command_known (e : IsoExtract.env)
      (tool iso dir : string) :
  tool = "xorriso" \/ tool = "bsdtar" \/ tool = "7z" ->
  exists cmd, IsoExtract.build_extract_command e tool iso dir = Some cmd.
Proof.
  intros [-> | [-> | ->]]; eexists; reflexivity.
Qed.

Lemma extract_commands_app (t1 t2 : list IsoExtract.event) :
  extract_commands (t1 ++ t2) = (extract_commands t1 ++ extract_commands t2)%list.
Proof.
  induction t1 as [|ev t1 IH]; [reflexivity|]. destruct ev; cbn; now rewrite IH.
Qed.

Lemma extract_progress_app (t1 t2 : list IsoExtract.event) :
  extract_progress (t1 ++ t2) = (extract_progress t1 ++ extract_progress t2)%list.
Proof.
  induction t1 as [|ev t1 IH]; [reflexivity|]. destruct ev; cbn; now rewrite IH.
Qed.

(** X28. [iso_extract_to_partition] first looks for a tool: one to three
    [which] command lines, for xorriso, bsdtar and 7z in that order. When
    no tool is found, the image is missing or no temporary directory can
    be made, it does nothing more. Otherwise it runs at most one more
    command line, answers true exactly when that command line ran and
    came back with 0, reports 0.0 first and then 1.0 "Complete" or 0.0
    "Failed" to a callback, and removes the temporary directory as its
    last step, also when the copy failed. *)
Theorem iso_extract_to_partition_cleans_up
        (e : IsoExtract.env) (iso part : string) (progress : bool) :
  let r := IsoExtract.iso_extract_to_partition e (Some iso) (Some part)
             progress in
  let probes := snd (IsoExtract.select_extract_tool e) in
  (exists k, (1 <= k <= 3)%nat /\ probes = firstn k tool_probes)
  /\ ((fst (IsoExtract.iso_extract_is_supported e) = false
       \/ IsoExtract.xe_stat_ok e = false \/ IsoExtract.xe_mkdtemp e = None) ->
      r = (false, probes))
  /\ (forall dir,
         fst (IsoExtract.iso_extract_is_supported e) = true ->
         IsoExtract.xe_stat_ok e = true ->
         IsoExtract.xe_mkdtemp e = Some dir ->
         exists evs,
           snd r = (probes ++ evs ++ [IsoExtract.Xe_rmdir dir])%list
           /\ ~ In (IsoExtract.Xe_rmdir dir) evs
           /\ (List.length (extract_commands evs) <= 1)%nat
           /\ (fst r = true
               <-> exists cmd, extract_commands evs = [cmd]
                               /\ IsoExtract.xe_system e cmd = 0)
           /\ extract_progress evs
              = if progress
                then [(0.0%float, "Extracting ISO...");
                      if fst r then (1.0%float, "Complete")
                      else (0.0%float, "Failed")]
                else []).
Proof.
  cbv zeta. split; [apply select_extract_tool_probes|].
  unfold IsoExtract.iso_extract_to_partition,
    IsoExtract.iso_extract_is_supported.
  pose proof (select_extract_tool_known e) as Hknown.
  destruct (IsoExtract.select_extract_tool e) as [found tp].
  cbn [fst snd] in *.
  destruct found as [tool|].
  2:{ split; [reflexivity|]. discriminate. }
  destruct (Hknown tool eq_refl) as [Hk _]. clear Hknown.
  destruct (IsoExtract.xe_stat_ok e); cbn [negb].
  2:{ split; [reflexivity|]. discriminate. }
  destruct (IsoExtract.xe_mkdtemp e) as [mount_dir|].
  2:{ split; [reflexivity|]. discriminate. }
  split; [intros [H | [H | H]]; discriminate|].
  intros dir _ _ [= <-].
  destruct (build_extract_command_known e tool iso mount_dir Hk) as [xc ->].
  cbv zeta.
  match goal with
  | |- context [IsoExtract.run_privileged e ?c] =>
      destruct (IsoExtract.run_privileged e c) as [rc t1] eqn:Hrp
  end.
  assert (Ht1 : (t1 = [] /\ rc = -1)
                \/ exists c, t1 = [IsoExtract.Xe_system c]
                             /\ rc = IsoExtract.xe_system e c).
  { unfold IsoExtract.run_privileged in Hrp.
    destruct (IsoExtract.xe_root e);
      [|destruct (IsoExtract.xe_pkexec e)]; cbv zeta in Hrp;
      injection Hrp as <- <-; eauto. }
  cbn [fst snd].
  match goal with
  | |- exists evs, (_ ++ ?a ++ ?b ++ ?c ++ _)%list = _ /\ _ =>
      exists (a ++ b ++ c)%list
  end.
  split; [now rewrite <- !app_assoc|].
  rewrite !extract_commands_app, !extract_progress_app.
  split; [|split; [|split]].
  - intros Hin.
    destruct Ht1 as [[-> _] | (c & -> & _)]; destruct progress;
      cbn in Hin; intuition discriminate.
  - destruct Ht1 as [[-> _] | (c & -> & _)]; destruct progress; cbn; lia.
  - destruct Ht1 as [[-> ->] | (c & -> & ->)].
    + split; [discriminate|]. intros (c & Hc & _).
      destruct progress; discriminate Hc.
    + rewrite Z.eqb_eq. split.
      * intros E. exists c. split; [now destruct progress | exact E].
      * intros (c' & Hc & E). destruct progress; cbn in Hc;
          injection Hc as <-; exact E.
  - destruct Ht1 as [[-> _] | (c & -> & _)]; destruct progress;
      cbn; try reflexivity; now destruct (rc =? 0).
Qed.

Lemma iso_extract_to_partition_cleans_up_witness :
  (exists evs,
      snd (IsoExtract.iso_extract_to_partition
             (extract_env (fun _ => true) 1) (Some "/tmp/image.iso")
             (Some "/dev/sdb1") true)
      = (firstn 1 tool_probes ++ evs
         ++ [IsoExtract.Xe_rmdir "/tmp/rufus-mount-a1b2c3"])%list
      /\ ~ In (IsoExtract.Xe_rmdir "/tmp/rufus-mount-a1b2c3") evs)
  /\ fst (IsoExtract.iso_extract_to_partition
            (extract_env (fun _ => true) 1) (Some "/tmp/image.iso")
            (Some "/dev/sdb1") true) = false.
Proof.
  destruct (iso_extract_to_partition_cleans_up
              (extract_env (fun _ => true) 1) "/tmp/image.iso" "/dev/sdb1" true)
    as (_ & _ & H).
  destruct (H "/tmp/rufus-mount-a1b2c3" eq_refl eq_refl eq_refl)
    as (evs & H1 & H2 & _).
  split; [exists evs; split; [exact H1 | exact H2] | reflexivity].
Defined.

(* ------------------------------------------------------------------ *)
(** ** Choosing the file copy *)

(** X29. After the write mode was switched to the file copy,
    [on_write_mode_changed] has selected UEFI and FAT32, so that a click
    on Start is accepted for every image with UEFI boot files that is not
    a Windows image and fits the selected device, as long as an
    extraction tool is installed: the confirmation dialog is shown for a
    file copy to a FAT32 partition of the selected device, and the Start
    button is enabled when no operation is running. *)
Theorem file_copy_mode_is_accepted
        (e : Window.outside) (self : Window.RufusWindow)
        (devs : list device_info_t) (dev : device_info_t)
        (p : string) (info : IsoAnalyzer.iso_info_t) :
  Window.write_mode_dropdown self = 1 ->
  Window.boot_dropdown self = 0 ->
  Window.iso_path self = Some p ->
  Window.iso_info self = Some info ->
  Window.devices self = Some devs ->
  0 <= Window.device_dropdown self < Z.of_nat (List.length devs) ->
  Window.device_dropdown self <> Window.GTK_INVALID_LIST_POSITION ->
  nth_error devs (Z.to_nat (Window.device_dropdown self)) = Some dev ->
  IsoAnalyzer.size info <= Device.size dev ->
  Window.iso_extract_is_supported e = true ->
  IsoAnalyzer.is_windows info = false ->
  IsoAnalyzer.has_efi info = true ->
  let self' := fst (Window.on_write_mode_changed self) in
  (snd (Window.on_write_mode_changed self)
   = negb (Window.operation_running self))
  /\ exists op,
      Window.r_dialog (Window.on_start_clicked e self') = Some op
      /\ Window.op_write_iso op = true
      /\ Window.op_iso_extract op = true
      /\ Window.op_device_path op = Device.path dev
      /\ Window.op_iso_path op = Some p
      /\ Window.op_fs_type op = FS_FAT32
      /\ Window.op_target op = TARGET_UEFI.
Proof.
  intros Hm Hb Hp Hi Hd Hr Hinv Hn Hs Ht Hw He. cbv zeta.
  apply Z.eqb_neq in Hinv.
  assert (Hle : (Z.of_nat (List.length devs) <=? Window.device_dropdown self)
                = false) by (apply Z.leb_gt; lia).
  assert (Hlt : (Device.size dev <? IsoAnalyzer.size info) = false)
    by (apply Z.ltb_ge; lia).
  unfold Window.on_write_mode_changed. cbv zeta. rewrite Hm. cbn [Z.eqb Pos.eqb].
  cbn [fst snd]. split.
  - unfold Window.update_start_sensitivity, Window.reset_status_ready. cbv zeta.
    destruct (Window.operation_running self) eqn:Ho; cbn;
      rewrite ?Ho, ?Hb, ?Hp, ?Hinv; cbn; rewrite ?Hp; reflexivity.
  - unfold Window.on_start_clicked, Window.reset_status_ready,
      Window.extract_checks.
    destruct (Window.operation_running self);
      repeat (progress (cbn; rewrite ?Hd, ?Hb, ?Hp, ?Hi, ?Hm, ?Hinv, ?Hle,
                          ?Hn, ?Hlt, ?Ht, ?Hw, ?He));
      destruct (IsoAnalyzer.is_bootable info); cbn;
      rewrite ?Ht, ?Hw, ?He; cbn;
      eexists; repeat split; reflexivity.
Qed.

Lemma file_copy_mode_is_accepted_witness :
  snd (Window.on_write_mode_changed
         (window_with [stick_with_mounts []] image_4GB 1 0 3)) = true
  /\ exists op,
      Window.r_dialog
        (Window.on_start_clicked (outside_with [root_mount])
           (fst (Window.on_write_mode_changed
                   (window_with [stick_with_mounts []] image_4GB 1 0 3))))
      = Some op
      /\ Window.op_write_iso op = true
      /\ Window.op_iso_extract op = true
      /\ Window.op_device_path op = "/dev/sdb"
      /\ Window.op_iso_path op = Some "/tmp/image.iso"
      /\ Window.op_fs_type op = FS_FAT32
      /\ Window.op_target op = TARGET_UEFI.
Proof.
  apply (file_copy_mode_is_accepted (outside_with [root_mount])
           (window_with [stick_with_mounts []] image_4GB 1 0 3)
           [stick_with_mounts []] (stick_with_mounts []) "/tmp/image.iso"
           image_4GB); try reflexivity.
  - cbn. lia.
  - discriminate.
  - vm_compute. discriminate.
Defined.

(* ------------------------------------------------------------------ *)
(** ** Partitioning without root rights *)

Lemma substring_app_prefix (p x : string) :
  forall n, (String.length p <= n)%nat ->
    String.substring 0 n (p ++ x)
    = p ++ String.substring 0 (n - String.length p) x.
Proof.
  induction p as [|c p IH]; intros n Hn; cbn [append String.length].
  - now rewrite Nat.sub_0_r.
  - destruct n as [|n]; [cbn in Hn; lia|]. cbn [String.substring].
    rewrite IH by (cbn in Hn; lia). reflexivity.
Qed.

Lemma snprintf_script (rest : string) :
  starts_with "sh -c 'printf " (snprintf 1024 ("sh -c 'printf " ++ rest)).
Proof.
  unfold snprintf. rewrite substring_app_prefix by (cbn; lia).
  eexists. reflexivity.
Qed.

Lemma sfdisk_step (pk : string) (w0 w : world) (pre : list Partition.event)
      (rest : string) :
  w_root w = false -> w_pkexec w = Some pk -> w_system w = w_system w0 ->
  w_log w = (w_log w0 ++ pre)%list ->
  pre = [sfdisk_probe] \/ pre = [sfdisk_probe; sfdisk_probe] ->
  runs_sfdisk_once pk w0
    ((rc <- run_privileged (snprintf 1024 ("sh -c 'printf " ++ rest)) ;;
      ret (rc =? 0)) w).
Proof.
  intros Hr Hp Hs Hl Hpre.
  exists (snprintf 1024 ("sh -c 'printf " ++ rest)), pre.
  split; [apply snprintf_script|]. split; [exact Hpre|].
  unfold bind, run_privileged. rewrite Hr, Hp. cbn. rewrite Hl, Hs.
  split; [now rewrite <- app_assoc | reflexivity].
Qed.

Lemma single_privileged_step (pk : string) (w0 w : world)
      (pre : list Partition.event) (device : string)
      (style : partition_style_t) (fs : fs_type_t) :
  w_root w = false -> w_which w "sfdisk" = true -> w_pkexec w = Some pk ->
  w_system w = w_system w0 ->
  w_log w = (w_log w0 ++ pre)%list ->
  pre = [] \/ pre = [sfdisk_probe] ->
  runs_sfdisk_once pk w0 (partition_create_single_privileged device style fs w).
Proof.
  intros Hr Hw Hp Hs Hl Hpre. unfold partition_create_single_privileged.
  rewrite bind_command_exists, Hw. cbn [negb]. cbv zeta.
  rewrite ?str_app_assoc.
  apply sfdisk_step with (pre := (pre ++ [sfdisk_probe])%list); try assumption.
  - cbn. now rewrite Hl, <- app_assoc.
  - destruct Hpre as [-> | ->]; auto.
Qed.

(** X30. Without root rights, with [sfdisk] installed and [pkexec]
    found, each of the three layout functions looks for [sfdisk] (once,
    or twice when [partition_create_bootable] falls back on the single
    layout), then runs exactly one partitioning command line, a shell
    that pipes a [printf] into [sfdisk], handed to [pkexec], and answers
    true exactly when that command line came back with 0. *)
Theorem unprivileged_partitioning_runs_sfdisk_once
        (w : world) (device pk : string) (style : partition_style_t)
        (target : target_type_t) (fs : fs_type_t) (lbl : option string) :
  w_root w = false ->
  w_which w "sfdisk" = true ->
  w_pkexec w = Some pk ->
  runs_sfdisk_once pk w (partition_create_single device style fs lbl w)
  /\ runs_sfdisk_once pk w (partition_create_single_efi device style lbl w)
  /\ runs_sfdisk_once pk w
       (partition_create_bootable device style target fs lbl w).
Proof.
  intros Hr Hw Hp.
  rewrite (unprivileged_single w), (unprivileged_single_efi w),
    (unprivileged_bootable w) by exact Hr.
  split; [|split].
  - apply single_privileged_step with (pre := []); auto.
    now rewrite app_nil_r.
  - unfold partition_create_single_efi_privileged.
    rewrite bind_command_exists, Hw. cbn [negb]. cbv zeta.
    rewrite ?str_app_assoc.
    apply sfdisk_step with (pre := [sfdisk_probe]); auto.
  - unfold partition_create_bootable_privileged.
    rewrite bind_command_exists, Hw. cbn [negb].
    destruct style, target;
      try (apply single_privileged_step with (pre := [sfdisk_probe]); auto);
      cbv zeta; rewrite ?str_app_assoc;
      apply sfdisk_step with (pre := [sfdisk_probe]); auto.
Qed.

Lemma unprivileged_partitioning_runs_sfdisk_once_witness :
  runs_sfdisk_once "/usr/bin/pkexec" (blank_world false)
    (partition_create_single "/dev/sdb" PARTITION_STYLE_MBR FS_EXT4 None
       (blank_world false))
  /\ runs_sfdisk_once "/usr/bin/pkexec" (blank_world false)
       (partition_create_single_efi "/dev/sdb" PARTITION_STYLE_MBR None
          (blank_world false))
  /\ runs_sfdisk_once "/usr/bin/pkexec" (blank_world false)
       (partition_create_bootable "/dev/sdb" PARTITION_STYLE_MBR TARGET_UEFI
          FS_EXT4 None (blank_world false)).
Proof.
  apply (unprivileged_partitioning_runs_sfdisk_once (blank_world false)
           "/dev/sdb" "/usr/bin/pkexec" PARTITION_STYLE_MBR TARGET_UEFI
           FS_EXT4 None); reflexivity.
Defined.
